(** * Eye Touch: region grid, region tracking and interaction tests

    A shallow embedding of the logic of [algorithm_interface.py]
    ([RegionManager], [EyeTrackingInterface]), [main_window.py]
    ([RegionGridWidget.update_gaze_point], the slots of [MainWindow] and
    [ControlPanelWidget.toggle_tracking]), [interaction_test.py]
    ([RegionDwellTest], [TargetSelectionTest], [InteractionTestManager]) and
    [welcome_window.py] (the countdown of [WelcomeWindow]).

    Conventions of the embedding.
    - Python [int] is [Z]; [len] and list indices are [nat].
    - Screen coordinates are Python floats; they are IEEE-754 binary64 values
      here ([float], the kernel's primitive floats), with the same operations
      in the same order as the source.
    - Readings of [time.time()], durations and accuracies are rationals ([Q]):
      the handlers only subtract, divide and compare them.
    - A method that mutates [self] is a computation in the monad [M] over the
      object's record; [time.time()] reads the next value of a clock oracle,
      a Qt signal's [emit] appends to a log, and a Python exception is an
      outcome [Raise]. *)

From Stdlib Require Import ZArith QArith Lqa Floats List Bool.
From stdpp Require Import base option list strings pretty gmap.

Import ListNotations.
Local Open Scope Z_scope.

(** ** Python values *)

Module Py.

Inductive Exn : Type :=
| ZeroDivisionError
| ValueError.

(** [float(z)]: the binary64 value nearest to [z]. *)
Definition float_of_Z (z : Z) : float :=
  SF2Prim (binary_normalize prec emax z 0 false).

(** [a / b] on two [int]s: true division. The quotient of the converted
    operands is the correctly rounded quotient whenever both operands are
    below 2^53 in magnitude, which screen sizes and grid dimensions are.
    Above that Python rounds the exact quotient once, and raises
    [OverflowError] when it is too large for a double: the embedding covers
    the range below 2^53 only (the window takes the screen size from Qt, as
    C [int]s). *)
Definition int_truediv (a b : Z) : Exn + float :=
  if b =? 0 then inl ZeroDivisionError
  else inr (float_of_Z a / float_of_Z b)%float.

(** Comparison of two values held in a container ([dict], [tuple]):
    [a is b or a == b]. Identity is not part of the embedding; two NaNs are
    taken to be the same object, which is the case whenever a container is
    compared with itself. *)
Definition float_eq (a b : float) : bool :=
  (a =? b)%float || (PrimFloat.is_nan a && PrimFloat.is_nan b).

(** [range(n)] *)
Definition range (n : Z) : list Z := seqZ 0 n.

(** [int(q)]: truncation toward zero. *)
Definition int_of_Q (q : Q) : Z := Z.quot (Qnum q) (Z.pos (Qden q)).

(** Truthiness of an [Optional[float]]: [None] and [0.0] are false. *)
Definition truthy (t : option Q) : bool :=
  match t with
  | None => false
  | Some q => negb (Qeq_bool q 0)
  end.

(** [==] on two [Optional] values, given [==] on the payload. *)
Definition option_eq {A : Type} (eq : A -> A -> bool) (a b : option A) : bool :=
  match a, b with
  | None, None => true
  | Some u, Some v => eq u v
  | _, _ => false
  end.

End Py.

(** ** Data of [algorithm_interface.py] *)

Module GazePoint.
Record t : Type := Build {
  screen_x : float;
  screen_y : float;
  confidence : float;
  timestamp : float
}.

(** The [__eq__] a dataclass generates: the tuples of fields are compared. *)
Definition eqb (a b : t) : bool :=
  Py.float_eq (screen_x a) (screen_x b)
  && Py.float_eq (screen_y a) (screen_y b)
  && Py.float_eq (confidence a) (confidence b)
  && Py.float_eq (timestamp a) (timestamp b).
End GazePoint.

(** A region is the [dict] built by [_create_regions]; its keys are fixed, so
    it is a record. *)
Module Region.
Record t : Type := Build {
  id : Z;
  name : string;
  x : float;
  y : float;
  width : float;
  height : float;
  center_x : float;
  center_y : float
}.

(** [==] on two region dicts: same keys, equal values. *)
Definition eqb (a b : t) : bool :=
  (id a =? id b)
  && String.eqb (name a) (name b)
  && Py.float_eq (x a) (x b)
  && Py.float_eq (y a) (y b)
  && Py.float_eq (width a) (width b)
  && Py.float_eq (height a) (height b)
  && Py.float_eq (center_x a) (center_x b)
  && Py.float_eq (center_y a) (center_y b).

(** Equality of ids, the comparison the interaction tests make. *)
Definition same_id (a b : option t) : bool :=
  Py.option_eq (fun u v => id u =? id v) a b.
End Region.

(** An entry of [region_history]. *)
Module Transition.
Record t : Type := Build {
  region : option Region.t;
  timestamp : Q
}.
End Transition.

(** ** [RegionManager] *)

Module RegionManager.

Record t : Type := Build {
  screen_width : Z;
  screen_height : Z;
  rows : Z;
  cols : Z;
  regions : list Region.t;
  current_region : option Region.t;
  region_history : list Transition.t
}.

(** The dict built in the body of the two loops of [_create_regions]. *)
Definition make_region (ncols : Z) (region_width region_height : float)
    (row col : Z) : Region.t :=
  let fcol := Py.float_of_Z col in
  let frow := Py.float_of_Z row in
  {| Region.id := row * ncols + col;
     Region.name := "区域_" +:+ pretty (row + 1) +:+ "_" +:+ pretty (col + 1);
     Region.x := (fcol * region_width)%float;
     Region.y := (frow * region_height)%float;
     Region.width := region_width;
     Region.height := region_height;
     Region.center_x := (fcol * region_width + region_width / 2)%float;
     Region.center_y := (frow * region_height + region_height / 2)%float |}.

(** The two nested loops, for cell sizes already computed. *)
Definition grid (nrows ncols : Z) (region_width region_height : float)
    : list Region.t :=
  row ← Py.range nrows;
  col ← Py.range ncols;
  [make_region ncols region_width region_height row col].

Definition _create_regions (screen_width screen_height nrows ncols : Z)
    : Py.Exn + list Region.t :=
  match Py.int_truediv screen_width ncols with
  | inl e => inl e
  | inr region_width =>
      match Py.int_truediv screen_height nrows with
      | inl e => inl e
      | inr region_height =>
          inr (grid nrows ncols region_width region_height)
      end
  end.

(** [RegionManager(screen_width, screen_height, rows, cols)] *)
Definition __init__ (screen_width screen_height nrows ncols : Z)
    : Py.Exn + t :=
  match _create_regions screen_width screen_height nrows ncols with
  | inl e => inl e
  | inr rs =>
      inr {| screen_width := screen_width;
             screen_height := screen_height;
             rows := nrows;
             cols := ncols;
             regions := rs;
             current_region := None;
             region_history := [] |}
  end.

(** The test of the loop of [get_region_by_point]. *)
Definition contains (r : Region.t) (px py : float) : bool :=
  ((Region.x r <=? px) && (px <=? Region.x r + Region.width r)
   && (Region.y r <=? py) && (py <=? Region.y r + Region.height r))%float.

(** [get_region_by_point]: the first region of the list that contains the
    point. It reads [self.regions] only. *)
Definition get_region_by_point (m : t) (px py : float) : option Region.t :=
  find (fun r => contains r px py) (regions m).

(** [update_current_region], with [now] the value [time.time()] returns if
    it is called. *)
Definition update_current_region (px py : float) (now : Q) (m : t) : t :=
  let new_region := get_region_by_point m px py in
  if negb (Py.option_eq Region.eqb new_region (current_region m)) then
    {| screen_width := screen_width m;
       screen_height := screen_height m;
       rows := rows m;
       cols := cols m;
       regions := regions m;
       current_region := new_region;
       region_history :=
         region_history m
           ++ [ {| Transition.region := new_region;
                   Transition.timestamp := now |} ] |}
  else m.

Definition get_regions (m : t) : list Region.t := regions m.

Definition get_current_region (m : t) : option Region.t := current_region m.

End RegionManager.

(** ** [RegionGridWidget.update_gaze_point] of [main_window.py] *)

Module RegionGridWidget.

(** The two signals of the widget. *)
Inductive Signal : Type :=
| region_entered (r : Region.t)
| region_exited (r : Region.t).

Record t : Type := Build {
  region_manager : RegionManager.t;
  current_gaze_point : option GazePoint.t;
  (** the signals emitted so far, oldest first *)
  emitted : list Signal
}.

Definition __init__ (rm : RegionManager.t) : t :=
  {| region_manager := rm; current_gaze_point := None; emitted := [] |}.

(** [if old_region: ...]: a region dict has keys, so it is true unless it is
    [None]. *)
Definition emit_if {A : Type} (o : option A) (sig : A -> Signal)
    (log : list Signal) : list Signal :=
  match o with
  | Some r => log ++ [sig r]
  | None => log
  end.

(** [update_gaze_point]; [now] is what [time.time()] returns inside
    [update_current_region]. The closing [self.update()] only schedules a
    repaint. *)
Definition update_gaze_point (gaze_point : option GazePoint.t) (now : Q)
    (w : t) : t :=
  if negb (Py.option_eq GazePoint.eqb gaze_point (current_gaze_point w)) then
    match gaze_point with
    | Some g =>
        let old_region := RegionManager.get_current_region (region_manager w) in
        let rm :=
          RegionManager.update_current_region
            (GazePoint.screen_x g) (GazePoint.screen_y g) now
            (region_manager w) in
        let new_region := RegionManager.get_current_region rm in
        {| region_manager := rm;
           current_gaze_point := gaze_point;
           emitted :=
             if negb (Py.option_eq Region.eqb old_region new_region) then
               emit_if new_region region_entered
                 (emit_if old_region region_exited (emitted w))
             else emitted w |}
    | None =>
        {| region_manager := region_manager w;
           current_gaze_point := gaze_point;
           emitted := emitted w |}
    end
  else w.

End RegionGridWidget.

(** ** Data of [interaction_test.py] *)

Inductive TestType : Type :=
| REGION_DWELL
| TARGET_SELECTION
| PATH_TRACKING
| SPEED_ACCURACY.

Module TestResult.
Record t : Type := Build {
  test_type : TestType;
  success : bool;
  duration : Q;
  accuracy : Q;
  target_region : option Region.t;
  actual_regions : list Region.t;
  timestamp : Q
}.
End TestResult.

(** ** Methods as computations

    A method runs on the record of its object and on a world: the readings
    [time.time()] will return, how many of them were consumed, and the
    [TestResult]s the [test_completed] signal has carried so far. *)

Module World.
Record t : Type := Build {
  clock : nat -> Q;
  reads : nat;
  test_completed : list TestResult.t
}.

(** A world in which nothing has happened yet. *)
Definition fresh (c : nat -> Q) (log : list TestResult.t) : t :=
  {| clock := c; reads := 0; test_completed := log |}.

(** The reading the next call of [time.time()] returns. *)
Definition now (w : t) : Q := clock w (reads w).

(** The world once that reading is consumed. *)
Definition tick (w : t) : t :=
  {| clock := clock w; reads := S (reads w); test_completed := test_completed w |}.

(** The world once the signal has carried [r]. *)
Definition push (r : TestResult.t) (w : t) : t :=
  {| clock := clock w; reads := reads w; test_completed := test_completed w ++ [r] |}.
End World.

Inductive Outcome (A : Type) : Type :=
| Ok (a : A)
| Raise (e : Py.Exn).
Arguments Ok {A} a.
Arguments Raise {A} e.

Definition M (St A : Type) : Type := St -> World.t -> Outcome A * St * World.t.

Definition ret {St A : Type} (a : A) : M St A := fun s w => (Ok a, s, w).

Definition bind {St A B : Type} (m : M St A) (k : A -> M St B) : M St B :=
  fun s w =>
    match m s w with
    | (Ok a, s', w') => k a s' w'
    | (Raise e, s', w') => (Raise e, s', w')
    end.

Definition raise {St A : Type} (e : Py.Exn) : M St A := fun s w => (Raise e, s, w).

Definition get {St : Type} : M St St := fun s w => (Ok s, s, w).

Definition modify {St : Type} (f : St -> St) : M St unit := fun s w => (Ok tt, f s, w).

(** [time.time()] *)
Definition time_time {St : Type} : M St Q :=
  fun s w => (Ok (World.now w), s, World.tick w).

(** [self.test_completed.emit(result)] *)
Definition emit {St : Type} (r : TestResult.t) : M St unit :=
  fun s w => (Ok tt, s, World.push r w).

Declare Scope method_scope.
Delimit Scope method_scope with method.
Notation "'let*' x ':=' m 'in' k" := (bind m (fun x => k))
  (at level 10, x name, m at level 100, k at level 200) : method_scope.
Notation "m '>>' k" := (bind m (fun _ => k))
  (at level 62, right associativity) : method_scope.
Notation "'when' b 'then' m" := (if b then m else ret tt)
  (at level 10, b at level 100, m at level 200) : method_scope.

(** State, world and outcome of a run. *)
Definition state_of {St A : Type} (r : Outcome A * St * World.t) : St := snd (fst r).
Definition world_of {St A : Type} (r : Outcome A * St * World.t) : World.t := snd r.
Definition signals_of {St A : Type} (r : Outcome A * St * World.t) : list TestResult.t :=
  World.test_completed (snd r).

Definition Qltb (a b : Q) : bool := negb (Qle_bool b a).

(** [min(a, b)] of Python: [b] when [b < a], else [a]. *)
Definition py_min (a b : Q) : Q := if Qltb b a then b else a.

(** ** [RegionDwellTest]

    The widgets of [init_ui] are kept as what the test writes into them: the
    maximum and the value of the progress bar, the text of the status label
    and whether the 10 ms timer that calls [update_progress] runs. The
    instruction label is written once and never read. *)

Module RegionDwellTest.

Record t : Type := Build {
  target_region : Region.t;
  dwell_time : Q;
  start_time : option Q;
  dwell_start_time : option Q;
  is_in_target : bool;
  test_active : bool;
  progress_maximum : Z;
  progress_value : Z;
  status_label : string;
  update_timer : bool
}.

Definition __init__ (target : Region.t) (dwell : Q) : t :=
  {| target_region := target;
     dwell_time := dwell;
     start_time := None;
     dwell_start_time := None;
     is_in_target := false;
     test_active := false;
     progress_maximum := Py.int_of_Q (dwell * 100);
     progress_value := 0;
     status_label := "等待开始...";
     update_timer := false |}.

Definition set_start_time (v : option Q) (s : t) : t :=
  {| target_region := target_region s; dwell_time := dwell_time s;
     start_time := v; dwell_start_time := dwell_start_time s;
     is_in_target := is_in_target s; test_active := test_active s;
     progress_maximum := progress_maximum s; progress_value := progress_value s;
     status_label := status_label s; update_timer := update_timer s |}.

Definition set_dwell_start_time (v : option Q) (s : t) : t :=
  {| target_region := target_region s; dwell_time := dwell_time s;
     start_time := start_time s; dwell_start_time := v;
     is_in_target := is_in_target s; test_active := test_active s;
     progress_maximum := progress_maximum s; progress_value := progress_value s;
     status_label := status_label s; update_timer := update_timer s |}.

Definition set_is_in_target (v : bool) (s : t) : t :=
  {| target_region := target_region s; dwell_time := dwell_time s;
     start_time := start_time s; dwell_start_time := dwell_start_time s;
     is_in_target := v; test_active := test_active s;
     progress_maximum := progress_maximum s; progress_value := progress_value s;
     status_label := status_label s; update_timer := update_timer s |}.

Definition set_test_active (v : bool) (s : t) : t :=
  {| target_region := target_region s; dwell_time := dwell_time s;
     start_time := start_time s; dwell_start_time := dwell_start_time s;
     is_in_target := is_in_target s; test_active := v;
     progress_maximum := progress_maximum s; progress_value := progress_value s;
     status_label := status_label s; update_timer := update_timer s |}.

Definition set_progress_value (v : Z) (s : t) : t :=
  {| target_region := target_region s; dwell_time := dwell_time s;
     start_time := start_time s; dwell_start_time := dwell_start_time s;
     is_in_target := is_in_target s; test_active := test_active s;
     progress_maximum := progress_maximum s; progress_value := v;
     status_label := status_label s; update_timer := update_timer s |}.

Definition set_status_label (v : string) (s : t) : t :=
  {| target_region := target_region s; dwell_time := dwell_time s;
     start_time := start_time s; dwell_start_time := dwell_start_time s;
     is_in_target := is_in_target s; test_active := test_active s;
     progress_maximum := progress_maximum s; progress_value := progress_value s;
     status_label := v; update_timer := update_timer s |}.

Definition set_update_timer (v : bool) (s : t) : t :=
  {| target_region := target_region s; dwell_time := dwell_time s;
     start_time := start_time s; dwell_start_time := dwell_start_time s;
     is_in_target := is_in_target s; test_active := test_active s;
     progress_maximum := progress_maximum s; progress_value := progress_value s;
     status_label := status_label s; update_timer := v |}.

Local Open Scope method_scope.

Definition start_test : M t unit :=
  modify (set_test_active true) >>
  let* now := time_time in
  modify (set_start_time (Some now)) >>
  modify (set_status_label "测试进行中...") >>
  modify (set_update_timer true).

Definition stop_test : M t unit :=
  modify (set_test_active false) >>
  modify (set_update_timer false).

(** The [TestResult] that [complete_test] builds. *)
Definition result (self : t) (success : bool) (total_duration stamp : Q)
    : TestResult.t :=
  {| TestResult.test_type := REGION_DWELL;
     TestResult.success := success;
     TestResult.duration := total_duration;
     TestResult.accuracy := if success then 1%Q else 0%Q;
     TestResult.target_region := Some (target_region self);
     TestResult.actual_regions := if success then [target_region self] else [];
     TestResult.timestamp := stamp |}.

Definition complete_test (success : bool) : M t unit :=
  stop_test >>
  let* self := get in
  let* total_duration :=
    match start_time self with
    | Some t0 =>
        if Py.truthy (Some t0)
        then (let* now := time_time in ret (now - t0)%Q)
        else ret 0%Q
    | None => ret 0%Q
    end in
  let* stamp := time_time in
  modify (set_status_label (if success then "✅ 测试完成！" else "❌ 测试失败")) >>
  emit (result self success total_duration stamp).

(** [current_region is not None and current_region['id'] == target['id']] *)
Definition in_target_region (self : t) (current_region : option Region.t) : bool :=
  match current_region with
  | Some r => Region.id r =? Region.id (target_region self)
  | None => false
  end.

Definition update_gaze_point (gaze_point : option GazePoint.t)
    (current_region : option Region.t) : M t unit :=
  let* self := get in
  if negb (test_active self) then ret tt
  else
    let in_target := in_target_region self current_region in
    if in_target && negb (is_in_target self) then
      modify (set_is_in_target true) >>
      let* now := time_time in
      modify (set_dwell_start_time (Some now)) >>
      modify (set_status_label "✅ 进入目标区域，保持注视...")
    else if negb in_target && is_in_target self then
      modify (set_is_in_target false) >>
      modify (set_dwell_start_time None) >>
      modify (set_status_label "❌ 离开目标区域，请重新注视") >>
      modify (set_progress_value 0)
    else ret tt.

(** The body of [if self.is_in_target and self.dwell_start_time:]. *)
Definition dwell_check (d : Q) : M t unit :=
  let* self := get in
  let* now := time_time in
  let elapsed := (now - d)%Q in
  if Qeq_bool (dwell_time self) 0 then raise Py.ZeroDivisionError
  else
    let progress := py_min (elapsed / dwell_time self)%Q 1%Q in
    modify (set_progress_value
              (Py.int_of_Q (progress * inject_Z (progress_maximum self)))) >>
    when Qle_bool 1 progress then complete_test true.

(** The body of the timeout check. *)
Definition timeout_check : M t unit :=
  let* self := get in
  match start_time self with
  | Some t0 =>
      if Py.truthy (Some t0) then
        let* now := time_time in
        when Qltb 30 (now - t0) then complete_test false
      else ret tt
  | None => ret tt
  end.

Definition update_progress : M t unit :=
  let* self := get in
  if negb (test_active self) then ret tt
  else
    (match dwell_start_time self with
     | Some d =>
         when is_in_target self && Py.truthy (Some d) then dwell_check d
     | None => ret tt
     end) >>
    timeout_check.

End RegionDwellTest.

(** ** [random.sample]

    The standard library's selection without replacement, on a copy of the
    population: each draw picks a position among those still live, takes the
    element there and moves the last live element into the hole. [rnd i] is
    the raw value behind the [i]-th draw; [_randbelow(m)] reduces it below
    [m]. (For a large population CPython keeps a set of the positions already
    chosen instead of a copy; it picks distinct positions all the same.) *)

Module Random.

Section Sample.
Context {A : Type}.
Variable rnd : nat -> nat.

Definition randbelow (i m : nat) : nat := (rnd i mod m)%nat.

(** [k] draws from the live part [pool], the next draw being the [i]-th. *)
Fixpoint draw (k i : nat) (pool : list A) : list A :=
  match k with
  | O => []
  | S k' =>
      let j := randbelow i (length pool) in
      match pool !! j, last pool with
      | Some picked, Some moved =>
          picked :: draw k' (S i) (removelast (<[j := moved]> pool))
      | _, _ => []
      end
  end.

(** [random.sample(population, k)] *)
Definition sample (population : list A) (k : Z) : Py.Exn + list A :=
  if (0 <=? k) && (k <=? Z.of_nat (length population))
  then inr (draw (Z.to_nat k) 0 population)
  else inl Py.ValueError.
End Sample.

End Random.

(** ** [TargetSelectionTest]

    [current_target_index] is only ever set to 0 and incremented, so it is a
    [nat]. The two labels of [init_ui] that the test rewrites are kept as
    their texts. *)

Module TargetSelectionTest.

Record t : Type := Build {
  regions : list Region.t;
  num_targets : Z;
  current_target_index : nat;
  target_sequence : list Region.t;
  selected_regions : list Region.t;
  test_active : bool;
  start_time : option Q;
  current_target_label : string;
  progress_label : string
}.

Definition set_current_target_index (v : nat) (s : t) : t :=
  {| regions := regions s; num_targets := num_targets s;
     current_target_index := v; target_sequence := target_sequence s;
     selected_regions := selected_regions s; test_active := test_active s;
     start_time := start_time s;
     current_target_label := current_target_label s;
     progress_label := progress_label s |}.

Definition set_target_sequence (v : list Region.t) (s : t) : t :=
  {| regions := regions s; num_targets := num_targets s;
     current_target_index := current_target_index s; target_sequence := v;
     selected_regions := selected_regions s; test_active := test_active s;
     start_time := start_time s;
     current_target_label := current_target_label s;
     progress_label := progress_label s |}.

Definition set_selected_regions (v : list Region.t) (s : t) : t :=
  {| regions := regions s; num_targets := num_targets s;
     current_target_index := current_target_index s;
     target_sequence := target_sequence s;
     selected_regions := v; test_active := test_active s;
     start_time := start_time s;
     current_target_label := current_target_label s;
     progress_label := progress_label s |}.

Definition set_test_active (v : bool) (s : t) : t :=
  {| regions := regions s; num_targets := num_targets s;
     current_target_index := current_target_index s;
     target_sequence := target_sequence s;
     selected_regions := selected_regions s; test_active := v;
     start_time := start_time s;
     current_target_label := current_target_label s;
     progress_label := progress_label s |}.

Definition set_start_time (v : option Q) (s : t) : t :=
  {| regions := regions s; num_targets := num_targets s;
     current_target_index := current_target_index s;
     target_sequence := target_sequence s;
     selected_regions := selected_regions s; test_active := test_active s;
     start_time := v;
     current_target_label := current_target_label s;
     progress_label := progress_label s |}.

Definition set_current_target_label (v : string) (s : t) : t :=
  {| regions := regions s; num_targets := num_targets s;
     current_target_index := current_target_index s;
     target_sequence := target_sequence s;
     selected_regions := selected_regions s; test_active := test_active s;
     start_time := start_time s;
     current_target_label := v;
     progress_label := progress_label s |}.

Definition set_progress_label (v : string) (s : t) : t :=
  {| regions := regions s; num_targets := num_targets s;
     current_target_index := current_target_index s;
     target_sequence := target_sequence s;
     selected_regions := selected_regions s; test_active := test_active s;
     start_time := start_time s;
     current_target_label := current_target_label s;
     progress_label := v |}.

Local Open Scope method_scope.

(** [generate_target_sequence], drawing from the random source [rnd]. *)
Definition generate_target_sequence (rnd : nat -> nat) : M t unit :=
  let* self := get in
  match Random.sample rnd (regions self)
          (Z.min (num_targets self) (Z.of_nat (length (regions self)))) with
  | inr picked => modify (set_target_sequence picked)
  | inl e => raise e
  end.

(** The fields [__init__] assigns before it calls [init_ui] and
    [generate_target_sequence]. *)
Definition blank (rs : list Region.t) (n : Z) : t :=
  {| regions := rs; num_targets := n;
     current_target_index := 0; target_sequence := [];
     selected_regions := []; test_active := false;
     start_time := None;
     current_target_label := ""; progress_label := "" |}.

(** [TargetSelectionTest(regions, num_targets)]: the object, or the
    exception that leaves the constructor. *)
Definition __init__ (rnd : nat -> nat) (rs : list Region.t) (n : Z)
    : Py.Exn + t :=
  match generate_target_sequence rnd (blank rs n) (World.fresh (fun _ => 0%Q) []) with
  | (Ok _, self, _) => inr self
  | (Raise e, _, _) => inl e
  end.

Definition update_display : M t unit :=
  let* self := get in
  match target_sequence self !! current_target_index self with
  | Some current_target =>
      modify (set_current_target_label ("目标: " +:+ Region.name current_target)) >>
      modify (set_progress_label
                ("进度: " +:+ pretty (Z.of_nat (current_target_index self) + 1)
                 +:+ " / " +:+ pretty (Z.of_nat (length (target_sequence self)))))
  | None => modify (set_current_target_label "测试完成！")
  end.

Definition start_test : M t unit :=
  modify (set_test_active true) >>
  let* now := time_time in
  modify (set_start_time (Some now)) >>
  modify (set_current_target_index 0) >>
  modify (set_selected_regions []) >>
  update_display.

Definition stop_test : M t unit :=
  modify (set_test_active false).

(** [len(self.selected_regions) / len(self.target_sequence)], for a sequence
    that is not empty. *)
Definition accuracy_of (self : t) : Q :=
  (inject_Z (Z.of_nat (length (selected_regions self)))
   / inject_Z (Z.of_nat (length (target_sequence self))))%Q.

(** The [TestResult] that [complete_test] builds. *)
Definition result (self : t) (total_duration stamp : Q) : TestResult.t :=
  {| TestResult.test_type := TARGET_SELECTION;
     TestResult.success := Qeq_bool (accuracy_of self) 1;
     TestResult.duration := total_duration;
     TestResult.accuracy := accuracy_of self;
     TestResult.target_region := None;
     TestResult.actual_regions := selected_regions self;
     TestResult.timestamp := stamp |}.

(** [complete_test]. The result carries the list [selected_regions] itself;
    it is recorded here with the contents the list has at emission. *)
Definition complete_test : M t unit :=
  stop_test >>
  let* self := get in
  let* total_duration :=
    match start_time self with
    | Some t0 =>
        if Py.truthy (Some t0)
        then (let* now := time_time in ret (now - t0)%Q)
        else ret 0%Q
    | None => ret 0%Q
    end in
  if (length (target_sequence self) =? 0)%nat then raise Py.ZeroDivisionError
  else
    let* stamp := time_time in
    emit (result self total_duration stamp).

(** [update_gaze_point]. [if current_region:] holds for every region dict, so
    it tests for [None]; past the first guard the index is below the length
    and the lookup of the current target succeeds. *)
Definition update_gaze_point (gaze_point : option GazePoint.t)
    (current_region : option Region.t) : M t unit :=
  let* self := get in
  if negb (test_active self)
     || (length (target_sequence self) <=? current_target_index self)%nat
  then ret tt
  else
    match current_region, target_sequence self !! current_target_index self with
    | Some current, Some target =>
        if Region.id current =? Region.id target then
          modify (set_selected_regions (selected_regions self ++ [current])) >>
          modify (set_current_target_index (S (current_target_index self))) >>
          let* self' := get in
          if (length (target_sequence self') <=? current_target_index self')%nat
          then complete_test
          else update_display
        else ret tt
    | _, _ => ret tt
    end.

End TargetSelectionTest.

(** ** [InteractionTestManager] *)

Module InteractionTestManager.

Record t : Type := Build {
  regions : list Region.t;
  test_results : list TestResult.t
}.

Definition __init__ (rs : list Region.t) : t :=
  {| regions := rs; test_results := [] |}.

(** The slot connected to [test_completed]; the two [print]s write to the
    console only. *)
Definition on_test_completed (result : TestResult.t) (m : t) : t :=
  {| regions := regions m; test_results := test_results m ++ [result] |}.

(** The values of the dict [get_test_statistics] returns. *)
Inductive Value : Type :=
| VInt (n : Z)
| VFloat (q : Q)
| VResults (rs : list TestResult.t).

(** [sum(1 for r in results if r.success)] *)
Definition successful_tests (rs : list TestResult.t) : Z :=
  Z.of_nat (length (filter (fun r => TestResult.success r = true) rs)).

(** [sum(f(r) for r in results)], from 0, left to right. *)
Definition sum_of (f : TestResult.t -> Q) (rs : list TestResult.t) : Q :=
  fold_left (fun acc r => (acc + f r)%Q) rs 0%Q.

Definition get_test_statistics (m : t) : gmap string Value :=
  match test_results m with
  | [] => ∅
  | _ :: _ =>
      let total_tests := Z.of_nat (length (test_results m)) in
      let successful := successful_tests (test_results m) in
      let avg_accuracy :=
        (sum_of TestResult.accuracy (test_results m) / inject_Z total_tests)%Q in
      let avg_duration :=
        (sum_of TestResult.duration (test_results m) / inject_Z total_tests)%Q in
      <["total_tests" := VInt total_tests]>
        (<["success_rate" := VFloat (inject_Z successful / inject_Z total_tests)%Q]>
           (<["average_accuracy" := VFloat avg_accuracy]>
              (<["average_duration" := VFloat avg_duration]>
                 (<["results" := VResults (test_results m)]> ∅))))
  end.

End InteractionTestManager.

(** ** Runs of the tests

    A run delivers calls one after the other; each call comes with the
    readings the clock gives while it executes. *)

Module DwellRun.

Inductive Event : Type :=
| Gaze (c : nat -> Q) (gaze_point : option GazePoint.t)
       (current_region : option Region.t)
| Tick (c : nat -> Q).

Definition Config : Type := (RegionDwellTest.t * list TestResult.t)%type.

Definition call (m : M RegionDwellTest.t unit) (c : nat -> Q) (cfg : Config)
    : Config :=
  let r := m (fst cfg) (World.fresh c (snd cfg)) in
  (state_of r, signals_of r).

Definition step (cfg : Config) (e : Event) : Config :=
  match e with
  | Gaze c g r => call (RegionDwellTest.update_gaze_point g r) c cfg
  | Tick c => call RegionDwellTest.update_progress c cfg
  end.

Definition run (events : list Event) (cfg : Config) : Config :=
  fold_left step events cfg.

(** A new test, started with the clock [cs], then the events. *)
Definition started (target : Region.t) (dwell : Q) (cs : nat -> Q)
    (events : list Event) : Config :=
  run events (call RegionDwellTest.start_test cs
                (RegionDwellTest.__init__ target dwell, [])).

(** The test once [complete_test] has run. *)
Definition completed (success : bool) (s : RegionDwellTest.t) : RegionDwellTest.t :=
  RegionDwellTest.set_status_label
    (if success then "✅ 测试完成！" else "❌ 测试失败")
    (RegionDwellTest.set_update_timer false
       (RegionDwellTest.set_test_active false s)).

(** A started test that has not completed: its target, dwell time and start
    time, and the span the gaze is in. *)
Definition running (target : Region.t) (dwell started_at : Q) (span : option Q)
    (s : RegionDwellTest.t) : Prop :=
  RegionDwellTest.test_active s = true
  /\ RegionDwellTest.target_region s = target
  /\ RegionDwellTest.dwell_time s = dwell
  /\ RegionDwellTest.start_time s = Some started_at
  /\ RegionDwellTest.is_in_target s
     = match span with Some _ => true | None => false end
  /\ RegionDwellTest.dwell_start_time s = span.

(** The in-target span a stream of events is in, read off the events alone:
    the time of the entry that opened it, if the gaze is in the target. *)
Definition span_after (target : Region.t) (span : option Q) (e : Event)
    : option Q :=
  match e with
  | Gaze c _ (Some r) =>
      if Region.id r =? Region.id target
      then match span with Some t => Some t | None => Some (c O) end
      else None
  | Gaze _ _ None => None
  | Tick _ => span
  end.

(** Every tick that falls in a span sees less than [dwell] seconds of it. *)
Fixpoint spans_shorter (target : Region.t) (dwell : Q) (span : option Q)
    (events : list Event) : Prop :=
  match events with
  | [] => True
  | e :: rest =>
      match e, span with
      | Tick c, Some entered => (c O - entered < dwell)%Q
      | _, _ => True
      end
      /\ spans_shorter target dwell (span_after target span e) rest
  end.

(** An event that does not bring the gaze into the target: a tick that
    finds no timeout, or a sample outside the target. *)
Definition stays_outside (target : Region.t) (started_at : Q) (e : Event) : Prop :=
  match e with
  | Tick c => (c O - started_at <= 30)%Q
  | Gaze _ _ (Some r) => Region.id r <> Region.id target
  | Gaze _ _ None => True
  end.

End DwellRun.

Module SelectionRun.

Inductive Event : Type :=
| Start (c : nat -> Q)
| Stop
| Gaze (c : nat -> Q) (gaze_point : option GazePoint.t)
       (current_region : option Region.t).

Definition Config : Type := (TargetSelectionTest.t * list TestResult.t)%type.

Definition call (m : M TargetSelectionTest.t unit) (c : nat -> Q)
    (cfg : Config) : Config :=
  let r := m (fst cfg) (World.fresh c (snd cfg)) in
  (state_of r, signals_of r).

Definition step (cfg : Config) (e : Event) : Config :=
  match e with
  | Start c => call TargetSelectionTest.start_test c cfg
  | Stop => call TargetSelectionTest.stop_test (fun _ => 0%Q) cfg
  | Gaze c g r => call (TargetSelectionTest.update_gaze_point g r) c cfg
  end.

Definition run (events : list Event) (cfg : Config) : Config :=
  fold_left step events cfg.

(** The regions of a stream are delivered in order, each with the clock
    [c]. *)
Definition deliver (c : nat -> Q) (stream : list Region.t) : list Event :=
  map (fun r => Gaze c None (Some r)) stream.

(** Two records of a test that differ in the texts of the labels at most. *)
Definition same_but_labels (s s' : TargetSelectionTest.t) : Prop :=
  TargetSelectionTest.regions s' = TargetSelectionTest.regions s
  /\ TargetSelectionTest.num_targets s' = TargetSelectionTest.num_targets s
  /\ TargetSelectionTest.current_target_index s'
     = TargetSelectionTest.current_target_index s
  /\ TargetSelectionTest.target_sequence s' = TargetSelectionTest.target_sequence s
  /\ TargetSelectionTest.selected_regions s' = TargetSelectionTest.selected_regions s
  /\ TargetSelectionTest.test_active s' = TargetSelectionTest.test_active s
  /\ TargetSelectionTest.start_time s' = TargetSelectionTest.start_time s.

(** The visited list is, id for id, the first [current_target_index]
    elements of the target sequence. *)
Definition prefix_invariant (s : TargetSelectionTest.t) : Prop :=
  length (TargetSelectionTest.selected_regions s)
    = TargetSelectionTest.current_target_index s
  /\ map Region.id (TargetSelectionTest.selected_regions s)
     = map Region.id
         (take (TargetSelectionTest.current_target_index s)
               (TargetSelectionTest.target_sequence s)).

End SelectionRun.

(** ** The statements of the specification that the code does not meet *)

Module Claimed.

(** The region a sample resolves to; no sample, no region. *)
Definition resolve (m : RegionManager.t) (sample : option GazePoint.t)
    : option Region.t :=
  match sample with
  | Some g =>
      RegionManager.get_region_by_point m
        (GazePoint.screen_x g) (GazePoint.screen_y g)
  | None => None
  end.

(** What an update does to the tracked region and the history: a transition
    is appended, and the current region replaced, exactly when the resolved
    region differs from the tracked one by id or by being null. *)
Definition tracker_update (resolved : option Region.t) (now : Q)
    (m m' : RegionManager.t) : Prop :=
  if Region.same_id resolved (RegionManager.current_region m) then
    RegionManager.current_region m' = RegionManager.current_region m
    /\ RegionManager.region_history m' = RegionManager.region_history m
  else
    RegionManager.current_region m' = resolved
    /\ RegionManager.region_history m'
       = RegionManager.region_history m
           ++ [ {| Transition.region := resolved; Transition.timestamp := now |} ].

(** The zero-valued statistics of an empty log. *)
Definition zero_statistics (d : gmap string InteractionTestManager.Value) : Prop :=
  d !! "total_tests" = Some (InteractionTestManager.VInt 0)
  /\ (exists q, d !! "success_rate" = Some (InteractionTestManager.VFloat q) /\ (q == 0)%Q)
  /\ (exists q, d !! "average_accuracy" = Some (InteractionTestManager.VFloat q) /\ (q == 0)%Q)
  /\ (exists q, d !! "average_duration" = Some (InteractionTestManager.VFloat q) /\ (q == 0)%Q).

(** The mean of a list of numbers. *)
Definition mean (xs : list Q) : Q :=
  (fold_right Qplus 0 xs / inject_Z (Z.of_nat (length xs)))%Q.

End Claimed.

(** ** Concrete objects used in the examples *)

Module Example.

(** [RegionManager(1920, 1080, 3, 3)], as [MainWindow] builds it on a full-HD
    screen, and the same screen cut into six columns. *)
Definition full_hd : Py.Exn + RegionManager.t := RegionManager.__init__ 1920 1080 3 3.
Definition xga_six_columns : Py.Exn + RegionManager.t :=
  RegionManager.__init__ 1024 768 3 6.

Definition regions_of (m : Py.Exn + RegionManager.t) : list Region.t :=
  match m with
  | inr rm => RegionManager.regions rm
  | inl _ => []
  end.

Definition manager_of (m : Py.Exn + RegionManager.t) : RegionManager.t :=
  match m with
  | inr rm => rm
  | inl _ => RegionManager.Build 0 0 0 0 [] None []
  end.

(** The region with the given position in a grid, or a blank one. *)
Definition nth_region (m : Py.Exn + RegionManager.t) (i : nat) : Region.t :=
  nth i (regions_of m) (Region.Build 0 "" 0 0 0 0 0 0).

Definition gaze (px py : float) : GazePoint.t :=
  {| GazePoint.screen_x := px; GazePoint.screen_y := py;
     GazePoint.confidence := 1; GazePoint.timestamp := 0 |}.

(** A clock that stands at [t] for the whole call. *)
Definition at_time (t : Q) : nat -> Q := fun _ => t.

(** The centre region of the full-HD grid, and the region to its left. *)
Definition centre : Region.t := nth_region full_hd 4.
Definition left_of_centre : Region.t := nth_region full_hd 3.

(** A selection test whose target sequence is the first row of the grid, left
    to right. *)
Definition first_row_test : TargetSelectionTest.t :=
  TargetSelectionTest.set_target_sequence
    [nth_region full_hd 0; nth_region full_hd 1; nth_region full_hd 2]
    (TargetSelectionTest.blank (regions_of full_hd) 3).

(** A manager that has received a success after 3 s and a timeout after
    31 s of two dwell tests on the centre region. *)
Definition two_results : InteractionTestManager.t :=
  InteractionTestManager.on_test_completed
    (RegionDwellTest.result (RegionDwellTest.__init__ centre 2) false 31 231)
    (InteractionTestManager.on_test_completed
       (RegionDwellTest.result (RegionDwellTest.__init__ centre 2) true 3 103)
       (InteractionTestManager.__init__ (regions_of full_hd))).

(** Two spans in the target: 1.5 s from t = 101 and 1.9 s from t = 103, with
    a tick in the first and two in the second. *)
Definition two_spans : list DwellRun.Event :=
  [ DwellRun.Gaze (at_time 101) None (Some centre);
    DwellRun.Tick (at_time (1024 # 10));
    DwellRun.Gaze (at_time (1025 # 10)) None (Some left_of_centre);
    DwellRun.Gaze (at_time 103) None (Some centre);
    DwellRun.Tick (at_time 104);
    DwellRun.Tick (at_time (1049 # 10)) ].

End Example.


(** ** An emitted selection result and the list it shares with its test *)

Module SelectionAlias.

(** [complete_test] hands [self.selected_regions] itself to [TestResult], and
    the test binds that attribute once, in its constructor: [start_test]
    empties the list in place and [update_gaze_point] appends to it. So every
    result a test has emitted holds the one list object of that test, and
    the log of a run records each result with the contents the list had when
    the result was emitted. [read self r] is an emitted result [r] as its
    holder reads it while the test is in the state [self]: the other fields
    are as recorded, [actual_regions] is what the list holds now. *)
Definition read (self : TargetSelectionTest.t) (r : TestResult.t)
    : TestResult.t :=
  {| TestResult.test_type := TestResult.test_type r;
     TestResult.success := TestResult.success r;
     TestResult.duration := TestResult.duration r;
     TestResult.accuracy := TestResult.accuracy r;
     TestResult.target_region := TestResult.target_region r;
     TestResult.actual_regions := TargetSelectionTest.selected_regions self;
     TestResult.timestamp := TestResult.timestamp r |}.

End SelectionAlias.


(** ** Streams of a dwell test that has not completed *)

Module DwellStream.

(** The span the gaze is in after a stream of events, read off the events
    alone. *)
Definition span_of (target : Region.t) (span : option Q)
    (events : list DwellRun.Event) : option Q :=
  fold_left (DwellRun.span_after target) events span.

(** A stream on which the test does not complete. A tick that falls in a
    span (with an entry reading that is not 0.0, so that the dwell check
    runs) sees less than the dwell time of it, and its timeout reading, the
    second of the call, is not later than 30 s after the start; any other
    tick reads the clock once, not later than 30 s after the start. Samples
    are free. *)
Fixpoint quiet (target : Region.t) (dwell started_at : Q) (span : option Q)
    (events : list DwellRun.Event) : Prop :=
  match events with
  | [] => True
  | e :: rest =>
      match e with
      | DwellRun.Tick c =>
          match span with
          | Some entered =>
              if Py.truthy (Some entered)
              then (c 0%nat - entered < dwell)%Q
                   /\ (c 1%nat - started_at <= 30)%Q
              else (c 0%nat - started_at <= 30)%Q
          | None => (c 0%nat - started_at <= 30)%Q
          end
      | DwellRun.Gaze _ _ _ => True
      end
      /\ quiet target dwell started_at (DwellRun.span_after target span e) rest
  end.

End DwellStream.


(** ** Runs of the region tracker and of the grid widget *)

Module TrackRun.

(** One call of [update_current_region]: the point, and the time of the
    call. *)
Definition Call : Type := (float * float * Q)%type.

Definition step (m : RegionManager.t) (c : Call) : RegionManager.t :=
  RegionManager.update_current_region (fst (fst c)) (snd (fst c)) (snd c) m.

Definition run (calls : list Call) (m : RegionManager.t) : RegionManager.t :=
  fold_left step calls m.

(** The region the history ends in; none for an empty history. *)
Definition tracked (history : list Transition.t) : option Region.t :=
  match last history with
  | Some tr => Transition.region tr
  | None => None
  end.

(** Every entry of a history differs, as a dict, from the entry before it;
    [prev] is the region before the first entry. *)
Fixpoint changes (prev : option Region.t) (history : list Transition.t) : Prop :=
  match history with
  | [] => True
  | tr :: rest =>
      Py.option_eq Region.eqb (Transition.region tr) prev = false
      /\ changes (Transition.region tr) rest
  end.

(** One call of [RegionGridWidget.update_gaze_point]: the sample, and the
    time of the call. *)
Definition Sample : Type := (option GazePoint.t * Q)%type.

Definition sample_step (w : RegionGridWidget.t) (s : Sample) : RegionGridWidget.t :=
  RegionGridWidget.update_gaze_point (fst s) (snd s) w.

Definition deliver (samples : list Sample) (w : RegionGridWidget.t)
    : RegionGridWidget.t :=
  fold_left sample_step samples w.

(** A log of signals that goes from the region [cur] to the region [final]:
    [region_entered] comes only when the gaze is in no region, and
    [region_exited] carries the region the gaze is in. *)
Fixpoint bracketed (cur : option Region.t) (log : list RegionGridWidget.Signal)
    (final : option Region.t) : Prop :=
  match log with
  | [] => cur = final
  | RegionGridWidget.region_entered r :: rest =>
      cur = None /\ bracketed (Some r) rest final
  | RegionGridWidget.region_exited r :: rest =>
      cur = Some r /\ bracketed None rest final
  end.

End TrackRun.


(** ** A manager and a test it has created *)

Module Session.

(** [create_target_selection_test]: a test over the manager's regions; the
    constructor's exception, if any, leaves the method. *)
Definition create_target_selection_test (rnd : nat -> nat) (num_targets : Z)
    (m : InteractionTestManager.t) : Py.Exn + TargetSelectionTest.t :=
  TargetSelectionTest.__init__ rnd (InteractionTestManager.regions m) num_targets.

(** [create_region_dwell_test] *)
Definition create_region_dwell_test (target_region : Region.t) (dwell_time : Q)
    (m : InteractionTestManager.t) : RegionDwellTest.t :=
  RegionDwellTest.__init__ target_region dwell_time.

(** Both methods connect [test_completed] to [on_test_completed]: the slot
    runs once for each result emitted, in the order of emission. *)
Definition deliver (results : list TestResult.t) (m : InteractionTestManager.t)
    : InteractionTestManager.t :=
  fold_left (fun m r => InteractionTestManager.on_test_completed r m) results m.

Definition Config : Type :=
  (TargetSelectionTest.t * InteractionTestManager.t)%type.

(** One call on the test; what it emits goes to the manager. *)
Definition step (cfg : Config) (e : SelectionRun.Event) : Config :=
  let r := SelectionRun.step (fst cfg, []) e in
  (fst r, deliver (snd r) (snd cfg)).

Definition run (events : list SelectionRun.Event) (cfg : Config) : Config :=
  fold_left step events cfg.

End Session.

(** ** The tracker of [algorithm_interface.py] *)

Module PupilData.
Record t : Type := Build {
  center_x : Z;
  center_y : Z;
  radius : float;
  confidence : float;
  timestamp : float
}.
End PupilData.

Module EyeTrackingInterface.

(** A frame, as far as the code looks into it: the shape of its grey
    image. *)
Record Frame : Type := BuildFrame {
  height : Z;
  width : Z
}.

(** The [cv2.VideoCapture] object: open, or not (never opened, or
    released). *)
Record Capture : Type := BuildCapture {
  opened : bool
}.

(** An entry of [calibration_data]. *)
Record CalibrationPoint : Type := BuildCalibrationPoint {
  screen_x : float;
  screen_y : float;
  pupil_x : float;
  pupil_y : float;
  timestamp : float
}.

(** The object; [loops] counts the threads that are in [_tracking_loop]. *)
Record t : Type := Build {
  camera_id : Z;
  cap : option Capture;
  is_running : bool;
  current_frame : option Frame;
  current_pupil_data : option PupilData.t;
  current_gaze_point : option GazePoint.t;
  calibration_data : list CalibrationPoint;
  loops : nat
}.

Definition __init__ (camera : Z) : t :=
  {| camera_id := camera; cap := None; is_running := false;
     current_frame := None; current_pupil_data := None;
     current_gaze_point := None; calibration_data := []; loops := O |}.

Definition set_cap (v : option Capture) (s : t) : t :=
  {| camera_id := camera_id s; cap := v; is_running := is_running s;
     current_frame := current_frame s;
     current_pupil_data := current_pupil_data s;
     current_gaze_point := current_gaze_point s;
     calibration_data := calibration_data s; loops := loops s |}.

Definition set_is_running (v : bool) (s : t) : t :=
  {| camera_id := camera_id s; cap := cap s; is_running := v;
     current_frame := current_frame s;
     current_pupil_data := current_pupil_data s;
     current_gaze_point := current_gaze_point s;
     calibration_data := calibration_data s; loops := loops s |}.

Definition set_current_frame (v : option Frame) (s : t) : t :=
  {| camera_id := camera_id s; cap := cap s; is_running := is_running s;
     current_frame := v;
     current_pupil_data := current_pupil_data s;
     current_gaze_point := current_gaze_point s;
     calibration_data := calibration_data s; loops := loops s |}.

Definition set_current_pupil_data (v : option PupilData.t) (s : t) : t :=
  {| camera_id := camera_id s; cap := cap s; is_running := is_running s;
     current_frame := current_frame s;
     current_pupil_data := v;
     current_gaze_point := current_gaze_point s;
     calibration_data := calibration_data s; loops := loops s |}.

Definition set_current_gaze_point (v : option GazePoint.t) (s : t) : t :=
  {| camera_id := camera_id s; cap := cap s; is_running := is_running s;
     current_frame := current_frame s;
     current_pupil_data := current_pupil_data s;
     current_gaze_point := v;
     calibration_data := calibration_data s; loops := loops s |}.

Definition set_calibration_data (v : list CalibrationPoint) (s : t) : t :=
  {| camera_id := camera_id s; cap := cap s; is_running := is_running s;
     current_frame := current_frame s;
     current_pupil_data := current_pupil_data s;
     current_gaze_point := current_gaze_point s;
     calibration_data := v; loops := loops s |}.

Definition set_loops (v : nat) (s : t) : t :=
  {| camera_id := camera_id s; cap := cap s; is_running := is_running s;
     current_frame := current_frame s;
     current_pupil_data := current_pupil_data s;
     current_gaze_point := current_gaze_point s;
     calibration_data := calibration_data s; loops := v |}.

(** What the camera does when [initialize_camera] asks for it: it opens;
    or the capture object is built but is not open; or building it raises;
    or one of the [set] calls on the open capture raises. *)
Inductive Camera : Type :=
| camera_opens
| camera_stays_closed
| camera_raises
| camera_set_raises.

(** [initialize_camera]: the value returned and the object after the call.
    The [except] clause turns every exception into [False]. *)
Definition initialize_camera (camera : Camera) (s : t) : bool * t :=
  match camera with
  | camera_opens => (true, set_cap (Some {| opened := true |}) s)
  | camera_stays_closed => (false, set_cap (Some {| opened := false |}) s)
  | camera_raises => (false, s)
  | camera_set_raises => (false, set_cap (Some {| opened := true |}) s)
  end.

(** [start_tracking]: the flag is set and one more thread enters the
    loop. *)
Definition start_tracking (s : t) : t :=
  set_loops (S (loops s)) (set_is_running true s).

(** [stop_tracking]; a capture object is true, [None] is not. *)
Definition stop_tracking (s : t) : t :=
  let s1 := set_is_running false s in
  match cap s1 with
  | Some _ => set_cap (Some {| opened := false |}) s1
  | None => s1
  end.

(** [_detect_pupil] on the grey image of a frame; [dx] and [dy] are the two
    values [np.random.randint(-50, 50)] returns and [now] the reading of
    [time.time()]. The confidence is the double nearest to 0.85. *)
Definition _detect_pupil (frame : Frame) (dx dy : Z) (now : float)
    : option PupilData.t :=
  Some {| PupilData.center_x := width frame / 2 + dx;
          PupilData.center_y := height frame / 2 + dy;
          PupilData.radius := 15;
          PupilData.confidence := 0x1.b333333333333p-1;
          PupilData.timestamp := now |}.

(** [_estimate_gaze]. A [PupilData] object is true, so [if not pupil_data]
    catches [None] only. [center_x * 3] is an [int], held here as the double
    of the same value (pupil coordinates are far below 2^53);
    [center_y * 2.5] is the product of doubles. *)
Definition _estimate_gaze (pupil_data : option PupilData.t)
    : option GazePoint.t :=
  match pupil_data with
  | None => None
  | Some p =>
      Some {| GazePoint.screen_x := Py.float_of_Z (PupilData.center_x p * 3);
              GazePoint.screen_y :=
                (Py.float_of_Z (PupilData.center_y p) * 2.5)%float;
              GazePoint.confidence := PupilData.confidence p;
              GazePoint.timestamp := PupilData.timestamp p |}
  end.

(** What one pass through the loop gets from outside: [cap.read()] fails, or
    it gives a frame, and then the two random draws and the clock reading
    that [_detect_pupil] takes. *)
Inductive Read : Type :=
| read_fails
| read_frame (frame : Frame) (dx dy : Z) (now : float).

(** One evaluation of the [while] test of [_tracking_loop] by a thread that
    is in the loop, with the pass through the body that follows if the test
    holds; a thread that finds the test false leaves the loop. A capture
    that is not open gives no frame. *)
Definition tracking_loop_pass (r : Read) (s : t) : t :=
  match loops s with
  | O => s
  | S others =>
      match is_running s, cap s with
      | true, Some capture =>
          match opened capture, r with
          | true, read_frame frame dx dy now =>
              let pupil_data := _detect_pupil frame dx dy now in
              let s1 :=
                set_current_pupil_data pupil_data
                  (set_current_frame (Some frame) s) in
              match pupil_data, calibration_data s1 with
              | Some _, _ :: _ =>
                  set_current_gaze_point (_estimate_gaze pupil_data) s1
              | _, _ => s1
              end
          | _, _ => s
          end
      | _, _ => set_loops others s
      end
  end.

(** [add_calibration_point], with [now] the reading of [time.time()]. *)
Definition add_calibration_point (sx sy px py now : float) (s : t) : t :=
  set_calibration_data
    (calibration_data s
       ++ [ {| screen_x := sx; screen_y := sy; pupil_x := px; pupil_y := py;
               timestamp := now |} ])
    s.

Definition clear_calibration (s : t) : t := set_calibration_data [] s.

Definition get_current_frame (s : t) : option Frame := current_frame s.

Definition get_current_pupil_data (s : t) : option PupilData.t :=
  current_pupil_data s.

Definition get_current_gaze_point (s : t) : option GazePoint.t :=
  current_gaze_point s.

(** The calls on a tracker, in the order in which they take effect. *)
Inductive Call : Type :=
| InitializeCamera (camera : Camera)
| StartTracking
| StopTracking
| LoopPass (r : Read)
| AddCalibrationPoint (sx sy px py now : float)
| ClearCalibration.

Definition step (s : t) (c : Call) : t :=
  match c with
  | InitializeCamera camera => snd (initialize_camera camera s)
  | StartTracking => start_tracking s
  | StopTracking => stop_tracking s
  | LoopPass r => tracking_loop_pass r s
  | AddCalibrationPoint sx sy px py now =>
      add_calibration_point sx sy px py now s
  | ClearCalibration => clear_calibration s
  end.

Definition run (calls : list Call) (s : t) : t := fold_left step calls s.

Definition adds_calibration (c : Call) : bool :=
  match c with
  | AddCalibrationPoint _ _ _ _ _ => true
  | _ => false
  end.

Definition starts_tracking (c : Call) : bool :=
  match c with
  | StartTracking => true
  | _ => false
  end.

End EyeTrackingInterface.

(** ** The tracker's threads, statement by statement

    [EyeTrackingInterface.tracking_loop_pass] is a pass through the loop that
    nothing interrupts. Here the loop is cut at every access to the shared
    object, so that calls of the main thread and statements of other threads
    can fall between the loop test and the stores of a pass. *)

Module TrackingThreads.

(** Where a thread stands in [_tracking_loop]: at the [while] test; past it,
    about to call [cap.read()]; holding a frame it is about to store in
    [current_frame] (with the draws and the clock reading [_detect_pupil]
    will take); holding the pupil data it is about to store; about to test
    the pupil data and [self.calibration_data]; holding the gaze point it is
    about to store. *)
Inductive Pc : Type :=
| at_test
| at_read
| at_frame (frame : EyeTrackingInterface.Frame) (dx dy : Z) (now : float)
| at_pupil (pupil_data : option PupilData.t)
| at_check (pupil_data : option PupilData.t)
| at_gaze (gaze_point : option GazePoint.t).

(** The tracker object, shared, and the threads that are in the loop. *)
Record t : Type := Build {
  tracker : EyeTrackingInterface.t;
  threads : list Pc
}.

(** The next statement of a thread: where the thread stands afterwards
    ([None] when it has left the loop) and the object afterwards. A failed
    read goes back to the test ([continue]), and so does the end of the
    body, after the sleep. No method sets [cap] back to [None]; were it
    [None] at the read, the call would raise and end the thread. *)
Definition thread_step (r : EyeTrackingInterface.Read) (pc : Pc)
    (s : EyeTrackingInterface.t) : option Pc * EyeTrackingInterface.t :=
  match pc with
  | at_test =>
      match EyeTrackingInterface.is_running s, EyeTrackingInterface.cap s with
      | true, Some _ => (Some at_read, s)
      | _, _ =>
          (None,
           EyeTrackingInterface.set_loops
             (Nat.pred (EyeTrackingInterface.loops s)) s)
      end
  | at_read =>
      match EyeTrackingInterface.cap s with
      | Some capture =>
          match EyeTrackingInterface.opened capture, r with
          | true, EyeTrackingInterface.read_frame frame dx dy now =>
              (Some (at_frame frame dx dy now), s)
          | _, _ => (Some at_test, s)
          end
      | None =>
          (None,
           EyeTrackingInterface.set_loops
             (Nat.pred (EyeTrackingInterface.loops s)) s)
      end
  | at_frame frame dx dy now =>
      (Some (at_pupil (EyeTrackingInterface._detect_pupil frame dx dy now)),
       EyeTrackingInterface.set_current_frame (Some frame) s)
  | at_pupil pupil_data =>
      (Some (at_check pupil_data),
       EyeTrackingInterface.set_current_pupil_data pupil_data s)
  | at_check pupil_data =>
      match pupil_data, EyeTrackingInterface.calibration_data s with
      | Some _, _ :: _ =>
          (Some (at_gaze (EyeTrackingInterface._estimate_gaze pupil_data)), s)
      | _, _ => (Some at_test, s)
      end
  | at_gaze gaze_point =>
      (Some at_test, EyeTrackingInterface.set_current_gaze_point gaze_point s)
  end.

(** What happens: a call on the object from the main thread, or the next
    statement of the thread at position [i] of the list, with what
    [cap.read()] gives if that statement is the read. *)
Inductive Event : Type :=
| InitializeCamera (camera : EyeTrackingInterface.Camera)
| StartTracking
| StopTracking
| AddCalibrationPoint (sx sy px py now : float)
| ClearCalibration
| Thread (i : nat) (r : EyeTrackingInterface.Read).

Definition step (s : t) (e : Event) : t :=
  match e with
  | InitializeCamera camera =>
      {| tracker := snd (EyeTrackingInterface.initialize_camera camera (tracker s));
         threads := threads s |}
  | StartTracking =>
      {| tracker := EyeTrackingInterface.start_tracking (tracker s);
         threads := threads s ++ [at_test] |}
  | StopTracking =>
      {| tracker := EyeTrackingInterface.stop_tracking (tracker s);
         threads := threads s |}
  | AddCalibrationPoint sx sy px py now =>
      {| tracker :=
           EyeTrackingInterface.add_calibration_point sx sy px py now (tracker s);
         threads := threads s |}
  | ClearCalibration =>
      {| tracker := EyeTrackingInterface.clear_calibration (tracker s);
         threads := threads s |}
  | Thread i r =>
      match threads s !! i with
      | Some pc =>
          match thread_step r pc (tracker s) with
          | (Some pc', tracker') =>
              {| tracker := tracker'; threads := <[i := pc']> (threads s) |}
          | (None, tracker') =>
              {| tracker := tracker'; threads := delete i (threads s) |}
          end
      | None => s
      end
  end.

Definition run (events : list Event) (s : t) : t := fold_left step events s.

Definition starts_tracking (e : Event) : bool :=
  match e with
  | StartTracking => true
  | _ => false
  end.

(** The stores a thread can still make before it is back at the test: to
    [current_frame], [current_pupil_data] and [current_gaze_point]. *)
Definition stores_left (pc : Pc) : nat :=
  match pc with
  | at_test => 0
  | at_read => 3
  | at_frame _ _ _ _ => 3
  | at_pupil _ => 2
  | at_check _ => 1
  | at_gaze _ => 1
  end.

Definition pending (s : t) : nat := sum_list_with stores_left (threads s).

(** Whether the next statement of a thread is one of the three stores. *)
Definition stores (pc : Pc) : bool :=
  match pc with
  | at_frame _ _ _ _ | at_pupil _ | at_gaze _ => true
  | _ => false
  end.

(** How many stores a run makes. *)
Fixpoint stores_in (events : list Event) (s : t) : nat :=
  match events with
  | [] => O
  | e :: rest =>
      (match e with
       | Thread i _ =>
           match threads s !! i with
           | Some pc => if stores pc then 1 else 0
           | None => 0
           end
       | _ => 0
       end + stores_in rest (step s e))%nat
  end.

(** What the three getters return. *)
Definition shown (s : t)
    : option EyeTrackingInterface.Frame * option PupilData.t
      * option GazePoint.t :=
  (EyeTrackingInterface.get_current_frame (tracker s),
   EyeTrackingInterface.get_current_pupil_data (tracker s),
   EyeTrackingInterface.get_current_gaze_point (tracker s)).

End TrackingThreads.


(** ** The main window of [main_window.py] *)

Module MainWindow.

(** The messages handed to [StatusWidget.add_status_message]; the two about
    regions carry the region's name. *)
Inductive Status : Type :=
| tracking_started
| camera_failed
| tracking_stopped
| calibration_started
| calibration_cleared
| entered (name : string)
| left_region (name : string).

(** The window: the tracker, the grid widget with its region manager, the
    flag of the control panel, the messages in the order they were added,
    and the arguments of the last [CameraWidget.update_frame]. *)
Record t : Type := Build {
  eye_tracker : EyeTrackingInterface.t;
  region_widget : RegionGridWidget.t;
  is_tracking : bool;
  status : list Status;
  camera_widget : option (EyeTrackingInterface.Frame * option GazePoint.t)
}.

(** [MainWindow()] on a screen of the given size: the default tracker, a
    3 x 3 grid over the whole screen. *)
Definition __init__ (screen_width screen_height : Z) : Py.Exn + t :=
  match RegionManager.__init__ screen_width screen_height 3 3 with
  | inl e => inl e
  | inr rm =>
      inr {| eye_tracker := EyeTrackingInterface.__init__ 0;
             region_widget := RegionGridWidget.__init__ rm;
             is_tracking := false;
             status := [];
             camera_widget := None |}
  end.

Definition set_eye_tracker (v : EyeTrackingInterface.t) (s : t) : t :=
  {| eye_tracker := v; region_widget := region_widget s;
     is_tracking := is_tracking s; status := status s;
     camera_widget := camera_widget s |}.

Definition set_is_tracking (v : bool) (s : t) : t :=
  {| eye_tracker := eye_tracker s; region_widget := region_widget s;
     is_tracking := v; status := status s;
     camera_widget := camera_widget s |}.

Definition add_status_message (msg : Status) (s : t) : t :=
  {| eye_tracker := eye_tracker s; region_widget := region_widget s;
     is_tracking := is_tracking s; status := status s ++ [msg];
     camera_widget := camera_widget s |}.

(** The slot [start_tracking]. *)
Definition start_tracking (camera : EyeTrackingInterface.Camera) (s : t) : t :=
  let (ok, tracker) :=
    EyeTrackingInterface.initialize_camera camera (eye_tracker s) in
  if ok then
    add_status_message tracking_started
      (set_eye_tracker (EyeTrackingInterface.start_tracking tracker) s)
  else
    add_status_message camera_failed (set_eye_tracker tracker s).

(** The slot [stop_tracking]. *)
Definition stop_tracking (s : t) : t :=
  add_status_message tracking_stopped
    (set_eye_tracker (EyeTrackingInterface.stop_tracking (eye_tracker s)) s).

(** The slot [start_calibration]. *)
Definition start_calibration (s : t) : t :=
  add_status_message calibration_started s.

(** The slot [clear_calibration]. *)
Definition clear_calibration (s : t) : t :=
  add_status_message calibration_cleared
    (set_eye_tracker (EyeTrackingInterface.clear_calibration (eye_tracker s)) s).

(** [ControlPanelWidget.toggle_tracking]; the signal it emits runs the slot
    of the window at once. *)
Definition toggle_tracking (camera : EyeTrackingInterface.Camera) (s : t) : t :=
  if is_tracking s then set_is_tracking false (stop_tracking s)
  else set_is_tracking true (start_tracking camera s).

(** The slots [on_region_entered] and [on_region_exited]. *)
Definition on_region_signal (sig : RegionGridWidget.Signal) : Status :=
  match sig with
  | RegionGridWidget.region_entered r => entered (Region.name r)
  | RegionGridWidget.region_exited r => left_region (Region.name r)
  end.

(** [update_display], run by the timer; [now] is the reading of
    [time.time()] inside the region manager. The signals the grid widget
    emits during the call run the two region slots. *)
Definition update_display (now : Q) (s : t) : t :=
  let current_frame :=
    EyeTrackingInterface.get_current_frame (eye_tracker s) in
  let current_gaze :=
    EyeTrackingInterface.get_current_gaze_point (eye_tracker s) in
  let widget :=
    RegionGridWidget.update_gaze_point current_gaze now (region_widget s) in
  let emitted_now :=
    drop (length (RegionGridWidget.emitted (region_widget s)))
         (RegionGridWidget.emitted widget) in
  {| eye_tracker := eye_tracker s;
     region_widget := widget;
     is_tracking := is_tracking s;
     status := status s ++ map on_region_signal emitted_now;
     camera_widget :=
       match current_frame with
       | Some frame => Some (frame, current_gaze)
       | None => camera_widget s
       end |}.

(** [closeEvent] *)
Definition closeEvent (s : t) : t :=
  set_eye_tracker (EyeTrackingInterface.stop_tracking (eye_tracker s)) s.

(** What happens to a window: a click on one of the three buttons, a tick of
    the display timer, a pass of a tracker thread through its loop, the
    window being closed. *)
Inductive Event : Type :=
| ClickTrack (camera : EyeTrackingInterface.Camera)
| ClickCalibrate
| ClickClear
| TimerTick (now : Q)
| TrackerPass (r : EyeTrackingInterface.Read)
| Close.

Definition step (s : t) (e : Event) : t :=
  match e with
  | ClickTrack camera => toggle_tracking camera s
  | ClickCalibrate => start_calibration s
  | ClickClear => clear_calibration s
  | TimerTick now => update_display now s
  | TrackerPass r =>
      set_eye_tracker
        (EyeTrackingInterface.tracking_loop_pass r (eye_tracker s)) s
  | Close => closeEvent s
  end.

Definition run (events : list Event) (s : t) : t := fold_left step events s.

(** How many clicks on the tracking button a run has. *)
Fixpoint track_clicks (events : list Event) : nat :=
  match events with
  | [] => O
  | ClickTrack _ :: rest => S (track_clicks rest)
  | _ :: rest => track_clicks rest
  end.

(** A message about a region. *)
Definition about_region (msg : Status) : bool :=
  match msg with
  | entered _ | left_region _ => true
  | _ => false
  end.

End MainWindow.


(** ** The welcome window of [welcome_window.py] *)

Module WelcomeWindow.

(** The window: the countdown, whether the one-second timer runs, the
    number of seconds the progress label shows, the single shots that are
    scheduled and have not fired, and how many times [window_closed] has
    been emitted. *)
Record t : Type := Build {
  countdown : Z;
  timer : bool;
  shown : Z;
  scheduled : nat;
  window_closed : nat
}.

(** [WelcomeWindow()]: the label is built showing 5, [init_timer] sets the
    countdown to 5 and starts the timer. *)
Definition __init__ : t :=
  {| countdown := 5; timer := true; shown := 5; scheduled := O;
     window_closed := O |}.

(** [close_window] *)
Definition close_window (s : t) : t :=
  {| countdown := countdown s; timer := timer s; shown := shown s;
     scheduled := scheduled s; window_closed := S (window_closed s) |}.

(** [update_countdown] *)
Definition update_countdown (s : t) : t :=
  if 0 <? countdown s then
    {| countdown := countdown s - 1; timer := timer s; shown := countdown s;
       scheduled := scheduled s; window_closed := window_closed s |}
  else
    close_window
      {| countdown := countdown s; timer := false; shown := shown s;
         scheduled := scheduled s; window_closed := window_closed s |}.

(** [keyPressEvent] for the space key: the timer is stopped and
    [close_window] is scheduled half a second later. Every other key goes to
    the base class. *)
Definition press_space (s : t) : t :=
  {| countdown := countdown s; timer := false; shown := shown s;
     scheduled := S (scheduled s); window_closed := window_closed s |}.

(** What happens to the window: the timer's timeout, which comes only while
    the timer runs; the space key; a scheduled single shot firing. *)
Inductive Event : Type :=
| Timeout
| Space
| SingleShot.

Definition step (s : t) (e : Event) : t :=
  match e with
  | Timeout => if timer s then update_countdown s else s
  | Space => press_space s
  | SingleShot =>
      match scheduled s with
      | O => s
      | S others =>
          close_window
            {| countdown := countdown s; timer := timer s; shown := shown s;
               scheduled := others; window_closed := window_closed s |}
      end
  end.

Definition run (events : list Event) (s : t) : t := fold_left step events s.

End WelcomeWindow.


(** ** More concrete runs *)

Module Scenario.

(** Four calls on the full-HD grid: two points of the first region, a point of
    the second, a point right of the screen. *)
Definition four_calls : list TrackRun.Call :=
  [ (100%float, 100%float, 1%Q); (200%float, 150%float, 2%Q);
    (1000%float, 100%float, 3%Q); (3000%float, 100%float, 4%Q) ].

(** The same points as gaze samples, the second one delivered twice. *)
Definition five_samples : list TrackRun.Sample :=
  [ (Some (Example.gaze 100 100), 1%Q); (Some (Example.gaze 200 150), 2%Q);
    (Some (Example.gaze 200 150), 3%Q); (Some (Example.gaze 1000 100), 4%Q);
    (Some (Example.gaze 3000 100), 5%Q) ].

(** A dwell test on the centre region that has succeeded: started at
    t = 100, in the target from t = 101, completed by the tick at t = 103. *)
Definition after_success : DwellRun.Config :=
  DwellRun.started Example.centre 2 (Example.at_time 100)
    [ DwellRun.Gaze (Example.at_time 101) None (Some Example.centre);
      DwellRun.Tick (Example.at_time 103) ].

(** A manager for the full-HD grid, and the selection test of three targets
    it creates when every random draw is 0. *)
Definition fresh_manager : InteractionTestManager.t :=
  InteractionTestManager.__init__ (Example.regions_of Example.full_hd).

Definition created_test : TargetSelectionTest.t :=
  match Session.create_target_selection_test (fun _ => O) 3 fresh_manager with
  | inr test => test
  | inl _ => TargetSelectionTest.blank [] 0
  end.

(** The frame size [initialize_camera] asks the camera for. *)
Definition vga : EyeTrackingInterface.Frame :=
  {| EyeTrackingInterface.height := 480; EyeTrackingInterface.width := 640 |}.

(** A tracker that runs with an open capture, one thread and one
    calibration point. *)
Definition calibrated_tracker : EyeTrackingInterface.t :=
  EyeTrackingInterface.run
    [ EyeTrackingInterface.InitializeCamera EyeTrackingInterface.camera_opens;
      EyeTrackingInterface.StartTracking;
      EyeTrackingInterface.AddCalibrationPoint 960 540 320 240 1 ]
    (EyeTrackingInterface.__init__ 0).

(** The calibrated tracker with its one thread past the loop test. *)
Definition thread_past_test : TrackingThreads.t :=
  {| TrackingThreads.tracker := calibrated_tracker;
     TrackingThreads.threads := [TrackingThreads.at_read] |}.

(** [stop_tracking] falls between the test and the read of that thread. *)
Definition stopped_past_test : TrackingThreads.t :=
  TrackingThreads.step thread_past_test TrackingThreads.StopTracking.

(** The region the simulated gaze falls in, for the vertical draw [dy]. *)
Definition simulated_region (dy : Z) : Z := if dy <=? 48 then 4 else 7.

(** On the full-HD grid, the gaze estimated from a 640 x 480 frame with the
    draws [dx] and [dy] falls in [simulated_region dy]. *)
Definition simulated_gaze_check (dx dy : Z) : bool :=
  match EyeTrackingInterface._estimate_gaze
          (EyeTrackingInterface._detect_pupil vga dx dy 0) with
  | Some g =>
      match RegionManager.get_region_by_point
              (Example.manager_of Example.full_hd)
              (GazePoint.screen_x g) (GazePoint.screen_y g) with
      | Some r => Region.id r =? simulated_region dy
      | None => false
      end
  | None => false
  end.

(** A stream on the centre region: the gaze comes in for half a second and
    leaves, a tick finds nothing, the gaze comes in again at t = 103 and two
    samples and a tick inside the span follow. *)
Definition second_span : list DwellRun.Event :=
  [ DwellRun.Gaze (Example.at_time 101) None (Some Example.centre);
    DwellRun.Gaze (Example.at_time (1015 # 10)) None
      (Some Example.left_of_centre);
    DwellRun.Tick (Example.at_time 102);
    DwellRun.Gaze (Example.at_time 103) None (Some Example.centre);
    DwellRun.Gaze (Example.at_time (1035 # 10)) None (Some Example.centre);
    DwellRun.Tick (Example.at_time 104);
    DwellRun.Gaze (Example.at_time (1045 # 10)) None (Some Example.centre) ].

(** The same stream with the gaze gone after the second span, and a tick. *)
Definition second_span_left : list DwellRun.Event :=
  second_span
    ++ [ DwellRun.Gaze (Example.at_time (1047 # 10)) None None;
         DwellRun.Tick (Example.at_time 120) ].

(** How many times a run calls [start_test]. *)
Fixpoint starts (events : list SelectionRun.Event) : nat :=
  match events with
  | [] => O
  | SelectionRun.Start _ :: rest => S (starts rest)
  | _ :: rest => starts rest
  end.

End Scenario.


(** * Properties *)

(** ** Regions and their comparison *)

Lemma float_eq_refl (a : float) : Py.float_eq a a = true.
Proof.
  unfold Py.float_eq, PrimFloat.is_nan.
  destruct (a =? a)%float; reflexivity.
Qed.

Lemma region_eqb_refl (r : Region.t) : Region.eqb r r = true.
Proof.
  unfold Region.eqb.
  rewrite Z.eqb_refl, String.eqb_refl, !float_eq_refl. reflexivity.
Qed.

Lemma region_eqb_same_id (a b : Region.t) :
  Region.eqb a b = true -> Region.id a = Region.id b.
Proof.
  unfold Region.eqb. rewrite !andb_true_iff.
  intros H. apply Z.eqb_eq. tauto.
Qed.

Lemma gaze_eqb_refl (g : GazePoint.t) : GazePoint.eqb g g = true.
Proof. unfold GazePoint.eqb. rewrite !float_eq_refl. reflexivity. Qed.

Lemma option_eq_refl {A : Type} (eq : A -> A -> bool) (o : option A) :
  (forall a, eq a a = true) -> Py.option_eq eq o o = true.
Proof. intros H. destruct o; simpl; auto. Qed.

(** Every region of a grid is the dict of one cell. *)
Lemma grid_elem (nrows ncols : Z) (w h : float) (r : Region.t) :
  r ∈ RegionManager.grid nrows ncols w h ->
  exists row col,
    0 <= row < nrows /\ 0 <= col < ncols
    /\ r = RegionManager.make_region ncols w h row col.
Proof.
  unfold RegionManager.grid, Py.range. intros H.
  apply list_elem_of_bind in H as (row & H & Hrow).
  apply list_elem_of_bind in H as (col & H & Hcol).
  apply list_elem_of_singleton in H.
  apply elem_of_seqZ in Hrow. apply elem_of_seqZ in Hcol.
  exists row, col. repeat split; try lia. exact H.
Qed.

(** Two regions of one grid with the same id are the same region. *)
Lemma grid_id_inj (nrows ncols : Z) (w h : float) (a b : Region.t) :
  a ∈ RegionManager.grid nrows ncols w h ->
  b ∈ RegionManager.grid nrows ncols w h ->
  Region.id a = Region.id b -> a = b.
Proof.
  intros Ha Hb Hid.
  apply grid_elem in Ha as (ra & ca & Hra & Hca & ->).
  apply grid_elem in Hb as (rb & cb & Hrb & Hcb & ->).
  simpl in Hid.
  assert (ra = rb) by nia. subst rb.
  assert (ca = cb) by lia. subst cb. reflexivity.
Qed.

(** On the regions of one grid, [==] on the dicts is equality of ids. *)
Lemma grid_eqb_same_id (nrows ncols : Z) (w h : float) (a b : option Region.t) :
  (forall r, a = Some r -> r ∈ RegionManager.grid nrows ncols w h) ->
  (forall r, b = Some r -> r ∈ RegionManager.grid nrows ncols w h) ->
  Py.option_eq Region.eqb a b = Region.same_id a b.
Proof.
  intros Ha Hb. destruct a as [ra|], b as [rb|]; simpl; try reflexivity.
  destruct (Z.eqb_spec (Region.id ra) (Region.id rb)) as [Heq|Hne].
  - rewrite (grid_id_inj nrows ncols w h ra rb); auto using region_eqb_refl.
  - destruct (Region.eqb ra rb) eqn:E; [|reflexivity].
    apply region_eqb_same_id in E. contradiction.
Qed.

Lemma find_elem {A : Type} (f : A -> bool) (l : list A) (a : A) :
  find f l = Some a -> a ∈ l /\ f a = true.
Proof.
  intros H. apply find_some in H as [H1 H2].
  split; [apply list_elem_of_In; exact H1 | exact H2].
Qed.

(** [get_region_by_point] returns the first region of the list that contains
    the point, and [None] when no region does. *)
Lemma get_region_by_point_first (m : RegionManager.t) (px py : float) :
  match RegionManager.get_region_by_point m px py with
  | Some r =>
      exists before after,
        RegionManager.regions m = before ++ r :: after
        /\ RegionManager.contains r px py = true
        /\ Forall (fun q => RegionManager.contains q px py = false) before
  | None =>
      Forall (fun q => RegionManager.contains q px py = false) (RegionManager.regions m)
  end.
Proof.
  unfold RegionManager.get_region_by_point.
  induction (RegionManager.regions m) as [|q l IH]; simpl.
  - constructor.
  - destruct (RegionManager.contains q px py) eqn:E.
    + exists [], l. repeat split; auto.
    + destruct (find _ l) as [r|].
      * destruct IH as (before & after & -> & Hc & Hall).
        exists (q :: before), after. repeat split; auto.
      * constructor; auto.
Qed.

(** C3 (code defect). With a 1024 x 768 screen cut into 3 rows of 6 columns,
    the cell width is 1024/6 = 170.66666666666666 and the right edge of the
    last column is 5 * w + w = 1023.9999999999999: the point (1024.0, 100.0),
    on the right edge of the screen, is in no region. *)
Theorem get_region_by_point_misses_right_edge :
  exists m,
    Example.xga_six_columns = inr m
    /\ length (RegionManager.regions m) = 18%nat
    /\ RegionManager.get_region_by_point m 1024 100 = None
    /\ (0 <=? 1024)%float = true
    /\ (1024 <=? Py.float_of_Z (RegionManager.screen_width m))%float = true
    /\ (0 <=? 100)%float = true
    /\ (100 <=? Py.float_of_Z (RegionManager.screen_height m))%float = true.
Proof.
  eexists. split; [vm_compute; reflexivity|].
  repeat split; vm_compute; reflexivity.
Qed.

(** ** The tracked region *)

Lemma create_regions_grid (W H nrows ncols : Z) (rs : list Region.t) :
  RegionManager._create_regions W H nrows ncols = inr rs ->
  exists w h, rs = RegionManager.grid nrows ncols w h.
Proof.
  unfold RegionManager._create_regions.
  destruct (Py.int_truediv W ncols) as [e|w]; [discriminate|].
  destruct (Py.int_truediv H nrows) as [e|h]; [discriminate|].
  intros [= <-]. eauto.
Qed.

Lemma get_region_by_point_elem (m : RegionManager.t) (px py : float) (r : Region.t) :
  RegionManager.get_region_by_point m px py = Some r ->
  r ∈ RegionManager.regions m.
Proof. intros H. apply find_elem in H. tauto. Qed.

(** A second call with the same point changes nothing. *)
Lemma update_current_region_idempotent (px py : float) (now now' : Q)
    (m : RegionManager.t) :
  RegionManager.update_current_region px py now'
    (RegionManager.update_current_region px py now m)
  = RegionManager.update_current_region px py now m.
Proof.
  unfold RegionManager.update_current_region.
  destruct (negb (Py.option_eq Region.eqb
                    (RegionManager.get_region_by_point m px py)
                    (RegionManager.current_region m))) eqn:E.
  - unfold RegionManager.get_region_by_point. simpl.
    rewrite option_eq_refl by apply region_eqb_refl. reflexivity.
  - rewrite E. reflexivity.
Qed.

(** C4 (as stated, refuted). On a full-HD 3 x 3 grid, after the sample
    (100, 100) has put the tracker in the first region, a null sample resolves
    to no region, which differs from the tracked one; the claim asks for a
    transition to null, the widget leaves the tracker as it is. *)
Lemma null_sample_leaves_tracker_in_region :
  ~ Claimed.tracker_update
      (Claimed.resolve
         (RegionGridWidget.region_manager
            (RegionGridWidget.update_gaze_point (Some (Example.gaze 100 100)) 1
               (RegionGridWidget.__init__ (Example.manager_of Example.full_hd))))
         None)
      2
      (RegionGridWidget.region_manager
         (RegionGridWidget.update_gaze_point (Some (Example.gaze 100 100)) 1
            (RegionGridWidget.__init__ (Example.manager_of Example.full_hd))))
      (RegionGridWidget.region_manager
         (RegionGridWidget.update_gaze_point None 2
            (RegionGridWidget.update_gaze_point (Some (Example.gaze 100 100)) 1
               (RegionGridWidget.__init__ (Example.manager_of Example.full_hd))))).
Proof.
  intros H. vm_compute in H. destruct H as [H _]. discriminate H.
Qed.

(** C4 (amended). For a tracker whose current region is null or a region of
    its grid: [update_current_region] appends exactly one transition, stamped
    with the current time, and replaces the current region if and only if the
    region the point resolves to differs from the tracked one by id or by
    being null, and otherwise leaves both as they are; the region it tracks
    afterwards is again null or of the grid. The widget hands a non-null
    sample that differs from the last one to [update_current_region]; a null
    sample is not resolved and leaves the tracker untouched, and so does a
    second delivery of the same sample. *)
Theorem update_current_region_tracks_changes
    (W H nrows ncols : Z) (rs : list Region.t) (m : RegionManager.t) :
  RegionManager._create_regions W H nrows ncols = inr rs ->
  RegionManager.regions m = rs ->
  (forall r, RegionManager.current_region m = Some r -> r ∈ rs) ->
  (forall px py now,
      Claimed.tracker_update (RegionManager.get_region_by_point m px py) now
        m (RegionManager.update_current_region px py now m)
      /\ forall r,
          RegionManager.current_region
            (RegionManager.update_current_region px py now m) = Some r ->
          r ∈ rs)
  /\ (forall w g now,
        RegionGridWidget.region_manager w = m ->
        Py.option_eq GazePoint.eqb (Some g) (RegionGridWidget.current_gaze_point w)
          = false ->
        RegionGridWidget.region_manager
          (RegionGridWidget.update_gaze_point (Some g) now w)
        = RegionManager.update_current_region
            (GazePoint.screen_x g) (GazePoint.screen_y g) now m)
  /\ (forall w now,
        RegionGridWidget.region_manager w = m ->
        RegionGridWidget.region_manager
          (RegionGridWidget.update_gaze_point None now w) = m)
  /\ (forall w g now now',
        RegionGridWidget.region_manager w = m ->
        RegionGridWidget.update_gaze_point (Some g) now'
          (RegionGridWidget.update_gaze_point (Some g) now w)
        = RegionGridWidget.update_gaze_point (Some g) now w).
Proof.
  intros Hgrid Hrs Hcur.
  apply create_regions_grid in Hgrid as (w & h & Hgrid).
  repeat split.
  - unfold Claimed.tracker_update, RegionManager.update_current_region.
    rewrite (grid_eqb_same_id nrows ncols w h).
    + destruct (Region.same_id _ _); simpl; auto.
    + intros r Hr. apply get_region_by_point_elem in Hr. congruence.
    + intros r Hr. apply Hcur in Hr. congruence.
  - intros r. unfold RegionManager.update_current_region.
    destruct (negb _); simpl; [|apply Hcur].
    intros Hr. apply get_region_by_point_elem in Hr. congruence.
  - intros wd g now Hm Hne.
    unfold RegionGridWidget.update_gaze_point. rewrite Hne. simpl.
    rewrite Hm. reflexivity.
  - intros wd now Hm. unfold RegionGridWidget.update_gaze_point.
    destruct (negb _); simpl; auto.
  - intros wd g now now' Hm.
    unfold RegionGridWidget.update_gaze_point.
    destruct (negb (Py.option_eq GazePoint.eqb (Some g)
                      (RegionGridWidget.current_gaze_point wd))) eqn:E.
    + simpl. rewrite gaze_eqb_refl. reflexivity.
    + rewrite E. reflexivity.
Qed.

Lemma update_current_region_tracks_changes_witness :
  Claimed.tracker_update
    (RegionManager.get_region_by_point (Example.manager_of Example.full_hd) 1000 100)
    5
    (Example.manager_of Example.full_hd)
    (RegionManager.update_current_region 1000 100 5
       (Example.manager_of Example.full_hd))
  /\ RegionManager.region_history
       (RegionManager.update_current_region 1000 100 5
          (Example.manager_of Example.full_hd))
     = [ {| Transition.region := Some (Example.nth_region Example.full_hd 1);
            Transition.timestamp := 5 |} ].
Proof.
  split.
  - apply (update_current_region_tracks_changes 1920 1080 3 3
             (Example.regions_of Example.full_hd)
             (Example.manager_of Example.full_hd)).
    + vm_compute. reflexivity.
    + reflexivity.
    + intros r Hr. discriminate Hr.
  - vm_compute. reflexivity.
Defined.

(** ** Comparisons of readings *)

Lemma Qltb_lt (a b : Q) : Qltb a b = true <-> (a < b)%Q.
Proof.
  unfold Qltb. rewrite negb_true_iff. split.
  - intros H. apply Qnot_le_lt. intros Hle.
    apply Qle_bool_iff in Hle. congruence.
  - intros H. destruct (Qle_bool b a) eqn:E; [|reflexivity].
    apply Qle_bool_iff in E. apply Qlt_not_le in H. contradiction.
Qed.

Lemma Qltb_ge (a b : Q) : Qltb a b = false <-> (b <= a)%Q.
Proof.
  unfold Qltb. rewrite negb_false_iff. apply Qle_bool_iff.
Qed.

Lemma Qle_bool_gt (a b : Q) : Qle_bool a b = false <-> (b < a)%Q.
Proof.
  rewrite <- Qltb_lt. unfold Qltb.
  destruct (Qle_bool a b); simpl; intuition congruence.
Qed.

Lemma truthy_nonzero (q : Q) : Py.truthy (Some q) = true <-> ~ (q == 0)%Q.
Proof.
  unfold Py.truthy. rewrite negb_true_iff.
  destruct (Qeq_bool q 0) eqn:E.
  - apply Qeq_bool_iff in E. intuition congruence.
  - split; [|reflexivity]. intros _ H. apply Qeq_bool_iff in H. congruence.
Qed.

Lemma Qeq_bool_false_pos (q : Q) : (0 < q)%Q -> Qeq_bool q 0 = false.
Proof.
  intros H. destruct (Qeq_bool q 0) eqn:E; [|reflexivity].
  apply Qeq_bool_iff in E. rewrite E in H. apply Qlt_irrefl in H. contradiction.
Qed.

(** With a positive dwell time, the progress is full exactly when the elapsed
    time has reached the dwell time. *)
Lemma progress_full (elapsed dwell : Q) :
  (0 < dwell)%Q ->
  Qle_bool 1 (py_min (elapsed / dwell) 1) = true <-> (dwell <= elapsed)%Q.
Proof.
  intros Hpos. unfold py_min.
  assert (Hdiv : (1 <= elapsed / dwell <-> dwell <= elapsed)%Q).
  { split; intros H.
    - apply (Qmult_le_r _ _ dwell) in H; [|exact Hpos].
      rewrite Qmult_1_l in H. unfold Qdiv in H.
      rewrite <- Qmult_assoc, (Qmult_comm (/ dwell)), Qmult_inv_r, Qmult_1_r in H.
      + exact H.
      + intros Hz. rewrite Hz in Hpos. apply Qlt_irrefl in Hpos. contradiction.
    - apply (Qmult_le_r _ _ dwell); [exact Hpos|].
      rewrite Qmult_1_l. unfold Qdiv.
      rewrite <- Qmult_assoc, (Qmult_comm (/ dwell)), Qmult_inv_r, Qmult_1_r.
      + exact H.
      + intros Hz. rewrite Hz in Hpos. apply Qlt_irrefl in Hpos. contradiction. }
  destruct (Qltb 1 (elapsed / dwell)) eqn:E.
  - apply Qltb_lt in E. split; intros _.
    + apply Hdiv. apply Qlt_le_weak. exact E.
    + reflexivity.
  - rewrite Qle_bool_iff. exact Hdiv.
Qed.

(** ** Steps of the dwell test *)

#[local] Arguments Qminus : simpl never.
#[local] Arguments Qdiv : simpl never.
#[local] Arguments Qmult : simpl never.
#[local] Arguments Qplus : simpl never.
#[local] Arguments Qle_bool : simpl never.
#[local] Arguments Qeq_bool : simpl never.
#[local] Arguments Py.int_of_Q : simpl never.
#[local] Arguments inject_Z : simpl never.
#[local] Arguments Py.truthy : simpl never.
#[local] Arguments Qltb : simpl never.
#[local] Arguments py_min : simpl never.

Ltac run_method :=
  unfold bind, modify, get, ret, time_time, emit, raise; simpl.

Lemma dwell_complete_test_run (success : bool) (s : RegionDwellTest.t)
    (w : World.t) (t0 : Q) :
  RegionDwellTest.start_time s = Some t0 ->
  Py.truthy (Some t0) = true ->
  RegionDwellTest.complete_test success s w
  = (Ok tt, DwellRun.completed success s,
     World.push
       (RegionDwellTest.result s success (World.now w - t0)
          (World.now (World.tick w)))
       (World.tick (World.tick w))).
Proof.
  intros Hst Ht.
  unfold RegionDwellTest.complete_test, RegionDwellTest.stop_test. run_method.
  rewrite Hst, Ht. simpl. reflexivity.
Qed.

Lemma dwell_timeout_check_run (s : RegionDwellTest.t) (w : World.t) (t0 : Q) :
  RegionDwellTest.start_time s = Some t0 ->
  Py.truthy (Some t0) = true ->
  RegionDwellTest.timeout_check s w
  = if Qltb 30 (World.now w - t0)
    then RegionDwellTest.complete_test false s (World.tick w)
    else (Ok tt, s, World.tick w).
Proof.
  intros Hst Ht. unfold RegionDwellTest.timeout_check. run_method.
  rewrite Hst, Ht. simpl. destruct (Qltb _ _); reflexivity.
Qed.

(** A tick while the gaze is outside the target only checks the timeout. *)
Lemma dwell_tick_outside (s : RegionDwellTest.t) (w : World.t) :
  RegionDwellTest.test_active s = true ->
  RegionDwellTest.is_in_target s = false ->
  RegionDwellTest.update_progress s w = RegionDwellTest.timeout_check s w.
Proof.
  intros Ha Hin. unfold RegionDwellTest.update_progress. run_method.
  rewrite Ha, Hin. simpl.
  destruct (RegionDwellTest.dwell_start_time s); reflexivity.
Qed.

(** A tick while the gaze is in the target. *)
Lemma dwell_tick_inside (s : RegionDwellTest.t) (w : World.t) (d : Q) :
  RegionDwellTest.test_active s = true ->
  RegionDwellTest.is_in_target s = true ->
  RegionDwellTest.dwell_start_time s = Some d ->
  Py.truthy (Some d) = true ->
  (0 < RegionDwellTest.dwell_time s)%Q ->
  let progress :=
    py_min ((World.now w - d) / RegionDwellTest.dwell_time s) 1 in
  let s' :=
    RegionDwellTest.set_progress_value
      (Py.int_of_Q (progress * inject_Z (RegionDwellTest.progress_maximum s))) s in
  RegionDwellTest.update_progress s w
  = if Qle_bool 1 progress
    then bind (RegionDwellTest.complete_test true)
              (fun _ => RegionDwellTest.timeout_check) s' (World.tick w)
    else RegionDwellTest.timeout_check s' (World.tick w).
Proof.
  intros Ha Hin Hd Ht Hpos. simpl.
  unfold RegionDwellTest.update_progress, RegionDwellTest.dwell_check. run_method.
  rewrite Ha, Hin, Hd, Ht. simpl.
  rewrite (Qeq_bool_false_pos _ Hpos).
  destruct (Qle_bool 1 _) eqn:E; simpl.
  - unfold bind.
    destruct (RegionDwellTest.complete_test true _ _) as [[[] ?] ?]; reflexivity.
  - reflexivity.
Qed.

(** On a tick where the dwell is complete and the timeout has passed as well,
    [update_progress] calls [complete_test(True)] and, with no [return] after
    it, goes on to the timeout check and calls [complete_test(False)]: two
    results leave the test, a success and then a failure. *)
Lemma dwell_tick_success_then_timeout (s : RegionDwellTest.t) (w : World.t)
    (d t0 : Q) :
  RegionDwellTest.test_active s = true ->
  RegionDwellTest.is_in_target s = true ->
  RegionDwellTest.dwell_start_time s = Some d ->
  Py.truthy (Some d) = true ->
  RegionDwellTest.start_time s = Some t0 ->
  Py.truthy (Some t0) = true ->
  (0 < RegionDwellTest.dwell_time s)%Q ->
  (RegionDwellTest.dwell_time s <= World.now w - d)%Q ->
  (30 < World.clock w (3 + World.reads w) - t0)%Q ->
  signals_of (RegionDwellTest.update_progress s w)
  = World.test_completed w
      ++ [ RegionDwellTest.result s true
             (World.clock w (1 + World.reads w) - t0)
             (World.clock w (2 + World.reads w));
           RegionDwellTest.result s false
             (World.clock w (4 + World.reads w) - t0)
             (World.clock w (5 + World.reads w)) ]
  /\ RegionDwellTest.test_active (state_of (RegionDwellTest.update_progress s w))
     = false.
Proof.
  intros Ha Hin Hd Htd Hst Hts Hpos Hdwell Hout.
  remember (RegionDwellTest.update_progress s w) as r eqn:Hr.
  rewrite (dwell_tick_inside s w d) in Hr by assumption.
  apply (progress_full _ _ Hpos) in Hdwell. rewrite Hdwell in Hr.
  unfold bind in Hr.
  rewrite (dwell_complete_test_run true _ _ t0) in Hr by assumption.
  rewrite (dwell_timeout_check_run _ _ t0) in Hr by assumption.
  apply Qltb_lt in Hout. simpl Nat.add in Hout.
  unfold World.now at 1 in Hr. simpl World.clock in Hr. simpl World.reads in Hr.
  rewrite Hout in Hr.
  rewrite (dwell_complete_test_run false _ _ t0) in Hr by assumption.
  subst r. unfold signals_of, state_of. simpl.
  rewrite <- app_assoc. split; reflexivity.
Qed.

(** C1 (code defect). A dwell test on the centre region of a full-HD grid,
    dwell time 2 s, started at t = 100 s; the gaze enters the target at
    t = 129 s and the next tick comes at t = 131.5 s, when the dwell has
    lasted 2.5 s and the test 31.5 s. That one tick emits two results: the
    success, then a failure. *)
Theorem dwell_tick_emits_success_and_failure :
  snd (DwellRun.started (Example.nth_region Example.full_hd 4) 2
         (Example.at_time 100)
         [ DwellRun.Gaze (Example.at_time 129) None
             (Some (Example.nth_region Example.full_hd 4));
           DwellRun.Tick (Example.at_time (263 # 2)) ])
  = [ RegionDwellTest.result
        (RegionDwellTest.__init__ (Example.nth_region Example.full_hd 4) 2)
        true ((263 # 2) - 100) (263 # 2);
      RegionDwellTest.result
        (RegionDwellTest.__init__ (Example.nth_region Example.full_hd 4) 2)
        false ((263 # 2) - 100) (263 # 2) ].
Proof. vm_compute. reflexivity. Qed.

(** ** Tests that are not active *)

Lemma dwell_complete_test_inactive (success : bool) (s : RegionDwellTest.t)
    (w : World.t) :
  RegionDwellTest.test_active
    (state_of (RegionDwellTest.complete_test success s w)) = false.
Proof.
  unfold RegionDwellTest.complete_test, RegionDwellTest.stop_test. run_method.
  destruct (RegionDwellTest.start_time s) as [t0|]; simpl; [|reflexivity].
  destruct (Py.truthy (Some t0)); reflexivity.
Qed.

Lemma selection_complete_test_inactive (s : TargetSelectionTest.t) (w : World.t) :
  TargetSelectionTest.test_active
    (state_of (TargetSelectionTest.complete_test s w)) = false.
Proof.
  unfold TargetSelectionTest.complete_test, TargetSelectionTest.stop_test.
  run_method.
  destruct (TargetSelectionTest.start_time s) as [t0|]; simpl.
  - destruct (Py.truthy (Some t0)); simpl;
      destruct (length (TargetSelectionTest.target_sequence s)); reflexivity.
  - destruct (length (TargetSelectionTest.target_sequence s)); reflexivity.
Qed.

Lemma selection_init_inactive (rnd : nat -> nat) (rs : list Region.t) (n : Z)
    (s : TargetSelectionTest.t) :
  TargetSelectionTest.__init__ rnd rs n = inr s ->
  TargetSelectionTest.test_active s = false
  /\ TargetSelectionTest.regions s = rs
  /\ TargetSelectionTest.num_targets s = n
  /\ Random.sample rnd rs (Z.min n (Z.of_nat (length rs)))
     = inr (TargetSelectionTest.target_sequence s).
Proof.
  unfold TargetSelectionTest.__init__, TargetSelectionTest.generate_target_sequence.
  run_method.
  destruct (Random.sample rnd rs _) as [e|picked]; simpl; [discriminate|].
  intros [= <-]. simpl. auto.
Qed.

(** C10. A gaze sample or a tick delivered to a test that is not active
    returns at once: the record of the test and the world (clock position,
    emitted results) are what they were. For the selection test the same holds
    once the whole sequence is matched. A test is not active before
    [start_test], after [stop_test] and after [complete_test]. *)
Theorem inactive_test_ignores_input :
  (forall (s : RegionDwellTest.t) (w : World.t) g r,
      RegionDwellTest.test_active s = false ->
      RegionDwellTest.update_gaze_point g r s w = (Ok tt, s, w)
      /\ RegionDwellTest.update_progress s w = (Ok tt, s, w))
  /\ (forall (s : TargetSelectionTest.t) (w : World.t) g r,
        TargetSelectionTest.test_active s = false
        \/ (length (TargetSelectionTest.target_sequence s)
            <= TargetSelectionTest.current_target_index s)%nat ->
        TargetSelectionTest.update_gaze_point g r s w = (Ok tt, s, w))
  /\ (forall target dwell,
        RegionDwellTest.test_active (RegionDwellTest.__init__ target dwell) = false)
  /\ (forall s w,
        RegionDwellTest.test_active (state_of (RegionDwellTest.stop_test s w)) = false)
  /\ (forall success s w,
        RegionDwellTest.test_active
          (state_of (RegionDwellTest.complete_test success s w)) = false)
  /\ (forall rnd rs n s,
        TargetSelectionTest.__init__ rnd rs n = inr s ->
        TargetSelectionTest.test_active s = false)
  /\ (forall s w,
        TargetSelectionTest.test_active
          (state_of (TargetSelectionTest.stop_test s w)) = false)
  /\ (forall s w,
        TargetSelectionTest.test_active
          (state_of (TargetSelectionTest.complete_test s w)) = false).
Proof.
  repeat split.
  - unfold RegionDwellTest.update_gaze_point. run_method. rewrite H. reflexivity.
  - unfold RegionDwellTest.update_progress. run_method. rewrite H. reflexivity.
  - intros s w g r H. unfold TargetSelectionTest.update_gaze_point. run_method.
    destruct H as [H|H].
    + rewrite H. reflexivity.
    + apply Nat.leb_le in H. rewrite H, orb_true_r. reflexivity.
  - intros s w. apply dwell_complete_test_inactive.
  - intros rnd rs n s H. apply selection_init_inactive in H. tauto.
  - intros s w. apply selection_complete_test_inactive.
Qed.

Lemma inactive_test_ignores_input_witness :
  RegionDwellTest.update_progress
    (RegionDwellTest.__init__ (Example.nth_region Example.full_hd 4) 2)
    (World.fresh (Example.at_time 50) [])
  = (Ok tt,
     RegionDwellTest.__init__ (Example.nth_region Example.full_hd 4) 2,
     World.fresh (Example.at_time 50) []).
Proof.
  apply (proj1 inactive_test_ignores_input
           (RegionDwellTest.__init__ (Example.nth_region Example.full_hd 4) 2)
           (World.fresh (Example.at_time 50) []) None None).
  reflexivity.
Defined.

(** ** Runs of the dwell test *)

Lemma dwell_result_target (s s' : RegionDwellTest.t) (success : bool) (d t : Q) :
  RegionDwellTest.target_region s = RegionDwellTest.target_region s' ->
  RegionDwellTest.result s success d t = RegionDwellTest.result s' success d t.
Proof. unfold RegionDwellTest.result. intros ->. reflexivity. Qed.

(** The timeout check emits nothing, or one failure. *)
Lemma dwell_timeout_check_cases (s : RegionDwellTest.t) (w : World.t) :
  RegionDwellTest.timeout_check s w = (Ok tt, s, w)
  \/ RegionDwellTest.timeout_check s w = (Ok tt, s, World.tick w)
  \/ exists t0,
      RegionDwellTest.start_time s = Some t0
      /\ Py.truthy (Some t0) = true
      /\ Qltb 30 (World.now w - t0) = true
      /\ RegionDwellTest.timeout_check s w
         = RegionDwellTest.complete_test false s (World.tick w).
Proof.
  destruct (RegionDwellTest.start_time s) as [t0|] eqn:Hst.
  - destruct (Py.truthy (Some t0)) eqn:Ht.
    + rewrite (dwell_timeout_check_run s w t0 Hst Ht).
      destruct (Qltb 30 _) eqn:E; eauto 10.
    + left. unfold RegionDwellTest.timeout_check. run_method.
      rewrite Hst, Ht. reflexivity.
  - left. unfold RegionDwellTest.timeout_check. run_method.
    rewrite Hst. reflexivity.
Qed.

Lemma dwell_start_running (target : Region.t) (dwell : Q) (cs : nat -> Q) :
  exists s,
    DwellRun.call RegionDwellTest.start_test cs
      (RegionDwellTest.__init__ target dwell, []) = (s, [])
    /\ DwellRun.running target dwell (cs O) None s.
Proof.
  eexists. split; [reflexivity|]. unfold DwellRun.running. simpl. tauto.
Qed.

(** A gaze sample moves a running test along the spans and emits nothing. *)
Lemma dwell_gaze_running (target : Region.t) (dwell t0 : Q) (span : option Q)
    (s : RegionDwellTest.t) (log : list TestResult.t) (c : nat -> Q) g r :
  DwellRun.running target dwell t0 span s ->
  exists s',
    DwellRun.step (s, log) (DwellRun.Gaze c g r) = (s', log)
    /\ DwellRun.running target dwell t0
         (DwellRun.span_after target span (DwellRun.Gaze c g r)) s'
    /\ (span <> None ->
        DwellRun.span_after target span (DwellRun.Gaze c g r) = None ->
        RegionDwellTest.progress_value s' = 0).
Proof.
  intros (Ha & Htg & Hdw & Hst & Hin & Hd).
  unfold DwellRun.step, DwellRun.call, RegionDwellTest.update_gaze_point.
  run_method. rewrite Ha. simpl.
  unfold RegionDwellTest.in_target_region. rewrite Htg, Hin.
  unfold DwellRun.running.
  destruct r as [r|]; simpl.
  - destruct (Region.id r =? Region.id target), span as [d|]; simpl;
      eexists; (split; [reflexivity|]); simpl; intuition congruence.
  - destruct span as [d|]; simpl;
      eexists; (split; [reflexivity|]); simpl; intuition congruence.
Qed.

Lemma dwell_timeout_outcome (s : RegionDwellTest.t) (w : World.t) :
  (state_of (RegionDwellTest.timeout_check s w) = s
   /\ signals_of (RegionDwellTest.timeout_check s w) = World.test_completed w)
  \/ (RegionDwellTest.test_active (state_of (RegionDwellTest.timeout_check s w))
      = false
      /\ exists duration stamp,
          signals_of (RegionDwellTest.timeout_check s w)
          = World.test_completed w
              ++ [RegionDwellTest.result s false duration stamp]).
Proof.
  destruct (dwell_timeout_check_cases s w) as [E|[E|(t0 & Hst & Ht & _ & E)]];
    rewrite E.
  - left. split; reflexivity.
  - left. split; reflexivity.
  - right. rewrite (dwell_complete_test_run false _ _ t0 Hst Ht).
    split; [reflexivity|]. eexists _, _. reflexivity.
Qed.

(** A tick with a dwell start time that is false (the reading 0.0) skips the
    dwell check. *)
Lemma dwell_tick_falsy (s : RegionDwellTest.t) (w : World.t) (d : Q) :
  RegionDwellTest.test_active s = true ->
  RegionDwellTest.dwell_start_time s = Some d ->
  Py.truthy (Some d) = false ->
  RegionDwellTest.update_progress s w = RegionDwellTest.timeout_check s w.
Proof.
  intros Ha Hd Ht. unfold RegionDwellTest.update_progress. run_method.
  rewrite Ha, Hd, Ht, andb_false_r. reflexivity.
Qed.

(** A tick that sees less than the dwell time of the current span emits no
    success: the test goes on as it was, or it times out with one failure. *)
Lemma dwell_tick_short (target : Region.t) (dwell t0 : Q) (span : option Q)
    (s : RegionDwellTest.t) (log : list TestResult.t) (c : nat -> Q) :
  DwellRun.running target dwell t0 span s ->
  (0 < dwell)%Q ->
  (forall d, span = Some d -> (c O - d < dwell)%Q) ->
  (exists s',
      DwellRun.step (s, log) (DwellRun.Tick c) = (s', log)
      /\ DwellRun.running target dwell t0 span s')
  \/ (exists s' duration stamp,
        DwellRun.step (s, log) (DwellRun.Tick c)
        = (s', log ++ [RegionDwellTest.result s false duration stamp])
        /\ RegionDwellTest.test_active s' = false).
Proof.
  intros Hrun Hpos Hshort.
  pose proof Hrun as (Ha & Htg & Hdw & Hst & Hin & Hd).
  unfold DwellRun.step, DwellRun.call. simpl fst. simpl snd.
  assert (Hcases :
    exists s1 w1,
      RegionDwellTest.update_progress s (World.fresh c log)
      = RegionDwellTest.timeout_check s1 w1
      /\ World.test_completed w1 = log
      /\ DwellRun.running target dwell t0 span s1).
  { destruct span as [d|].
    - destruct (Py.truthy (Some d)) eqn:Ht.
      + rewrite (dwell_tick_inside s _ d) by (try assumption; rewrite Hdw; assumption).
        assert (E : Qle_bool 1
                      (py_min ((World.now (World.fresh c log) - d)
                               / RegionDwellTest.dwell_time s) 1) = false).
        { apply Qle_bool_gt. apply Qltb_lt.
          destruct (Qltb _ 1) eqn:E; [reflexivity|].
          apply Qltb_ge, Qle_bool_iff in E.
          apply progress_full in E; [|rewrite Hdw; exact Hpos].
          rewrite Hdw in E. specialize (Hshort d eq_refl).
          apply Qle_not_lt in E. contradiction. }
        rewrite E. eexists _, _. split; [reflexivity|]. split; [reflexivity|].
        unfold DwellRun.running. simpl. tauto.
      + rewrite (dwell_tick_falsy s _ d Ha Hd Ht).
        eexists _, _. split; [reflexivity|]. split; [reflexivity|]. exact Hrun.
    - rewrite (dwell_tick_outside s _ Ha Hin).
      eexists _, _. split; [reflexivity|]. split; [reflexivity|]. exact Hrun. }
  destruct Hcases as (s1 & w1 & -> & Hlog & Hrun1).
  destruct (dwell_timeout_outcome s1 w1) as [[Hs Hl]|[Hs (du & st & Hl)]].
  - left. exists s1. rewrite Hs, Hl, Hlog. auto.
  - right. eexists _, du, st. rewrite Hl, Hlog. split; [|exact Hs].
    f_equal. f_equal. f_equal. apply dwell_result_target.
    destruct Hrun1 as (_ & Htg1 & _). congruence.
Qed.

Lemma dwell_step_inactive (s : RegionDwellTest.t) (log : list TestResult.t)
    (e : DwellRun.Event) :
  RegionDwellTest.test_active s = false ->
  DwellRun.step (s, log) e = (s, log).
Proof.
  intros Ha. destruct e as [c g r|c]; unfold DwellRun.step, DwellRun.call; simpl.
  - unfold RegionDwellTest.update_gaze_point. run_method. rewrite Ha. reflexivity.
  - unfold RegionDwellTest.update_progress. run_method. rewrite Ha. reflexivity.
Qed.

Lemma dwell_run_inactive (events : list DwellRun.Event) (s : RegionDwellTest.t)
    (log : list TestResult.t) :
  RegionDwellTest.test_active s = false ->
  DwellRun.run events (s, log) = (s, log).
Proof.
  intros Ha. induction events as [|e events IH]; [reflexivity|].
  unfold DwellRun.run in *. simpl. rewrite dwell_step_inactive by exact Ha.
  exact IH.
Qed.

(** Along a run whose ticks never see a full dwell time within one span, no
    success is emitted. *)
Lemma dwell_run_no_success (target : Region.t) (dwell t0 : Q) :
  (0 < dwell)%Q ->
  forall (events : list DwellRun.Event) (span : option Q)
         (s : RegionDwellTest.t) (log : list TestResult.t),
    DwellRun.running target dwell t0 span s ->
    Forall (fun r => TestResult.success r = false) log ->
    DwellRun.spans_shorter target dwell span events ->
    Forall (fun r => TestResult.success r = false)
      (snd (DwellRun.run events (s, log))).
Proof.
  intros Hpos. induction events as [|e events IH];
    intros span s log Hrun Hlog Hshort; [exact Hlog|].
  destruct Hshort as [He Hrest].
  change (DwellRun.run (e :: events) (s, log))
    with (DwellRun.run events (DwellRun.step (s, log) e)).
  destruct e as [c g r|c].
  - destruct (dwell_gaze_running target dwell t0 span s log c g r Hrun)
      as (s' & -> & Hrun' & _).
    apply (IH _ _ _ Hrun' Hlog Hrest).
  - assert (Hd : forall d, span = Some d -> (c O - d < dwell)%Q).
    { intros d ->. exact He. }
    destruct (dwell_tick_short target dwell t0 span s log c Hrun Hpos Hd)
      as [(s' & -> & Hrun')|(s' & du & st & -> & Hoff)].
    + apply (IH _ _ _ Hrun' Hlog Hrest).
    + rewrite dwell_run_inactive by exact Hoff. simpl.
      apply Forall_app. split; [exact Hlog|]. repeat constructor.
Qed.

(** C2. While a test runs, a sample outside the target that comes while
    [is_in_target] is set clears [is_in_target] and [dwell_start_time] and
    sets the progress bar to zero, and a sample inside the target that comes
    while it is not set starts a new span at the time of that sample. So for
    a new test with a positive dwell time, after [start_test] and any stream
    of samples and ticks in which every tick sees less than the dwell time of
    the span it falls in, however long the spans are together, no result with
    [success = True] has been emitted. *)
Theorem dwell_does_not_accumulate (target : Region.t) (dwell : Q) :
  (0 < dwell)%Q ->
  (forall s w g r,
      RegionDwellTest.test_active s = true ->
      RegionDwellTest.is_in_target s = true ->
      RegionDwellTest.in_target_region s r = false ->
      exists s',
        RegionDwellTest.update_gaze_point g r s w = (Ok tt, s', w)
        /\ RegionDwellTest.is_in_target s' = false
        /\ RegionDwellTest.dwell_start_time s' = None
        /\ RegionDwellTest.progress_value s' = 0)
  /\ (forall s w g r,
        RegionDwellTest.test_active s = true ->
        RegionDwellTest.is_in_target s = false ->
        RegionDwellTest.in_target_region s r = true ->
        exists s',
          RegionDwellTest.update_gaze_point g r s w = (Ok tt, s', World.tick w)
          /\ RegionDwellTest.is_in_target s' = true
          /\ RegionDwellTest.dwell_start_time s' = Some (World.now w))
  /\ (forall cs events,
        DwellRun.spans_shorter target dwell None events ->
        Forall (fun r => TestResult.success r = false)
          (snd (DwellRun.started target dwell cs events))).
Proof.
  intros Hpos. split; [|split].
  - intros s w g r Ha Hin Hout.
    unfold RegionDwellTest.update_gaze_point. run_method.
    rewrite Ha, Hin, Hout. simpl.
    eexists. split; [reflexivity|]. simpl. auto.
  - intros s w g r Ha Hin Hhit.
    unfold RegionDwellTest.update_gaze_point. run_method.
    rewrite Ha, Hin, Hhit. simpl.
    eexists. split; [reflexivity|]. simpl. auto.
  - intros cs events Hshort. unfold DwellRun.started.
    destruct (dwell_start_running target dwell cs) as (s & -> & Hrun).
    apply (dwell_run_no_success target dwell (cs O) Hpos events None s []);
      auto.
Qed.

Lemma dwell_does_not_accumulate_witness :
  Forall (fun r => TestResult.success r = false)
    (snd (DwellRun.started Example.centre 2 (Example.at_time 100)
            Example.two_spans)).
Proof.
  apply (dwell_does_not_accumulate Example.centre 2).
  - reflexivity.
  - vm_compute. repeat split.
Defined.

(** A tick that finds neither a full dwell nor a timeout leaves the test
    running. In a span the timeout check takes the second reading of the
    call, outside it takes the first. *)
Lemma dwell_tick_quiet_inside (target : Region.t) (dwell t0 d : Q)
    (s : RegionDwellTest.t) (log : list TestResult.t) (c : nat -> Q) :
  DwellRun.running target dwell t0 (Some d) s ->
  Py.truthy (Some d) = true ->
  (0 < dwell)%Q ->
  (c 0%nat - d < dwell)%Q ->
  (c 1%nat - t0 <= 30)%Q ->
  exists s',
    DwellRun.step (s, log) (DwellRun.Tick c) = (s', log)
    /\ DwellRun.running target dwell t0 (Some d) s'.
Proof.
  intros Hrun Htd Hpos Hshort Hin30.
  pose proof Hrun as (Ha & Htg & Hdw & Hst & Hin & Hd).
  unfold DwellRun.step, DwellRun.call. simpl fst. simpl snd.
  rewrite (dwell_tick_inside s _ d) by (try assumption; rewrite Hdw; assumption).
  assert (E : Qle_bool 1
                (py_min ((World.now (World.fresh c log) - d)
                         / RegionDwellTest.dwell_time s) 1) = false).
  { destruct (Qle_bool 1 _) eqn:E; [|reflexivity].
    apply progress_full in E; [|rewrite Hdw; exact Hpos].
    rewrite Hdw in E. apply Qle_not_lt in E. contradiction. }
  rewrite E.
  match goal with |- context [RegionDwellTest.timeout_check ?s1 ?w1] =>
    destruct (dwell_timeout_check_cases s1 w1)
      as [->|[->|(t1 & Hst1 & _ & Hlt & _)]]
  end.
  - eexists. split; [reflexivity|]. unfold DwellRun.running. simpl. tauto.
  - eexists. split; [reflexivity|]. unfold DwellRun.running. simpl. tauto.
  - simpl in Hst1. rewrite Hst in Hst1. injection Hst1 as <-.
    apply Qltb_lt in Hlt. apply Qlt_not_le in Hlt. contradiction.
Qed.

Lemma dwell_tick_quiet_outside (target : Region.t) (dwell t0 : Q)
    (s : RegionDwellTest.t) (log : list TestResult.t) (c : nat -> Q) :
  DwellRun.running target dwell t0 None s ->
  (c 0%nat - t0 <= 30)%Q ->
  exists s',
    DwellRun.step (s, log) (DwellRun.Tick c) = (s', log)
    /\ DwellRun.running target dwell t0 None s'.
Proof.
  intros Hrun Hin30.
  pose proof Hrun as (Ha & Htg & Hdw & Hst & Hin & Hd).
  unfold DwellRun.step, DwellRun.call. simpl fst. simpl snd.
  rewrite (dwell_tick_outside s _ Ha Hin).
  destruct (dwell_timeout_check_cases s (World.fresh c log))
    as [->|[->|(t1 & Hst1 & _ & Hlt & _)]].
  - eexists. split; [reflexivity|]. exact Hrun.
  - eexists. split; [reflexivity|]. exact Hrun.
  - rewrite Hst in Hst1. injection Hst1 as <-.
    apply Qltb_lt in Hlt. apply Qlt_not_le in Hlt. contradiction.
Qed.

Lemma dwell_run_app (l1 l2 : list DwellRun.Event) (cfg : DwellRun.Config) :
  DwellRun.run (l1 ++ l2) cfg = DwellRun.run l2 (DwellRun.run l1 cfg).
Proof. unfold DwellRun.run. apply fold_left_app. Qed.

Lemma dwell_run_quiet_ticks (target : Region.t) (dwell t0 d : Q) :
  Py.truthy (Some d) = true ->
  (0 < dwell)%Q ->
  forall (ticks : list (nat -> Q)) (s : RegionDwellTest.t)
         (log : list TestResult.t),
    DwellRun.running target dwell t0 (Some d) s ->
    Forall (fun c => (c 0%nat - d < dwell)%Q /\ (c 1%nat - t0 <= 30)%Q) ticks ->
    exists s',
      DwellRun.run (map DwellRun.Tick ticks) (s, log) = (s', log)
      /\ DwellRun.running target dwell t0 (Some d) s'.
Proof.
  intros Htd Hpos. induction ticks as [|c ticks IH]; intros s log Hrun Hall.
  - exists s. split; [reflexivity|exact Hrun].
  - inversion Hall as [|? ? [H0 H1] Hrest]; subst.
    destruct (dwell_tick_quiet_inside target dwell t0 d s log c
                Hrun Htd Hpos H0 H1) as (s1 & Hstep & Hrun1).
    destruct (IH s1 log Hrun1 Hrest) as (s' & Hrun' & Hs').
    exists s'. split; [|exact Hs'].
    change (DwellRun.run (map DwellRun.Tick (c :: ticks)) (s, log))
      with (DwellRun.run (map DwellRun.Tick ticks)
              (DwellRun.step (s, log) (DwellRun.Tick c))).
    rewrite Hstep. exact Hrun'.
Qed.

Lemma dwell_run_outside (target : Region.t) (dwell t0 : Q) :
  forall (events : list DwellRun.Event) (s : RegionDwellTest.t)
         (log : list TestResult.t),
    DwellRun.running target dwell t0 None s ->
    Forall (DwellRun.stays_outside target t0) events ->
    exists s',
      DwellRun.run events (s, log) = (s', log)
      /\ DwellRun.running target dwell t0 None s'.
Proof.
  induction events as [|e events IH]; intros s log Hrun Hall.
  - exists s. split; [reflexivity|exact Hrun].
  - inversion Hall as [|? ? He Hrest]; subst.
    change (DwellRun.run (e :: events) (s, log))
      with (DwellRun.run events (DwellRun.step (s, log) e)).
    destruct e as [c g r|c].
    + destruct (dwell_gaze_running target dwell t0 None s log c g r Hrun)
        as (s1 & -> & Hrun1 & _).
      assert (Hspan : DwellRun.span_after target None (DwellRun.Gaze c g r) = None).
      { destruct r as [r|]; simpl; [|reflexivity]. simpl in He.
        apply Z.eqb_neq in He. rewrite He. reflexivity. }
      rewrite Hspan in Hrun1. apply (IH _ _ Hrun1 Hrest).
    + simpl in He.
      destruct (dwell_tick_quiet_outside target dwell t0 s log c Hrun He)
        as (s1 & -> & Hrun1).
      apply (IH _ _ Hrun1 Hrest).
Qed.

(** The tick that sees a full dwell emits the success first. *)
Lemma dwell_tick_success (target : Region.t) (dwell t0 d : Q)
    (s : RegionDwellTest.t) (log : list TestResult.t) (c : nat -> Q) :
  DwellRun.running target dwell t0 (Some d) s ->
  Py.truthy (Some d) = true ->
  Py.truthy (Some t0) = true ->
  (0 < dwell)%Q ->
  (dwell <= c 0%nat - d)%Q ->
  exists s' rest,
    DwellRun.step (s, log) (DwellRun.Tick c)
    = (s', log ++ RegionDwellTest.result s true (c 1%nat - t0) (c 2%nat) :: rest)
    /\ RegionDwellTest.test_active s' = false
    /\ ((c 3%nat - t0 <= 30)%Q -> rest = []).
Proof.
  intros Hrun Htd Hts Hpos Hfull.
  pose proof Hrun as (Ha & Htg & Hdw & Hst & Hin & Hd).
  unfold DwellRun.step, DwellRun.call. simpl fst. simpl snd.
  remember (RegionDwellTest.update_progress s (World.fresh c log)) as r eqn:Hr.
  rewrite (dwell_tick_inside s _ d) in Hr
    by (try assumption; rewrite Hdw; assumption).
  assert (E : Qle_bool 1
                (py_min ((World.now (World.fresh c log) - d)
                         / RegionDwellTest.dwell_time s) 1) = true).
  { apply progress_full; rewrite Hdw; assumption. }
  rewrite E in Hr. unfold bind in Hr.
  rewrite (dwell_complete_test_run true _ _ t0) in Hr by assumption.
  rewrite (dwell_timeout_check_run _ _ t0) in Hr by assumption.
  unfold World.now at 1 in Hr. simpl World.clock in Hr. simpl World.reads in Hr.
  destruct (Qltb 30 (c 3%nat - t0)) eqn:E30.
  - rewrite (dwell_complete_test_run false _ _ t0) in Hr by assumption.
    subst r. unfold state_of, signals_of. simpl.
    eexists _, [_]. split; [|split].
    + f_equal. rewrite <- app_assoc. reflexivity.
    + reflexivity.
    + intros Hle. apply Qltb_lt in E30. apply Qlt_not_le in E30. contradiction.
  - subst r. unfold state_of, signals_of. simpl.
    eexists _, []. split; [reflexivity|]. split; [reflexivity|]. reflexivity.
Qed.

(** The tick that finds the timeout outside the target emits one failure. *)
Lemma dwell_tick_timeout (target : Region.t) (dwell t0 : Q)
    (s : RegionDwellTest.t) (log : list TestResult.t) (c : nat -> Q) :
  DwellRun.running target dwell t0 None s ->
  Py.truthy (Some t0) = true ->
  (30 < c 0%nat - t0)%Q ->
  DwellRun.step (s, log) (DwellRun.Tick c)
  = (DwellRun.completed false s,
     log ++ [RegionDwellTest.result s false (c 1%nat - t0) (c 2%nat)]).
Proof.
  intros Hrun Hts Hout.
  pose proof Hrun as (Ha & Htg & Hdw & Hst & Hin & Hd).
  unfold DwellRun.step, DwellRun.call. simpl fst. simpl snd.
  remember (RegionDwellTest.update_progress s (World.fresh c log)) as r eqn:Hr.
  rewrite (dwell_tick_outside s _ Ha Hin) in Hr.
  rewrite (dwell_timeout_check_run _ _ t0) in Hr by assumption.
  apply Qltb_lt in Hout. unfold World.now at 1 in Hr. simpl World.clock in Hr.
  simpl World.reads in Hr. rewrite Hout in Hr.
  rewrite (dwell_complete_test_run false _ _ t0) in Hr by assumption.
  subst r. reflexivity.
Qed.

(** The run of a new test up to the end of a first span in the target that no
    tick has seen reach the dwell time. *)
Lemma dwell_run_first_span (target : Region.t) (dwell : Q) (cs ce : nat -> Q)
    g r (ticks : list (nat -> Q)) :
  (0 < dwell)%Q ->
  Py.truthy (Some (ce 0%nat)) = true ->
  Region.id r = Region.id target ->
  Forall (fun c => (c 0%nat - ce 0%nat < dwell)%Q
                   /\ (c 1%nat - cs 0%nat <= 30)%Q) ticks ->
  exists s,
    DwellRun.started target dwell cs
      (DwellRun.Gaze ce g (Some r) :: map DwellRun.Tick ticks) = (s, [])
    /\ DwellRun.running target dwell (cs 0%nat) (Some (ce 0%nat)) s.
Proof.
  intros Hpos Hte Hid Hticks. unfold DwellRun.started.
  destruct (dwell_start_running target dwell cs) as (s0 & -> & Hrun0).
  change (DwellRun.run (DwellRun.Gaze ce g (Some r) :: map DwellRun.Tick ticks)
            (s0, []))
    with (DwellRun.run (map DwellRun.Tick ticks)
            (DwellRun.step (s0, []) (DwellRun.Gaze ce g (Some r)))).
  destruct (dwell_gaze_running target dwell (cs 0%nat) None s0 [] ce g (Some r)
              Hrun0) as (s1 & -> & Hrun1 & _).
  simpl in Hrun1. apply Z.eqb_eq in Hid. rewrite Hid in Hrun1.
  apply (dwell_run_quiet_ticks target dwell (cs 0%nat) (ce 0%nat) Hte Hpos
           ticks s1 [] Hrun1 Hticks).
Qed.

Lemma dwell_tick_quiet_falsy (target : Region.t) (dwell t0 d : Q)
    (s : RegionDwellTest.t) (log : list TestResult.t) (c : nat -> Q) :
  DwellRun.running target dwell t0 (Some d) s ->
  Py.truthy (Some d) = false ->
  (c 0%nat - t0 <= 30)%Q ->
  exists s',
    DwellRun.step (s, log) (DwellRun.Tick c) = (s', log)
    /\ DwellRun.running target dwell t0 (Some d) s'.
Proof.
  intros Hrun Htd Hin30.
  pose proof Hrun as (Ha & Htg & Hdw & Hst & Hin & Hd).
  unfold DwellRun.step, DwellRun.call. simpl fst. simpl snd.
  rewrite (dwell_tick_falsy s _ d Ha Hd Htd).
  destruct (dwell_timeout_check_cases s (World.fresh c log))
    as [->|[->|(t1 & Hst1 & _ & Hlt & _)]].
  - eexists. split; [reflexivity|]. exact Hrun.
  - eexists. split; [reflexivity|]. exact Hrun.
  - rewrite Hst in Hst1. injection Hst1 as <-.
    apply Qltb_lt in Hlt. apply Qlt_not_le in Hlt. contradiction.
Qed.

Lemma dwell_run_quiet (target : Region.t) (dwell t0 : Q) :
  (0 < dwell)%Q ->
  forall (events : list DwellRun.Event) (span : option Q)
         (s : RegionDwellTest.t) (log : list TestResult.t),
    DwellRun.running target dwell t0 span s ->
    DwellStream.quiet target dwell t0 span events ->
    exists s',
      DwellRun.run events (s, log) = (s', log)
      /\ DwellRun.running target dwell t0
           (DwellStream.span_of target span events) s'.
Proof.
  intros Hpos. induction events as [|e events IH]; intros span s log Hrun Hq.
  - exists s. split; [reflexivity|exact Hrun].
  - destruct Hq as [He Hq].
    change (DwellRun.run (e :: events) (s, log))
      with (DwellRun.run events (DwellRun.step (s, log) e)).
    change (DwellStream.span_of target span (e :: events))
      with (DwellStream.span_of target (DwellRun.span_after target span e)
              events).
    assert (Hstep : exists s1,
               DwellRun.step (s, log) e = (s1, log)
               /\ DwellRun.running target dwell t0
                    (DwellRun.span_after target span e) s1).
    { destruct e as [c g r|c].
      - destruct (dwell_gaze_running target dwell t0 span s log c g r Hrun)
          as (s1 & H1 & H2 & _). eauto.
      - simpl DwellRun.span_after. destruct span as [d|].
        + destruct (Py.truthy (Some d)) eqn:Htd.
          * destruct He as [Hshort Hin30].
            apply (dwell_tick_quiet_inside target dwell t0 d s log c);
              assumption.
          * apply (dwell_tick_quiet_falsy target dwell t0 d s log c);
              assumption.
        + apply (dwell_tick_quiet_outside target dwell t0 s log c);
            assumption. }
    destruct Hstep as (s1 & -> & Hrun1).
    apply (IH _ _ _ Hrun1 Hq).
Qed.

Lemma dwell_tick_success_stops (target : Region.t) (dwell t0 d : Q)
    (s : RegionDwellTest.t) (log : list TestResult.t) (c : nat -> Q) :
  DwellRun.running target dwell t0 (Some d) s ->
  Py.truthy (Some d) = true ->
  Py.truthy (Some t0) = true ->
  (0 < dwell)%Q ->
  (dwell <= c 0%nat - d)%Q ->
  exists s' rest,
    DwellRun.step (s, log) (DwellRun.Tick c)
    = (s', log ++ RegionDwellTest.result s true (c 1%nat - t0) (c 2%nat) :: rest)
    /\ RegionDwellTest.test_active s' = false
    /\ RegionDwellTest.update_timer s' = false
    /\ ((c 3%nat - t0 <= 30)%Q ->
        rest = [] /\ RegionDwellTest.status_label s' = "✅ 测试完成！")
    /\ ((30 < c 3%nat - t0)%Q ->
        exists later, rest = [later] /\ TestResult.success later = false).
Proof.
  intros Hrun Htd Hts Hpos Hfull.
  pose proof Hrun as (Ha & Htg & Hdw & Hst & Hin & Hd).
  unfold DwellRun.step, DwellRun.call. simpl fst. simpl snd.
  remember (RegionDwellTest.update_progress s (World.fresh c log)) as r eqn:Hr.
  rewrite (dwell_tick_inside s _ d) in Hr
    by (try assumption; rewrite Hdw; assumption).
  assert (E : Qle_bool 1
                (py_min ((World.now (World.fresh c log) - d)
                         / RegionDwellTest.dwell_time s) 1) = true).
  { apply progress_full; rewrite Hdw; assumption. }
  rewrite E in Hr. unfold bind in Hr.
  rewrite (dwell_complete_test_run true _ _ t0) in Hr by assumption.
  rewrite (dwell_timeout_check_run _ _ t0) in Hr by assumption.
  unfold World.now at 1 in Hr. simpl World.clock in Hr. simpl World.reads in Hr.
  destruct (Qltb 30 (c 3%nat - t0)) eqn:E30.
  - rewrite (dwell_complete_test_run false _ _ t0) in Hr by assumption.
    subst r. unfold state_of, signals_of. simpl.
    eexists _, [_]. split; [|split; [|split; [|split]]].
    + f_equal. rewrite <- app_assoc. reflexivity.
    + reflexivity.
    + reflexivity.
    + intros Hle. apply Qltb_lt in E30. apply Qlt_not_le in E30. contradiction.
    + intros _. eexists. split; reflexivity.
  - subst r. unfold state_of, signals_of. simpl.
    eexists _, []. split; [reflexivity|]. split; [reflexivity|].
    split; [reflexivity|]. split.
    + intros _. split; reflexivity.
    + intros Hlt. apply Qltb_ge in E30. apply Qle_not_lt in E30. contradiction.
Qed.

(** C6. A new test with a dwell time of 2.0 s is started, and any samples
    and ticks follow on which it does not complete: spans of less than 2.0 s,
    samples inside and outside the target, ticks before the timeout. If the
    gaze is then in a span, the tick that sees 2.0 s or more of that span
    emits the first result of the test: [success = True], [accuracy = 1.0],
    [actual_regions = [target]], the target as [target_region] and as
    duration the reading taken at completion minus the start time. If the
    gaze is then outside the target, having left every span before 2.0 s,
    the first tick later than 30 s after the start emits the only result:
    [success = False], [accuracy = 0.0], [actual_regions = []], the same
    [target_region] and duration. In both cases the test is then inactive
    with its timer stopped, and whatever comes later changes neither the test
    nor the results; the success is the only result unless the timeout has
    passed on the same tick. Clock readings at the start and at the entry of
    the completing span are not 0.0. *)
Theorem dwell_two_seconds_outcomes (target : Region.t) (cs : nat -> Q) :
  ~ (cs 0%nat == 0)%Q ->
  (forall events entered cl,
      DwellStream.quiet target 2 (cs 0%nat) None events ->
      DwellStream.span_of target None events = Some entered ->
      ~ (entered == 0)%Q ->
      (2 <= cl 0%nat - entered)%Q ->
      exists s' first rest,
        DwellRun.started target 2 cs (events ++ [DwellRun.Tick cl])
        = (s', first :: rest)
        /\ TestResult.test_type first = REGION_DWELL
        /\ TestResult.success first = true
        /\ TestResult.accuracy first = 1%Q
        /\ TestResult.actual_regions first = [target]
        /\ TestResult.duration first = (cl 1%nat - cs 0%nat)%Q
        /\ TestResult.target_region first = Some target
        /\ ((cl 3%nat - cs 0%nat <= 30)%Q ->
            rest = [] /\ RegionDwellTest.status_label s' = "✅ 测试完成！")
        /\ ((30 < cl 3%nat - cs 0%nat)%Q ->
            exists later, rest = [later] /\ TestResult.success later = false)
        /\ RegionDwellTest.test_active s' = false
        /\ RegionDwellTest.update_timer s' = false
        /\ forall later,
            DwellRun.started target 2 cs
              ((events ++ [DwellRun.Tick cl]) ++ later)
            = (s', first :: rest))
  /\ (forall events cl,
        DwellStream.quiet target 2 (cs 0%nat) None events ->
        DwellStream.span_of target None events = None ->
        (30 < cl 0%nat - cs 0%nat)%Q ->
        exists s' only,
          DwellRun.started target 2 cs (events ++ [DwellRun.Tick cl])
          = (s', [only])
          /\ TestResult.test_type only = REGION_DWELL
          /\ TestResult.success only = false
          /\ TestResult.accuracy only = 0%Q
          /\ TestResult.actual_regions only = []
          /\ TestResult.duration only = (cl 1%nat - cs 0%nat)%Q
          /\ TestResult.target_region only = Some target
          /\ RegionDwellTest.test_active s' = false
          /\ RegionDwellTest.update_timer s' = false
          /\ RegionDwellTest.status_label s' = "❌ 测试失败"
          /\ forall later,
              DwellRun.started target 2 cs
                ((events ++ [DwellRun.Tick cl]) ++ later)
              = (s', [only])).
Proof.
  intros Hcs. apply truthy_nonzero in Hcs.
  assert (Hpos : (0 < 2)%Q) by reflexivity.
  destruct (dwell_start_running target 2 cs) as (s0 & Hstart & Hrun0).
  split.
  - intros events entered cl Hq Hspan Hent Hfull.
    apply truthy_nonzero in Hent.
    destruct (dwell_run_quiet target 2 (cs 0%nat) Hpos events None s0 []
                Hrun0 Hq) as (s & Hs & Hrun).
    rewrite Hspan in Hrun.
    destruct (dwell_tick_success_stops target 2 (cs 0%nat) entered s [] cl
                Hrun Hent Hcs Hpos Hfull)
      as (s' & rest & Hstep & Hoff & Htimer & Hrest & Hlate).
    assert (Hall : DwellRun.started target 2 cs (events ++ [DwellRun.Tick cl])
                   = (s', RegionDwellTest.result s true (cl 1%nat - cs 0%nat)
                            (cl 2%nat) :: rest)).
    { unfold DwellRun.started. rewrite Hstart, dwell_run_app, Hs.
      change (DwellRun.run [DwellRun.Tick cl] (s, []))
        with (DwellRun.step (s, []) (DwellRun.Tick cl)).
      rewrite Hstep. reflexivity. }
    exists s', (RegionDwellTest.result s true (cl 1%nat - cs 0%nat) (cl 2%nat)),
      rest.
    split; [exact Hall|].
    destruct Hrun as (_ & Htg & _). simpl. rewrite Htg.
    repeat split; try reflexivity; try assumption;
      try (apply Hrest; assumption).
    intros later. unfold DwellRun.started in *.
    rewrite dwell_run_app, Hall. apply dwell_run_inactive. exact Hoff.
  - intros events cl Hq Hspan Hlate.
    destruct (dwell_run_quiet target 2 (cs 0%nat) Hpos events None s0 []
                Hrun0 Hq) as (s & Hs & Hrun).
    rewrite Hspan in Hrun.
    assert (Hall : DwellRun.started target 2 cs (events ++ [DwellRun.Tick cl])
                   = (DwellRun.completed false s,
                      [RegionDwellTest.result s false (cl 1%nat - cs 0%nat)
                         (cl 2%nat)])).
    { unfold DwellRun.started. rewrite Hstart, dwell_run_app, Hs.
      change (DwellRun.run [DwellRun.Tick cl] (s, []))
        with (DwellRun.step (s, []) (DwellRun.Tick cl)).
      rewrite (dwell_tick_timeout target 2 (cs 0%nat) s [] cl Hrun Hcs Hlate).
      reflexivity. }
    eexists _, _. split; [exact Hall|].
    destruct Hrun as (_ & Htg & _). simpl. rewrite Htg.
    repeat split; try reflexivity.
    intros later. unfold DwellRun.started in *.
    rewrite dwell_run_app, Hall. apply dwell_run_inactive. reflexivity.
Qed.

Lemma dwell_two_seconds_outcomes_witness :
  (exists s' first rest,
      DwellRun.started Example.centre 2 (Example.at_time 100)
        (Scenario.second_span ++ [DwellRun.Tick (Example.at_time 105)])
      = (s', first :: rest)
      /\ TestResult.success first = true
      /\ TestResult.accuracy first = 1%Q
      /\ TestResult.actual_regions first = [Example.centre]
      /\ TestResult.duration first = (105 - 100)%Q
      /\ rest = []
      /\ RegionDwellTest.test_active s' = false)
  /\ (exists s' only,
        DwellRun.started Example.centre 2 (Example.at_time 100)
          (Scenario.second_span_left ++ [DwellRun.Tick (Example.at_time 131)])
        = (s', [only])
        /\ TestResult.success only = false
        /\ TestResult.accuracy only = 0%Q
        /\ TestResult.actual_regions only = []
        /\ TestResult.duration only = (131 - 100)%Q
        /\ RegionDwellTest.test_active s' = false).
Proof.
  assert (H100 : ~ (Example.at_time 100 0%nat == 0)%Q) by discriminate.
  split.
  - destruct (proj1 (dwell_two_seconds_outcomes Example.centre
                       (Example.at_time 100) H100)
                Scenario.second_span 103%Q (Example.at_time 105))
      as (s' & first & rest & H1 & _ & H3 & H4 & H5 & H6 & _ & H8 & _ & H10 & _).
    + vm_compute. intuition discriminate.
    + vm_compute. reflexivity.
    + discriminate.
    + discriminate.
    + exists s', first, rest. repeat split; try assumption.
      apply H8. discriminate.
  - destruct (proj2 (dwell_two_seconds_outcomes Example.centre
                       (Example.at_time 100) H100)
                Scenario.second_span_left (Example.at_time 131))
      as (s' & only & H1 & _ & H3 & H4 & H5 & H6 & _ & H8 & _).
    + vm_compute. intuition discriminate.
    + vm_compute. reflexivity.
    + reflexivity.
    + exists s', only. repeat split; assumption.
Defined.

(** ** [random.sample] draws at distinct positions *)

Lemma draw_step_perm {A : Type} (pool : list A) (j : nat) (picked moved : A) :
  pool !! j = Some picked ->
  last pool = Some moved ->
  picked :: removelast (<[j := moved]> pool) ≡ₚ pool.
Proof.
  intros Hj Hlast.
  destruct (last_Some pool moved) as [[init ->] _]; [exact Hlast|].
  destruct (decide (j < length init)%nat) as [Hlt|Hge].
  - rewrite insert_app_l by exact Hlt.
    rewrite removelast_last.
    rewrite lookup_app_l in Hj by exact Hlt.
    apply list_elem_of_split_length in Hj as (l1 & l2 & -> & ->).
    rewrite insert_app_r_alt, Nat.sub_diag by lia. simpl.
    rewrite <- !app_assoc. simpl.
    transitivity (picked :: l1 ++ l2 ++ [moved]).
    + apply perm_skip, Permutation_app_head, Permutation_cons_append.
    + apply Permutation_middle.
  - assert (Hlen : (j < length (init ++ [moved]))%nat)
      by (apply lookup_lt_is_Some; eauto).
    rewrite length_app in Hlen. simpl in Hlen.
    assert (j = length init) by lia. subst j.
    rewrite list_lookup_middle in Hj by reflexivity. injection Hj as <-.
    rewrite insert_app_r_alt, Nat.sub_diag by lia. simpl.
    rewrite removelast_last. apply Permutation_cons_append.
Qed.

Lemma draw_step_length {A : Type} (pool : list A) (j : nat) (moved : A) :
  length (removelast (<[j := moved]> pool)) = pred (length pool).
Proof.
  destruct (decide (pool = [])) as [->|Hne]; [reflexivity|].
  assert (Hne' : <[j := moved]> pool <> []).
  { intros H. apply (f_equal length) in H. rewrite length_insert in H.
    destruct pool; [congruence|discriminate]. }
  destruct (exists_last Hne') as (l & a & E).
  rewrite E, removelast_last.
  apply (f_equal length) in E. rewrite length_insert, length_app in E.
  simpl in E. lia.
Qed.

Section DrawFacts.
Context {A : Type}.
Variable rnd : nat -> nat.

Lemma draw_spec (k : nat) :
  forall (i : nat) (pool : list A),
    (k <= length pool)%nat ->
    length (Random.draw rnd k i pool) = k
    /\ exists rest, Random.draw rnd k i pool ++ rest ≡ₚ pool.
Proof.
  induction k as [|k IH]; intros i pool Hk; simpl.
  - split; [reflexivity|]. exists pool. reflexivity.
  - assert (Hpos : (0 < length pool)%nat) by lia.
    assert (Hj : (Random.randbelow rnd i (length pool) < length pool)%nat).
    { unfold Random.randbelow. apply Nat.mod_upper_bound. lia. }
    destruct (lookup_lt_is_Some_2 pool _ Hj) as [picked Hpicked].
    rewrite Hpicked.
    destruct (last pool) as [moved|] eqn:Hlast.
    + specialize (IH (S i)
                    (removelast (<[Random.randbelow rnd i (length pool) := moved]> pool))).
      rewrite draw_step_length in IH.
      destruct IH as [Hlen [rest Hperm]]; [lia|].
      split; [simpl; rewrite Hlen; reflexivity|].
      exists rest. simpl. rewrite Hperm.
      apply draw_step_perm; assumption.
    + apply last_None in Hlast. subst pool. simpl in Hpos. lia.
Qed.

Lemma sample_spec (population : list A) (k : Z) (picked : list A) :
  Random.sample rnd population k = inr picked ->
  0 <= k <= Z.of_nat (length population)
  /\ Z.of_nat (length picked) = k
  /\ exists rest, picked ++ rest ≡ₚ population.
Proof.
  unfold Random.sample.
  destruct ((0 <=? k) && (k <=? Z.of_nat (length population))) eqn:E;
    [|discriminate].
  apply andb_true_iff in E as [H0 H1].
  apply Z.leb_le in H0. apply Z.leb_le in H1.
  intros [= <-].
  destruct (draw_spec (Z.to_nat k) 0 population) as [Hlen Hperm]; [lia|].
  split; [lia|]. split; [rewrite Hlen; lia|exact Hperm].
Qed.

End DrawFacts.

(** ** Steps of the selection test *)

Lemma selection_update_display_run (s : TargetSelectionTest.t) (w : World.t) :
  exists s',
    TargetSelectionTest.update_display s w = (Ok tt, s', w)
    /\ SelectionRun.same_but_labels s s'.
Proof.
  unfold TargetSelectionTest.update_display. run_method.
  destruct (TargetSelectionTest.target_sequence s
              !! TargetSelectionTest.current_target_index s);
    eexists; (split; [reflexivity|]); unfold SelectionRun.same_but_labels;
    simpl; tauto.
Qed.

Lemma selection_start_test_run (s : TargetSelectionTest.t) (w : World.t) :
  exists s',
    TargetSelectionTest.start_test s w = (Ok tt, s', World.tick w)
    /\ TargetSelectionTest.test_active s' = true
    /\ TargetSelectionTest.start_time s' = Some (World.now w)
    /\ TargetSelectionTest.current_target_index s' = 0%nat
    /\ TargetSelectionTest.selected_regions s' = []
    /\ TargetSelectionTest.target_sequence s' = TargetSelectionTest.target_sequence s
    /\ TargetSelectionTest.regions s' = TargetSelectionTest.regions s
    /\ TargetSelectionTest.num_targets s' = TargetSelectionTest.num_targets s.
Proof.
  unfold TargetSelectionTest.start_test. run_method.
  match goal with |- context [TargetSelectionTest.update_display ?s1 ?w1] =>
    destruct (selection_update_display_run s1 w1) as (s' & -> & Hsame)
  end.
  exists s'. split; [reflexivity|].
  destruct Hsame as (H1 & H2 & H3 & H4 & H5 & H6 & H7).
  simpl in *. tauto.
Qed.

(** [complete_test] on a sequence that is not empty: the test stops and one
    result leaves it. *)
Lemma selection_complete_test_run (s : TargetSelectionTest.t) (w : World.t) :
  TargetSelectionTest.target_sequence s <> [] ->
  exists duration stamp w',
    TargetSelectionTest.complete_test s w
    = (Ok tt, TargetSelectionTest.set_test_active false s, w')
    /\ World.test_completed w'
       = World.test_completed w ++ [TargetSelectionTest.result s duration stamp]
    /\ (forall t0,
          TargetSelectionTest.start_time s = Some t0 ->
          Py.truthy (Some t0) = true ->
          duration = (World.now w - t0)%Q).
Proof.
  intros Hne.
  unfold TargetSelectionTest.complete_test, TargetSelectionTest.stop_test.
  run_method.
  assert (Hlen : (length (TargetSelectionTest.target_sequence s) =? 0)%nat = false).
  { apply Nat.eqb_neq. destruct (TargetSelectionTest.target_sequence s);
      [congruence|discriminate]. }
  destruct (TargetSelectionTest.start_time s) as [t0|] eqn:Hst; simpl.
  - destruct (Py.truthy (Some t0)) eqn:Ht; simpl; rewrite Hlen; simpl;
      eexists _, _, _; (split; [reflexivity|]); (split; [reflexivity|]);
      intros t1 [= <-] Ht1; congruence.
  - rewrite Hlen. simpl.
    eexists _, _, _; (split; [reflexivity|]); (split; [reflexivity|]).
    intros t1 [=].
Qed.

(** A sample that matches the current target. *)
Lemma selection_gaze_match (s : TargetSelectionTest.t) (w : World.t) g
    (q target : Region.t) :
  TargetSelectionTest.test_active s = true ->
  TargetSelectionTest.target_sequence s
    !! TargetSelectionTest.current_target_index s = Some target ->
  Region.id q = Region.id target ->
  let s1 :=
    TargetSelectionTest.set_current_target_index
      (S (TargetSelectionTest.current_target_index s))
      (TargetSelectionTest.set_selected_regions
         (TargetSelectionTest.selected_regions s ++ [q]) s) in
  TargetSelectionTest.update_gaze_point g (Some q) s w
  = if (length (TargetSelectionTest.target_sequence s)
        <=? S (TargetSelectionTest.current_target_index s))%nat
    then TargetSelectionTest.complete_test s1 w
    else TargetSelectionTest.update_display s1 w.
Proof.
  intros Ha Ht Hid. simpl.
  unfold TargetSelectionTest.update_gaze_point. run_method.
  assert (Hlt : (length (TargetSelectionTest.target_sequence s)
                 <=? TargetSelectionTest.current_target_index s)%nat = false).
  { apply Nat.leb_gt. apply lookup_lt_is_Some. eauto. }
  rewrite Ha, Hlt, Ht. simpl.
  apply Z.eqb_eq in Hid. rewrite Hid. simpl.
  destruct (length (TargetSelectionTest.target_sequence s)
            <=? S (TargetSelectionTest.current_target_index s))%nat;
    reflexivity.
Qed.

(** A sample that does not: no region, or a region with another id. *)
Lemma selection_gaze_mismatch (s : TargetSelectionTest.t) (w : World.t) g
    (r : option Region.t) :
  (forall q target,
      r = Some q ->
      TargetSelectionTest.target_sequence s
        !! TargetSelectionTest.current_target_index s = Some target ->
      Region.id q <> Region.id target) ->
  TargetSelectionTest.update_gaze_point g r s w = (Ok tt, s, w).
Proof.
  intros Hne. unfold TargetSelectionTest.update_gaze_point. run_method.
  destruct (negb _ || _); [reflexivity|].
  destruct r as [q|]; [|reflexivity].
  destruct (TargetSelectionTest.target_sequence s !! _) as [target|];
    [|reflexivity].
  specialize (Hne q target eq_refl eq_refl). apply Z.eqb_neq in Hne.
  rewrite Hne. reflexivity.
Qed.

(** C8. The constructor of the selection test succeeds for every
    [num_targets >= 0], also one above the number of candidate regions. The
    target sequence it draws has [min(num_targets, len(regions))] elements,
    taken at distinct positions of the candidate list: they are members of
    it, and distinct (as regions, and by id) when the candidates are.
    [start_test] sets the index to 0 and empties the visited list and leaves
    the target sequence as it is. *)
Theorem selection_target_sequence_drawn_once :
  (forall rnd rs n,
      0 <= n -> exists s, TargetSelectionTest.__init__ rnd rs n = inr s)
  /\ (forall rnd rs n s,
        TargetSelectionTest.__init__ rnd rs n = inr s ->
        Z.of_nat (length (TargetSelectionTest.target_sequence s))
        = Z.min n (Z.of_nat (length rs))
        /\ (exists rest, TargetSelectionTest.target_sequence s ++ rest ≡ₚ rs)
        /\ (forall r, r ∈ TargetSelectionTest.target_sequence s -> r ∈ rs)
        /\ (NoDup rs -> NoDup (TargetSelectionTest.target_sequence s))
        /\ (NoDup (map Region.id rs) ->
            NoDup (map Region.id (TargetSelectionTest.target_sequence s))))
  /\ (forall s w,
        TargetSelectionTest.target_sequence
          (state_of (TargetSelectionTest.start_test s w))
        = TargetSelectionTest.target_sequence s
        /\ TargetSelectionTest.current_target_index
             (state_of (TargetSelectionTest.start_test s w)) = 0%nat
        /\ TargetSelectionTest.selected_regions
             (state_of (TargetSelectionTest.start_test s w)) = []).
Proof.
  split; [|split].
  - intros rnd rs n Hn.
    unfold TargetSelectionTest.__init__,
      TargetSelectionTest.generate_target_sequence, Random.sample.
    run_method.
    assert (E : (0 <=? Z.min n (Z.of_nat (length rs)))
                && (Z.min n (Z.of_nat (length rs)) <=? Z.of_nat (length rs))
                = true).
    { apply andb_true_iff. split; apply Z.leb_le; lia. }
    rewrite E. simpl. eauto.
  - intros rnd rs n s Hinit.
    apply selection_init_inactive in Hinit as (_ & _ & _ & Hsample).
    apply sample_spec in Hsample as (_ & Hlen & rest & Hperm).
    split; [exact Hlen|]. split; [eauto|]. split; [|split].
    + intros r Hr. rewrite <- Hperm. apply elem_of_app. auto.
    + intros Hnd. rewrite <- Hperm in Hnd. apply NoDup_app in Hnd. tauto.
    + intros Hnd. rewrite <- Hperm, map_app in Hnd.
      apply NoDup_app in Hnd. tauto.
  - intros s w.
    destruct (selection_start_test_run s w) as (s' & -> & H).
    unfold state_of. simpl. tauto.
Qed.

Lemma selection_target_sequence_drawn_once_witness :
  exists s,
    TargetSelectionTest.__init__ (fun i => (7 * i + 3)%nat)
      (Example.regions_of Example.full_hd) 20 = inr s
    /\ Z.of_nat (length (TargetSelectionTest.target_sequence s)) = 9.
Proof.
  destruct (proj1 selection_target_sequence_drawn_once
              (fun i => (7 * i + 3)%nat) (Example.regions_of Example.full_hd) 20)
    as [s Hs]; [lia|].
  exists s. split; [exact Hs|].
  apply (proj1 (proj2 selection_target_sequence_drawn_once)) in Hs
    as (Hlen & _).
  rewrite Hlen. reflexivity.
Defined.

(** ** Runs of the selection test *)

Lemma ratio_in_unit (a b : nat) :
  (a <= b)%nat -> (0 < b)%nat ->
  (0 <= inject_Z (Z.of_nat a) / inject_Z (Z.of_nat b)
   /\ inject_Z (Z.of_nat a) / inject_Z (Z.of_nat b) <= 1)%Q.
Proof.
  intros Hab Hb.
  assert (Hpos : (0 < inject_Z (Z.of_nat b))%Q).
  { change 0%Q with (inject_Z 0). rewrite <- Zlt_Qlt. lia. }
  split.
  - apply Qle_shift_div_l; [exact Hpos|]. rewrite Qmult_0_l.
    change 0%Q with (inject_Z 0). rewrite <- Zle_Qle. lia.
  - apply Qle_shift_div_r; [exact Hpos|]. rewrite Qmult_1_l.
    rewrite <- Zle_Qle. lia.
Qed.

Lemma ratio_full (b : nat) :
  (0 < b)%nat -> (inject_Z (Z.of_nat b) / inject_Z (Z.of_nat b) == 1)%Q.
Proof.
  intros Hb. unfold Qdiv. apply Qmult_inv_r. intros H.
  change 0%Q with (inject_Z 0) in H. apply -> inject_Z_injective in H. lia.
Qed.

Lemma selection_gaze_ignored (s : TargetSelectionTest.t) (w : World.t) g r :
  TargetSelectionTest.test_active s = false
  \/ (length (TargetSelectionTest.target_sequence s)
      <= TargetSelectionTest.current_target_index s)%nat ->
  TargetSelectionTest.update_gaze_point g r s w = (Ok tt, s, w).
Proof.
  intros H. unfold TargetSelectionTest.update_gaze_point. run_method.
  destruct H as [H|H].
  - rewrite H. reflexivity.
  - apply Nat.leb_le in H. rewrite H, orb_true_r. reflexivity.
Qed.

(** What one sample does to a test: nothing; or one more region visited and
    the test goes on; or one more region visited, the test stops and its
    result is emitted. *)
Lemma selection_gaze_cases (s : TargetSelectionTest.t) (w : World.t) g r :
  TargetSelectionTest.update_gaze_point g r s w = (Ok tt, s, w)
  \/ exists q target s1,
      r = Some q
      /\ TargetSelectionTest.test_active s = true
      /\ TargetSelectionTest.target_sequence s
           !! TargetSelectionTest.current_target_index s = Some target
      /\ Region.id q = Region.id target
      /\ s1 = TargetSelectionTest.set_current_target_index
                (S (TargetSelectionTest.current_target_index s))
                (TargetSelectionTest.set_selected_regions
                   (TargetSelectionTest.selected_regions s ++ [q]) s)
      /\ (((S (TargetSelectionTest.current_target_index s)
            < length (TargetSelectionTest.target_sequence s))%nat
           /\ exists s',
               TargetSelectionTest.update_gaze_point g r s w = (Ok tt, s', w)
               /\ SelectionRun.same_but_labels s1 s')
          \/ (S (TargetSelectionTest.current_target_index s)
              = length (TargetSelectionTest.target_sequence s)
              /\ exists duration stamp w',
                  TargetSelectionTest.update_gaze_point g r s w
                  = (Ok tt, TargetSelectionTest.set_test_active false s1, w')
                  /\ World.test_completed w'
                     = World.test_completed w
                         ++ [TargetSelectionTest.result s1 duration stamp]
                  /\ (forall t0,
                        TargetSelectionTest.start_time s = Some t0 ->
                        Py.truthy (Some t0) = true ->
                        duration = (World.now w - t0)%Q))).
Proof.
  destruct (TargetSelectionTest.test_active s) eqn:Ha;
    [|left; apply selection_gaze_ignored; auto].
  destruct (TargetSelectionTest.target_sequence s
              !! TargetSelectionTest.current_target_index s)
    as [target|] eqn:Ht.
  2:{ left. apply selection_gaze_ignored. right.
      apply lookup_ge_None. exact Ht. }
  destruct r as [q|].
  2:{ left. apply selection_gaze_mismatch. intros ? ? [=]. }
  destruct (Z.eq_dec (Region.id q) (Region.id target)) as [Hid|Hid].
  2:{ left. apply selection_gaze_mismatch. intros ? ? [= <-] E.
      rewrite Ht in E. injection E as <-. exact Hid. }
  right. exists q, target. eexists. split; [reflexivity|].
  split; [reflexivity|]. split; [reflexivity|]. split; [exact Hid|].
  split; [reflexivity|].
  rewrite (selection_gaze_match s w g q target Ha Ht Hid). simpl.
  assert (Hlt : (TargetSelectionTest.current_target_index s
                 < length (TargetSelectionTest.target_sequence s))%nat).
  { apply lookup_lt_is_Some. eauto. }
  destruct (Nat.leb_spec (length (TargetSelectionTest.target_sequence s))
              (S (TargetSelectionTest.current_target_index s))) as [Hdone|Hmore].
  - right. split; [lia|].
    match goal with |- context [TargetSelectionTest.complete_test ?s1 w] =>
      destruct (selection_complete_test_run s1 w) as (du & st & w' & E & Hlog & Hdu)
    end.
    { simpl. intros E. rewrite E in Hlt. simpl in Hlt. lia. }
    exists du, st, w'. split; [exact E|]. split; [exact Hlog|]. exact Hdu.
  - left. split; [lia|].
    match goal with |- context [TargetSelectionTest.update_display ?s1 w] =>
      destruct (selection_update_display_run s1 w) as (s' & E & Hsame)
    end.
    exists s'. split; assumption.
Qed.

Lemma prefix_invariant_same (s s' : TargetSelectionTest.t) :
  TargetSelectionTest.current_target_index s'
  = TargetSelectionTest.current_target_index s ->
  TargetSelectionTest.target_sequence s' = TargetSelectionTest.target_sequence s ->
  TargetSelectionTest.selected_regions s' = TargetSelectionTest.selected_regions s ->
  SelectionRun.prefix_invariant s -> SelectionRun.prefix_invariant s'.
Proof.
  unfold SelectionRun.prefix_invariant. intros -> -> ->. tauto.
Qed.

(** One more matched region keeps the visited list a prefix, id for id. *)
Lemma prefix_invariant_match (s : TargetSelectionTest.t) (q target : Region.t) :
  TargetSelectionTest.target_sequence s
    !! TargetSelectionTest.current_target_index s = Some target ->
  Region.id q = Region.id target ->
  SelectionRun.prefix_invariant s ->
  SelectionRun.prefix_invariant
    (TargetSelectionTest.set_current_target_index
       (S (TargetSelectionTest.current_target_index s))
       (TargetSelectionTest.set_selected_regions
          (TargetSelectionTest.selected_regions s ++ [q]) s)).
Proof.
  unfold SelectionRun.prefix_invariant. simpl. intros Ht Hid [Hlen Hids].
  split.
  - rewrite length_app, Hlen. simpl. lia.
  - rewrite (take_S_r _ _ _ Ht), !map_app, Hids. simpl. rewrite Hid. reflexivity.
Qed.

Lemma selection_step_invariant (s : TargetSelectionTest.t)
    (log : list TestResult.t) (e : SelectionRun.Event) :
  SelectionRun.prefix_invariant s ->
  Forall (fun r => (0 <= TestResult.accuracy r /\ TestResult.accuracy r <= 1)%Q) log ->
  SelectionRun.prefix_invariant (fst (SelectionRun.step (s, log) e))
  /\ Forall (fun r => (0 <= TestResult.accuracy r /\ TestResult.accuracy r <= 1)%Q)
       (snd (SelectionRun.step (s, log) e)).
Proof.
  intros Hinv Hlog. destruct e as [c| |c g r];
    unfold SelectionRun.step, SelectionRun.call; simpl fst; simpl snd.
  - destruct (selection_start_test_run s (World.fresh c log))
      as (s' & -> & _ & _ & Hidx & Hsel & _).
    split; [|exact Hlog].
    unfold SelectionRun.prefix_invariant, state_of. simpl.
    rewrite Hidx, Hsel. split; reflexivity.
  - split; [|exact Hlog]. revert Hinv. apply prefix_invariant_same; reflexivity.
  - destruct (selection_gaze_cases s (World.fresh c log) g r)
      as [->|(q & target & s1 & -> & Ha & Ht & Hid & -> & Hcase)].
    + split; assumption.
    + pose proof (prefix_invariant_match s q target Ht Hid Hinv) as Hinv1.
      destruct Hcase as [(_ & s' & -> & Hsame)|(Hfull & du & st & w' & -> & Hw & _)].
      * split; [|exact Hlog]. unfold state_of. simpl.
        destruct Hsame as (_ & _ & H3 & H4 & H5 & _).
        revert Hinv1. apply prefix_invariant_same; assumption.
      * split.
        -- unfold state_of. simpl. revert Hinv1.
           apply prefix_invariant_same; reflexivity.
        -- unfold signals_of. simpl. rewrite Hw. simpl.
           apply Forall_app. split; [exact Hlog|]. constructor; [|constructor].
           unfold TargetSelectionTest.result, TargetSelectionTest.accuracy_of.
           simpl. destruct Hinv1 as [Hlen _]. simpl in Hlen.
           rewrite Hlen. apply ratio_in_unit; lia.
Qed.

(** C9. After [start_test] and any further calls of [update_gaze_point],
    [stop_test] and [start_test], the visited list has as many elements as
    the index says, and its i-th element has the id of the i-th element of
    the target sequence; every result emitted on the way has an accuracy
    between 0 and 1. *)
Theorem selection_visited_is_prefix (s : TargetSelectionTest.t)
    (cs : nat -> Q) (events : list SelectionRun.Event) :
  SelectionRun.prefix_invariant
    (fst (SelectionRun.run (SelectionRun.Start cs :: events) (s, [])))
  /\ Forall (fun r => (0 <= TestResult.accuracy r /\ TestResult.accuracy r <= 1)%Q)
       (snd (SelectionRun.run (SelectionRun.Start cs :: events) (s, []))).
Proof.
  change (SelectionRun.run (SelectionRun.Start cs :: events) (s, []))
    with (SelectionRun.run events
            (SelectionRun.step (s, []) (SelectionRun.Start cs))).
  assert (H0 :
    SelectionRun.prefix_invariant
      (fst (SelectionRun.step (s, []) (SelectionRun.Start cs)))
    /\ Forall (fun r => (0 <= TestResult.accuracy r /\ TestResult.accuracy r <= 1)%Q)
         (snd (SelectionRun.step (s, []) (SelectionRun.Start cs)))).
  { unfold SelectionRun.step, SelectionRun.call. simpl fst. simpl snd.
    destruct (selection_start_test_run s (World.fresh cs []))
      as (s' & -> & _ & _ & Hidx & Hsel & _).
    split; [|constructor].
    unfold SelectionRun.prefix_invariant, state_of. simpl.
    rewrite Hidx, Hsel. split; reflexivity. }
  revert H0. generalize (SelectionRun.step (s, []) (SelectionRun.Start cs)).
  induction events as [|e events IH]; intros cfg Hcfg; [exact Hcfg|].
  change (SelectionRun.run (e :: events) cfg)
    with (SelectionRun.run events (SelectionRun.step cfg e)).
  apply IH. destruct cfg as [s0 log0]. destruct Hcfg as [Hinv Hlog].
  apply selection_step_invariant; assumption.
Qed.

Lemma selection_run_cons (e : SelectionRun.Event) (events : list SelectionRun.Event)
    (cfg : SelectionRun.Config) :
  SelectionRun.run (e :: events) cfg
  = SelectionRun.run events (SelectionRun.step cfg e).
Proof. reflexivity. Qed.

Lemma selection_run_app (l1 l2 : list SelectionRun.Event)
    (cfg : SelectionRun.Config) :
  SelectionRun.run (l1 ++ l2) cfg = SelectionRun.run l2 (SelectionRun.run l1 cfg).
Proof. unfold SelectionRun.run. apply fold_left_app. Qed.

(** Delivering the rest of the target sequence, id for id, completes the
    test with one result. *)
Lemma selection_run_matching (c : nat -> Q) :
  forall (ahead stream : list Region.t) (behind : list Region.t)
         (s : TargetSelectionTest.t) (log : list TestResult.t),
    TargetSelectionTest.test_active s = true ->
    TargetSelectionTest.target_sequence s = behind ++ ahead ->
    TargetSelectionTest.current_target_index s = length behind ->
    ahead <> [] ->
    map Region.id stream = map Region.id ahead ->
    exists s' duration stamp,
      SelectionRun.run (SelectionRun.deliver c stream) (s, log)
      = (s', log ++ [TargetSelectionTest.result s' duration stamp])
      /\ TargetSelectionTest.test_active s' = false
      /\ TargetSelectionTest.target_sequence s' = behind ++ ahead
      /\ TargetSelectionTest.current_target_index s' = length (behind ++ ahead)
      /\ TargetSelectionTest.selected_regions s'
         = TargetSelectionTest.selected_regions s ++ stream.
Proof.
  induction ahead as [|target ahead IH];
    intros stream behind s log Ha Hseq Hidx Hne Hids; [congruence|].
  destruct stream as [|q stream]; [discriminate|].
  simpl in Hids. injection Hids as Hid Hids.
  assert (Ht : TargetSelectionTest.target_sequence s
                 !! TargetSelectionTest.current_target_index s = Some target).
  { rewrite Hseq, Hidx. apply list_lookup_middle. reflexivity. }
  change (SelectionRun.deliver c (q :: stream))
    with (SelectionRun.Gaze c None (Some q) :: SelectionRun.deliver c stream).
  rewrite selection_run_cons.
  unfold SelectionRun.step at 1, SelectionRun.call. simpl fst. simpl snd.
  rewrite (selection_gaze_match s _ None q target Ha Ht Hid).
  destruct ahead as [|target' ahead].
  - destruct stream; [|discriminate].
    assert (E : (length (TargetSelectionTest.target_sequence s)
                 <=? S (TargetSelectionTest.current_target_index s))%nat = true).
    { apply Nat.leb_le. rewrite Hseq, Hidx, length_app. simpl. lia. }
    rewrite E.
    match goal with |- context [TargetSelectionTest.complete_test ?s1 ?w1] =>
      destruct (selection_complete_test_run s1 w1) as (du & st & w' & -> & Hw & _)
    end.
    { simpl. rewrite Hseq. destruct behind; discriminate. }
    unfold state_of, signals_of. simpl. rewrite Hw. simpl.
    match goal with |- context [(?sfin, log ++ _)] => exists sfin, du, st end.
    split; [reflexivity|]. simpl.
    rewrite Hseq, length_app. simpl. repeat split; auto. lia.
  - assert (E : (length (TargetSelectionTest.target_sequence s)
                 <=? S (TargetSelectionTest.current_target_index s))%nat = false).
    { apply Nat.leb_gt. rewrite Hseq, Hidx, length_app. simpl. lia. }
    rewrite E.
    match goal with |- context [TargetSelectionTest.update_display ?s1 ?w1] =>
      destruct (selection_update_display_run s1 w1)
        as (s2 & -> & _ & _ & H3 & H4 & H5 & H6 & _)
    end.
    unfold state_of, signals_of. simpl in *.
    destruct (IH stream (behind ++ [target]) s2 log) as (s' & du & st & -> & H);
      try congruence.
    + rewrite H4, Hseq, <- app_assoc. reflexivity.
    + rewrite H3, length_app. simpl. lia.
    + exists s', du, st. split; [reflexivity|].
      rewrite <- !app_assoc in H. simpl in H. rewrite H5, <- app_assoc in H.
      exact H.
Qed.

(** Regions that do not have the id of the current target leave the test
    where it is. *)
Lemma selection_run_mismatching (c : nat -> Q) (target : Region.t) :
  forall (stream : list Region.t) (s : TargetSelectionTest.t)
         (log : list TestResult.t),
    TargetSelectionTest.target_sequence s
      !! TargetSelectionTest.current_target_index s = Some target ->
    Forall (fun q => Region.id q <> Region.id target) stream ->
    SelectionRun.run (SelectionRun.deliver c stream) (s, log) = (s, log).
Proof.
  induction stream as [|q stream IH]; intros s log Ht Hall; [reflexivity|].
  inversion Hall as [|? ? Hq Hrest]; subst.
  change (SelectionRun.deliver c (q :: stream))
    with (SelectionRun.Gaze c None (Some q) :: SelectionRun.deliver c stream).
  rewrite selection_run_cons.
  unfold SelectionRun.step at 1, SelectionRun.call. simpl fst. simpl snd.
  rewrite selection_gaze_mismatch.
  - apply IH; assumption.
  - intros q' target' [= <-] E. rewrite Ht in E. injection E as <-. exact Hq.
Qed.

(** C5. For an active selection test. A sample whose region has the id of
    [target_sequence[current_target_index]] appends that region to the
    visited list and increments the index; the test then completes exactly
    when the index has reached the length of the sequence: it stops and emits
    one result with [accuracy = len(selected) / len(target_sequence)],
    [success] the outcome of [accuracy == 1.0] and the visited list as
    [actual_regions]; before that it stays active and emits nothing. A sample
    with no region or another id leaves the test and the world unchanged, and
    a step emits something only in the completing case. After [start_test],
    a stream that matches the target sequence id for id ends with one
    result, success with accuracy 1 and the stream as visited list; a stream
    of regions none of which has the id of the first target leaves the index
    at 0, and the first target, when it arrives, moves it to 1. *)
Theorem selection_advances_on_match :
  (forall s w g q target,
      TargetSelectionTest.test_active s = true ->
      TargetSelectionTest.target_sequence s
        !! TargetSelectionTest.current_target_index s = Some target ->
      Region.id q = Region.id target ->
      exists s' w',
        TargetSelectionTest.update_gaze_point g (Some q) s w = (Ok tt, s', w')
        /\ TargetSelectionTest.selected_regions s'
           = TargetSelectionTest.selected_regions s ++ [q]
        /\ TargetSelectionTest.current_target_index s'
           = S (TargetSelectionTest.current_target_index s)
        /\ TargetSelectionTest.target_sequence s'
           = TargetSelectionTest.target_sequence s
        /\ ((S (TargetSelectionTest.current_target_index s)
             < length (TargetSelectionTest.target_sequence s))%nat ->
            TargetSelectionTest.test_active s' = true
            /\ World.test_completed w' = World.test_completed w)
        /\ (S (TargetSelectionTest.current_target_index s)
            = length (TargetSelectionTest.target_sequence s) ->
            TargetSelectionTest.test_active s' = false
            /\ exists result,
                World.test_completed w' = World.test_completed w ++ [result]
                /\ TestResult.accuracy result
                   = (inject_Z (Z.of_nat (length (TargetSelectionTest.selected_regions s')))
                      / inject_Z (Z.of_nat (length (TargetSelectionTest.target_sequence s'))))%Q
                /\ TestResult.success result
                   = Qeq_bool (TestResult.accuracy result) 1
                /\ TestResult.actual_regions result
                   = TargetSelectionTest.selected_regions s'))
  /\ (forall s w g r,
        (forall q target,
            r = Some q ->
            TargetSelectionTest.target_sequence s
              !! TargetSelectionTest.current_target_index s = Some target ->
            Region.id q <> Region.id target) ->
        TargetSelectionTest.update_gaze_point g r s w = (Ok tt, s, w))
  /\ (forall s w g r,
        signals_of (TargetSelectionTest.update_gaze_point g r s w)
        <> World.test_completed w ->
        exists q target,
          r = Some q
          /\ TargetSelectionTest.target_sequence s
               !! TargetSelectionTest.current_target_index s = Some target
          /\ Region.id q = Region.id target
          /\ S (TargetSelectionTest.current_target_index s)
             = length (TargetSelectionTest.target_sequence s))
  /\ (forall s cs c stream,
        TargetSelectionTest.target_sequence s <> [] ->
        map Region.id stream
        = map Region.id (TargetSelectionTest.target_sequence s) ->
        exists s' result,
          SelectionRun.run (SelectionRun.Start cs :: SelectionRun.deliver c stream)
            (s, [])
          = (s', [result])
          /\ TestResult.success result = true
          /\ (TestResult.accuracy result == 1)%Q
          /\ TestResult.actual_regions result = stream
          /\ TargetSelectionTest.test_active s' = false)
  /\ (forall s cs c first others stream q,
        TargetSelectionTest.target_sequence s = first :: others ->
        Forall (fun r => Region.id r <> Region.id first) stream ->
        Region.id q = Region.id first ->
        exists s1 s2 log2,
          SelectionRun.run (SelectionRun.Start cs :: SelectionRun.deliver c stream)
            (s, [])
          = (s1, [])
          /\ TargetSelectionTest.test_active s1 = true
          /\ TargetSelectionTest.current_target_index s1 = 0%nat
          /\ TargetSelectionTest.selected_regions s1 = []
          /\ SelectionRun.run
               (SelectionRun.Start cs :: SelectionRun.deliver c (stream ++ [q]))
               (s, [])
             = (s2, log2)
          /\ TargetSelectionTest.current_target_index s2 = 1%nat
          /\ TargetSelectionTest.selected_regions s2 = [q]).
Proof.
  split; [|split; [|split; [|split]]].
  - intros s w g q target Ha Ht Hid.
    destruct (selection_gaze_cases s w g (Some q))
      as [E|(q' & target' & s1 & [= <-] & _ & Ht' & _ & -> & Hcase)].
    { exfalso. rewrite (selection_gaze_match s w g q target Ha Ht Hid) in E.
      destruct (_ <=? _)%nat.
      - match type of E with TargetSelectionTest.complete_test ?s1 w = _ =>
          destruct (selection_complete_test_run s1 w) as (du & st & w' & E' & _)
        end.
        + simpl. intros H. rewrite H in Ht. discriminate.
        + rewrite E' in E. injection E as E _.
          apply (f_equal TargetSelectionTest.test_active) in E. simpl in E.
          congruence.
      - match type of E with TargetSelectionTest.update_display ?s1 w = _ =>
          destruct (selection_update_display_run s1 w)
            as (s' & E' & _ & _ & H3 & _)
        end.
        rewrite E' in E. injection E as E. subst s'. simpl in H3. lia. }
    destruct Hcase as [(Hlt & s' & -> & Hsame)|(Heq & du & st & w' & -> & Hw & _)].
    + destruct Hsame as (_ & _ & H3 & H4 & H5 & H6 & _). simpl in *.
      exists s', w. split; [reflexivity|]. repeat split; auto; try lia.
      congruence.
    + eexists _, w'. split; [reflexivity|]. simpl.
      repeat split; auto; try lia.
      eexists. split; [exact Hw|]. repeat split.
  - intros s w g r Hne. apply selection_gaze_mismatch. exact Hne.
  - intros s w g r Hsig.
    destruct (selection_gaze_cases s w g r)
      as [E|(q & target & s1 & -> & _ & Ht & Hid & -> & Hcase)].
    { rewrite E in Hsig. contradiction. }
    destruct Hcase as [(_ & s' & E & _)|(Heq & _)].
    + rewrite E in Hsig. contradiction.
    + exists q, target. auto.
  - intros s cs c stream Hne Hids.
    rewrite selection_run_cons.
    unfold SelectionRun.step, SelectionRun.call. simpl fst. simpl snd.
    destruct (selection_start_test_run s (World.fresh cs []))
      as (s0 & -> & Ha & _ & Hidx & Hsel & Hseq & _).
    unfold state_of, signals_of. simpl.
    destruct (selection_run_matching c (TargetSelectionTest.target_sequence s)
                stream [] s0 []) as (s' & du & st & -> & Hoff & Hseq' & _ & Hsel');
      auto.
    exists s', (TargetSelectionTest.result s' du st). split; [reflexivity|].
    assert (Hacc : (TargetSelectionTest.accuracy_of s' == 1)%Q).
    { unfold TargetSelectionTest.accuracy_of.
      rewrite Hsel', Hsel, Hseq'. simpl.
      apply (f_equal length) in Hids. rewrite !length_map in Hids.
      rewrite Hids. apply ratio_full.
      destruct (TargetSelectionTest.target_sequence s); [congruence|simpl; lia]. }
    simpl. rewrite Hsel', Hsel. simpl.
    split; [apply Qeq_bool_iff; exact Hacc|]. auto.
  - intros s cs c first others stream q Hseq Hall Hid.
    rewrite !selection_run_cons.
    unfold SelectionRun.step, SelectionRun.call. simpl fst. simpl snd.
    destruct (selection_start_test_run s (World.fresh cs []))
      as (s0 & -> & Ha & _ & Hidx & Hsel & Hseq0 & _).
    unfold state_of, signals_of. simpl.
    assert (Ht : TargetSelectionTest.target_sequence s0
                   !! TargetSelectionTest.current_target_index s0 = Some first).
    { rewrite Hseq0, Hseq, Hidx. reflexivity. }
    unfold SelectionRun.deliver. rewrite map_app.
    fold (SelectionRun.deliver c stream). fold (SelectionRun.deliver c [q]).
    rewrite selection_run_app.
    rewrite (selection_run_mismatching c first stream s0 [] Ht Hall).
    change (SelectionRun.run (SelectionRun.deliver c [q]) (s0, []))
      with (SelectionRun.step (s0, []) (SelectionRun.Gaze c None (Some q))).
    unfold SelectionRun.step, SelectionRun.call. simpl fst. simpl snd.
    destruct (selection_gaze_cases s0 (World.fresh c []) None (Some q))
      as [E|(q' & target' & s1 & [= <-] & _ & Ht' & _ & -> & Hcase)].
    { exfalso.
      rewrite (selection_gaze_match s0 _ None q first Ha Ht Hid) in E.
      destruct (_ <=? _)%nat.
      - match type of E with TargetSelectionTest.complete_test ?s1 ?w1 = _ =>
          destruct (selection_complete_test_run s1 w1) as (du & st & w' & E' & _)
        end.
        + simpl. rewrite Hseq0, Hseq. discriminate.
        + rewrite E' in E. injection E as E _.
          apply (f_equal TargetSelectionTest.test_active) in E. simpl in E.
          congruence.
      - match type of E with TargetSelectionTest.update_display ?s1 ?w1 = _ =>
          destruct (selection_update_display_run s1 w1)
            as (s' & E' & _ & _ & H3 & _)
        end.
        rewrite E' in E. injection E as E. subst s'. simpl in H3. lia. }
    exists s0.
    destruct Hcase as [(_ & s' & -> & Hsame)|(_ & du & st & w' & -> & _)].
    + destruct Hsame as (_ & _ & H3 & _ & H5 & _).
      eexists s', _. split; [reflexivity|]. split; [exact Ha|].
      split; [exact Hidx|]. split; [exact Hsel|]. split; [reflexivity|].
      split.
      * rewrite H3. simpl. rewrite Hidx. reflexivity.
      * rewrite H5. simpl. rewrite Hsel. reflexivity.
    + eexists _, _. split; [reflexivity|]. split; [exact Ha|].
      split; [exact Hidx|]. split; [exact Hsel|]. split; [reflexivity|].
      unfold state_of. simpl. rewrite Hidx, Hsel. split; reflexivity.
Qed.

Lemma selection_advances_on_match_witness :
  exists s' result,
    SelectionRun.run
      (SelectionRun.Start (Example.at_time 100)
         :: SelectionRun.deliver (Example.at_time 105)
              [Example.nth_region Example.full_hd 0;
               Example.nth_region Example.full_hd 1;
               Example.nth_region Example.full_hd 2])
      (Example.first_row_test, [])
    = (s', [result])
    /\ TestResult.success result = true
    /\ (TestResult.accuracy result == 1)%Q
    /\ TestResult.actual_regions result
       = [Example.nth_region Example.full_hd 0;
          Example.nth_region Example.full_hd 1;
          Example.nth_region Example.full_hd 2]
    /\ TargetSelectionTest.test_active s' = false.
Proof.
  apply (proj1 (proj2 (proj2 (proj2 selection_advances_on_match)))).
  - discriminate.
  - reflexivity.
Defined.

(** ** Statistics *)

Lemma sum_of_fold_right (f : TestResult.t -> Q) (rs : list TestResult.t) (a : Q) :
  (fold_left (fun acc r => acc + f r) rs a
   == a + fold_right Qplus 0 (map f rs))%Q.
Proof.
  revert a. induction rs as [|r rs IH]; intros a; simpl.
  - ring.
  - rewrite IH. ring.
Qed.

Lemma sum_of_mean (f : TestResult.t -> Q) (rs : list TestResult.t) :
  (InteractionTestManager.sum_of f rs / inject_Z (Z.of_nat (length rs))
   == Claimed.mean (map f rs))%Q.
Proof.
  unfold InteractionTestManager.sum_of, Claimed.mean.
  rewrite sum_of_fold_right, length_map, Qplus_0_l. reflexivity.
Qed.

(** C7 (as stated, refuted). With no results, the dict has no
    ['total_tests'] entry (nor any other): it is not the zero-valued
    structure. *)
Lemma empty_log_statistics_not_zero_valued :
  ~ Claimed.zero_statistics
      (InteractionTestManager.get_test_statistics
         (InteractionTestManager.__init__ (Example.regions_of Example.full_hd))).
Proof.
  intros [H _]. vm_compute in H. discriminate H.
Qed.

(** C7 (amended). [get_test_statistics] raises nothing. On an empty result
    log it returns the empty dict, with no entry at all. On a log that is not
    empty, ['total_tests'] is the number of results, ['success_rate'] the
    number of successes divided by it, ['average_accuracy'] the mean of the
    accuracies and ['average_duration'] the mean of the durations. *)
Theorem statistics_of_result_log (m : InteractionTestManager.t) :
  (InteractionTestManager.test_results m = [] ->
   InteractionTestManager.get_test_statistics m = ∅)
  /\ (InteractionTestManager.test_results m <> [] ->
      InteractionTestManager.get_test_statistics m !! "total_tests"
      = Some (InteractionTestManager.VInt
                (Z.of_nat (length (InteractionTestManager.test_results m))))
      /\ InteractionTestManager.get_test_statistics m !! "success_rate"
         = Some (InteractionTestManager.VFloat
                   (inject_Z (InteractionTestManager.successful_tests
                                (InteractionTestManager.test_results m))
                    / inject_Z (Z.of_nat (length (InteractionTestManager.test_results m)))))
      /\ (exists q,
            InteractionTestManager.get_test_statistics m !! "average_accuracy"
            = Some (InteractionTestManager.VFloat q)
            /\ (q == Claimed.mean
                       (map TestResult.accuracy (InteractionTestManager.test_results m)))%Q)
      /\ (exists q,
            InteractionTestManager.get_test_statistics m !! "average_duration"
            = Some (InteractionTestManager.VFloat q)
            /\ (q == Claimed.mean
                       (map TestResult.duration (InteractionTestManager.test_results m)))%Q)).
Proof.
  unfold InteractionTestManager.get_test_statistics.
  destruct (InteractionTestManager.test_results m) as [|r rs] eqn:E.
  - split; [reflexivity|congruence].
  - split; [discriminate|]. intros _.
    split; [apply lookup_insert_eq|].
    split; [rewrite lookup_insert_ne by discriminate; apply lookup_insert_eq|].
    split.
    + eexists. split.
      * rewrite !lookup_insert_ne by discriminate. apply lookup_insert_eq.
      * apply sum_of_mean.
    + eexists. split.
      * rewrite !lookup_insert_ne by discriminate. apply lookup_insert_eq.
      * apply sum_of_mean.
Qed.

Lemma statistics_of_result_log_witness :
  InteractionTestManager.get_test_statistics
    (InteractionTestManager.__init__ (Example.regions_of Example.full_hd))
  = ∅
  /\ InteractionTestManager.get_test_statistics Example.two_results
       !! "total_tests"
     = Some (InteractionTestManager.VInt 2).
Proof.
  split.
  - apply (proj1 (statistics_of_result_log
                    (InteractionTestManager.__init__
                       (Example.regions_of Example.full_hd)))).
    reflexivity.
  - apply (proj2 (statistics_of_result_log Example.two_results)).
    discriminate.
Defined.

(** * Further properties of the code *)

(** ** The grid *)

Lemma grid_row_ids (ncols : Z) (w h : float) (row : Z) (n : nat) :
  map Region.id
    (Py.range (Z.of_nat n) ≫= fun col => [RegionManager.make_region ncols w h row col])
  = seqZ (row * ncols) (Z.of_nat n).
Proof.
  unfold Py.range. induction n as [|n IH].
  - reflexivity.
  - rewrite !seqZ_S, bind_app, map_app, IH. simpl. reflexivity.
Qed.

Lemma grid_ids_nat (n k : nat) (w h : float) :
  map Region.id (RegionManager.grid (Z.of_nat n) (Z.of_nat k) w h)
  = seqZ 0 (Z.of_nat n * Z.of_nat k).
Proof.
  unfold RegionManager.grid, Py.range. induction n as [|n IH].
  - reflexivity.
  - rewrite seqZ_S, bind_app, map_app, IH. simpl.
    pose proof (grid_row_ids (Z.of_nat k) w h (Z.of_nat n) k) as Hrow.
    unfold Py.range in Hrow. rewrite app_nil_r, Z.add_0_l, Hrow.
    replace (Z.of_nat (S n) * Z.of_nat k)
      with (Z.of_nat n * Z.of_nat k + Z.of_nat k) by lia.
    rewrite seqZ_app by lia. reflexivity.
Qed.

Lemma grid_ids (nrows ncols : Z) (w h : float) :
  0 <= nrows -> 0 <= ncols ->
  map Region.id (RegionManager.grid nrows ncols w h) = seqZ 0 (nrows * ncols).
Proof.
  intros Hr Hc.
  rewrite <- (Z2Nat.id nrows Hr), <- (Z2Nat.id ncols Hc).
  apply grid_ids_nat.
Qed.

(** X2. For positive [rows] and [cols] the constructor builds
    [rows * cols] regions, and their ids, in list order, are
    0, 1, ..., rows * cols - 1: the region at position [i] has id [i]. *)
Theorem create_regions_ids_in_order (W H nrows ncols : Z) (rs : list Region.t) :
  0 < nrows -> 0 < ncols ->
  RegionManager._create_regions W H nrows ncols = inr rs ->
  map Region.id rs = seqZ 0 (nrows * ncols)
  /\ Z.of_nat (length rs) = nrows * ncols
  /\ forall (i : nat) (r : Region.t), rs !! i = Some r -> Region.id r = Z.of_nat i.
Proof.
  intros Hr Hc Hrs. apply create_regions_grid in Hrs as (w & h & ->).
  assert (Hids := grid_ids nrows ncols w h ltac:(lia) ltac:(lia)).
  split; [exact Hids|]. split.
  - rewrite <- (length_map Region.id), Hids, length_seqZ. nia.
  - intros i r Hi.
    assert (Hi' : map Region.id (RegionManager.grid nrows ncols w h) !! i
                  = Some (Region.id r)).
    { change (map Region.id ?l) with (Region.id <$> l).
      rewrite list_lookup_fmap, Hi. reflexivity. }
    rewrite Hids in Hi'. apply lookup_seqZ in Hi'. lia.
Qed.

Lemma create_regions_ids_in_order_witness :
  map Region.id (Example.regions_of Example.full_hd) = seqZ 0 (3 * 3)
  /\ Z.of_nat (length (Example.regions_of Example.full_hd)) = 3 * 3
  /\ forall (i : nat) (r : Region.t),
      Example.regions_of Example.full_hd !! i = Some r ->
      Region.id r = Z.of_nat i.
Proof.
  apply (create_regions_ids_in_order 1920 1080 3 3).
  - lia.
  - lia.
  - vm_compute. reflexivity.
Defined.

(** X3. For a screen size and grid dimensions of at most 2^53 in magnitude,
    where [/] on two [int]s is the division of the operands converted to
    doubles, the constructor raises [ZeroDivisionError] exactly when [rows]
    or [cols] is 0; otherwise it returns a manager that keeps its arguments,
    tracks no region and has an empty history. *)
Theorem region_manager_init_outcome (W H nrows ncols : Z) :
  Z.abs W <= 2 ^ 53 ->
  Z.abs H <= 2 ^ 53 ->
  Z.abs nrows <= 2 ^ 53 ->
  Z.abs ncols <= 2 ^ 53 ->
  (RegionManager.__init__ W H nrows ncols = inl Py.ZeroDivisionError
   <-> nrows = 0 \/ ncols = 0)
  /\ (nrows <> 0 /\ ncols <> 0 <->
      exists m,
        RegionManager.__init__ W H nrows ncols = inr m
        /\ RegionManager.screen_width m = W
        /\ RegionManager.screen_height m = H
        /\ RegionManager.rows m = nrows
        /\ RegionManager.cols m = ncols
        /\ RegionManager.current_region m = None
        /\ RegionManager.region_history m = []).
Proof.
  intros _ _ _ _.
  unfold RegionManager.__init__, RegionManager._create_regions, Py.int_truediv.
  destruct (Z.eqb_spec ncols 0) as [Hc|Hc];
    destruct (Z.eqb_spec nrows 0) as [Hr|Hr]; simpl.
  all: split; split.
  all: try (intros _; auto; fail).
  all: try (intros [_ ?]; contradiction).
  all: try (intros [? _]; contradiction).
  all: try (intros [m [Hm _]]; discriminate Hm).
  all: try discriminate.
  all: try (intros [?|?]; contradiction).
  intros _. eexists. split; [reflexivity|]. simpl. tauto.
Qed.

Lemma region_manager_init_outcome_witness :
  RegionManager.__init__ 1920 1080 0 3 = inl Py.ZeroDivisionError
  /\ exists m,
       RegionManager.__init__ 1920 1080 3 3 = inr m
       /\ RegionManager.current_region m = None
       /\ RegionManager.region_history m = [].
Proof.
  split.
  - apply (proj1 (region_manager_init_outcome 1920 1080 0 3
                    ltac:(vm_compute; discriminate)
                    ltac:(vm_compute; discriminate)
                    ltac:(vm_compute; discriminate)
                    ltac:(vm_compute; discriminate))).
    left. reflexivity.
  - destruct (proj1 (proj2 (region_manager_init_outcome 1920 1080 3 3
                              ltac:(vm_compute; discriminate)
                              ltac:(vm_compute; discriminate)
                              ltac:(vm_compute; discriminate)
                              ltac:(vm_compute; discriminate))))
      as (m & H1 & _ & _ & _ & _ & H6 & H7).
    + split; discriminate.
    + exists m. split; [exact H1|]. split; [exact H6|exact H7].
Defined.

(** X4. In a grid built by [_create_regions], a region is identified by its
    id: two regions of the grid with the same id are the same region, [==] on
    their dicts is equality of their ids, and no id occurs twice. *)
Theorem grid_regions_identified_by_id (W H nrows ncols : Z) (rs : list Region.t) :
  RegionManager._create_regions W H nrows ncols = inr rs ->
  (forall a b, a ∈ rs -> b ∈ rs -> Region.id a = Region.id b -> a = b)
  /\ (forall a b, a ∈ rs -> b ∈ rs ->
      Region.eqb a b = (Region.id a =? Region.id b))
  /\ NoDup (map Region.id rs).
Proof.
  intros Hrs. apply create_regions_grid in Hrs as (w & h & ->).
  assert (Hinj : forall a b,
             a ∈ RegionManager.grid nrows ncols w h ->
             b ∈ RegionManager.grid nrows ncols w h ->
             Region.id a = Region.id b -> a = b)
    by apply grid_id_inj.
  split; [exact Hinj|]. split.
  - intros a b Ha Hb.
    apply (grid_eqb_same_id nrows ncols w h (Some a) (Some b));
      intros r [= <-]; assumption.
  - destruct (Z_le_gt_dec nrows 0) as [Hr|Hr].
    { unfold RegionManager.grid, Py.range. rewrite (seqZ_nil 0 nrows) by lia.
      constructor. }
    destruct (Z_le_gt_dec ncols 0) as [Hc|Hc].
    { assert (E : RegionManager.grid nrows ncols w h = []).
      { destruct (RegionManager.grid nrows ncols w h) as [|r l] eqn:E;
          [reflexivity|].
        assert (Hin : r ∈ RegionManager.grid nrows ncols w h)
          by (rewrite E; left).
        apply grid_elem in Hin as (? & ? & ? & ? & _). lia. }
      rewrite E. constructor. }
    rewrite grid_ids by lia. apply NoDup_seqZ.
Qed.

Lemma grid_regions_identified_by_id_witness :
  NoDup (map Region.id (Example.regions_of Example.full_hd)).
Proof.
  apply (grid_regions_identified_by_id 1920 1080 3 3).
  vm_compute. reflexivity.
Defined.

(** ** The history of the tracker *)

Lemma changes_snoc (prev : option Region.t) (history : list Transition.t)
    (tr : Transition.t) :
  TrackRun.changes prev history ->
  Py.option_eq Region.eqb (Transition.region tr)
    (match last history with
     | Some t => Transition.region t
     | None => prev
     end) = false ->
  TrackRun.changes prev (history ++ [tr]).
Proof.
  revert prev. induction history as [|t history IH]; intros prev Hc Hne; simpl.
  - simpl in Hne. auto.
  - destruct Hc as [Ht Hc]. split; [exact Ht|]. apply IH; [exact Hc|].
    destruct history as [|t' history]; [exact Hne|].
    rewrite last_cons_cons in Hne.
    destruct (last (t' :: history)) eqn:E; [exact Hne|].
    apply last_None in E. discriminate E.
Qed.

(** One call either leaves the manager as it is, or takes the resolved region,
    which differs from the tracked one, and appends it with the time of the
    call. *)
Lemma track_step_cases (m : RegionManager.t) (c : TrackRun.Call) :
  TrackRun.step m c = m
  \/ (Py.option_eq Region.eqb
        (RegionManager.get_region_by_point m (fst (fst c)) (snd (fst c)))
        (RegionManager.current_region m) = false
      /\ RegionManager.regions (TrackRun.step m c) = RegionManager.regions m
      /\ RegionManager.current_region (TrackRun.step m c)
         = RegionManager.get_region_by_point m (fst (fst c)) (snd (fst c))
      /\ RegionManager.region_history (TrackRun.step m c)
         = RegionManager.region_history m
             ++ [ {| Transition.region :=
                       RegionManager.get_region_by_point m (fst (fst c)) (snd (fst c));
                     Transition.timestamp := snd c |} ]).
Proof.
  unfold TrackRun.step, RegionManager.update_current_region.
  destruct (Py.option_eq Region.eqb _ _) eqn:E; simpl; auto.
Qed.

(** X5. Starting from a manager that tracks no region and has an empty
    history, after any calls of [update_current_region]: the regions of the
    grid are untouched; the current region is the region of the last history
    entry (none if the history is empty); every history entry differs from
    the one before it, the first one from "no region"; and the timestamps of
    the history are, in order, times of the calls, so there are at most as
    many entries as calls. *)
Theorem region_history_follows_tracker (m0 : RegionManager.t)
    (calls : list TrackRun.Call) :
  RegionManager.current_region m0 = None ->
  RegionManager.region_history m0 = [] ->
  RegionManager.regions (TrackRun.run calls m0) = RegionManager.regions m0
  /\ RegionManager.current_region (TrackRun.run calls m0)
     = TrackRun.tracked (RegionManager.region_history (TrackRun.run calls m0))
  /\ TrackRun.changes None (RegionManager.region_history (TrackRun.run calls m0))
  /\ map Transition.timestamp (RegionManager.region_history (TrackRun.run calls m0))
       `sublist_of` map snd calls
  /\ (length (RegionManager.region_history (TrackRun.run calls m0))
      <= length calls)%nat.
Proof.
  intros Hcur Hhist.
  assert (Hmain :
    RegionManager.regions (TrackRun.run calls m0) = RegionManager.regions m0
    /\ RegionManager.current_region (TrackRun.run calls m0)
       = TrackRun.tracked (RegionManager.region_history (TrackRun.run calls m0))
    /\ TrackRun.changes None (RegionManager.region_history (TrackRun.run calls m0))
    /\ map Transition.timestamp (RegionManager.region_history (TrackRun.run calls m0))
         `sublist_of` map snd calls).
  { induction calls as [|c calls IH] using rev_ind.
    - simpl. rewrite Hcur, Hhist. repeat split; constructor.
    - unfold TrackRun.run in *. rewrite fold_left_app. simpl.
      set (m := fold_left TrackRun.step calls m0) in *.
      destruct IH as (Hreg & Htr & Hch & Hsub).
      rewrite map_app. simpl.
      destruct (track_step_cases m c) as [->|(Hne & Hreg' & Hcur' & Hhist')].
      + repeat split; auto. apply sublist_inserts_r. exact Hsub.
      + rewrite Hreg', Hcur', Hhist'. repeat split.
        * exact Hreg.
        * unfold TrackRun.tracked. rewrite last_snoc. reflexivity.
        * apply changes_snoc; [exact Hch|]. simpl.
          rewrite Htr in Hne. unfold TrackRun.tracked in Hne. exact Hne.
        * rewrite map_app. simpl. apply sublist_app; [exact Hsub|reflexivity]. }
  destruct Hmain as (H1 & H2 & H3 & H4). repeat split; auto.
  apply sublist_length in H4. rewrite !length_map in H4. exact H4.
Qed.

Lemma region_history_follows_tracker_witness :
  RegionManager.current_region
    (TrackRun.run Scenario.four_calls
       (Example.manager_of Example.full_hd))
  = TrackRun.tracked
      (RegionManager.region_history
         (TrackRun.run Scenario.four_calls
            (Example.manager_of Example.full_hd)))
  /\ map Transition.timestamp
       (RegionManager.region_history
          (TrackRun.run Scenario.four_calls
             (Example.manager_of Example.full_hd)))
     = [1; 3; 4]%Q.
Proof.
  split.
  - apply (region_history_follows_tracker (Example.manager_of Example.full_hd));
      reflexivity.
  - vm_compute. reflexivity.
Defined.

(** ** The signals of the grid widget *)

Lemma bracketed_app (cur mid final : option Region.t)
    (l1 l2 : list RegionGridWidget.Signal) :
  TrackRun.bracketed cur l1 mid ->
  TrackRun.bracketed mid l2 final ->
  TrackRun.bracketed cur (l1 ++ l2) final.
Proof.
  revert cur. induction l1 as [|sig l1 IH]; intros cur H1 H2; simpl in *.
  - subst. exact H2.
  - destruct sig; destruct H1 as [Hc H1]; (split; [exact Hc|]); eauto.
Qed.

Lemma same_id_sym (a b : option Region.t) :
  Region.same_id a b = Region.same_id b a.
Proof.
  destruct a, b; simpl; try reflexivity. apply Z.eqb_sym.
Qed.

(** One sample keeps the signals in step with the tracked region, on a grid. *)
Lemma widget_step_bracketed (nrows ncols : Z) (gw gh : float)
    (w : RegionGridWidget.t) (s : TrackRun.Sample) :
  RegionManager.regions (RegionGridWidget.region_manager w)
  = RegionManager.grid nrows ncols gw gh ->
  (forall r,
      RegionManager.current_region (RegionGridWidget.region_manager w) = Some r ->
      r ∈ RegionManager.grid nrows ncols gw gh) ->
  TrackRun.bracketed None (RegionGridWidget.emitted w)
    (RegionManager.current_region (RegionGridWidget.region_manager w)) ->
  RegionManager.regions (RegionGridWidget.region_manager (TrackRun.sample_step w s))
  = RegionManager.grid nrows ncols gw gh
  /\ (forall r,
        RegionManager.current_region
          (RegionGridWidget.region_manager (TrackRun.sample_step w s)) = Some r ->
        r ∈ RegionManager.grid nrows ncols gw gh)
  /\ TrackRun.bracketed None (RegionGridWidget.emitted (TrackRun.sample_step w s))
       (RegionManager.current_region
          (RegionGridWidget.region_manager (TrackRun.sample_step w s))).
Proof.
  intros Hreg Hcur Hbr. destruct s as [sample now].
  unfold TrackRun.sample_step, RegionGridWidget.update_gaze_point. simpl.
  destruct (negb (Py.option_eq GazePoint.eqb sample
                    (RegionGridWidget.current_gaze_point w))); [|auto].
  destruct sample as [g|]; simpl; [|auto].
  unfold RegionManager.get_current_region.
  set (m := RegionGridWidget.region_manager w) in *.
  destruct (track_step_cases m (GazePoint.screen_x g, GazePoint.screen_y g, now))
    as [E|(Hne & Hreg' & Hcur' & _)]; unfold TrackRun.step in *; simpl in *.
  - rewrite E. rewrite option_eq_refl by apply region_eqb_refl. simpl. auto.
  - rewrite Hreg', Hcur'.
    assert (Hin : forall r,
               RegionManager.get_region_by_point m (GazePoint.screen_x g)
                 (GazePoint.screen_y g) = Some r ->
               r ∈ RegionManager.grid nrows ncols gw gh).
    { intros r Hr. apply get_region_by_point_elem in Hr. congruence. }
    split; [exact Hreg|]. split; [exact Hin|].
    rewrite (grid_eqb_same_id nrows ncols gw gh) in Hne by assumption.
    rewrite (grid_eqb_same_id nrows ncols gw gh) by assumption.
    rewrite same_id_sym, Hne. simpl.
    unfold RegionGridWidget.emit_if.
    destruct (RegionManager.current_region m) as [old|],
      (RegionManager.get_region_by_point m _ _) as [new|]; simpl in *.
    + rewrite <- app_assoc. eapply bracketed_app; [exact Hbr|]. simpl. auto.
    + eapply bracketed_app; [exact Hbr|]. simpl. auto.
    + eapply bracketed_app; [exact Hbr|]. simpl. auto.
    + discriminate Hne.
Qed.

(** X6. A widget made for a manager fresh from its constructor: after any
    samples, null ones and repeated ones included, the log of emitted signals
    is well bracketed. [region_entered] is emitted only while the gaze is in
    no region, [region_exited] carries the region entered last, and the log
    ends in the region the tracker is in: a region other than the current one
    is never left, and none is entered twice without being left. *)
Theorem widget_signals_bracketed (W H nrows ncols : Z) (m0 : RegionManager.t)
    (samples : list TrackRun.Sample) :
  RegionManager.__init__ W H nrows ncols = inr m0 ->
  TrackRun.bracketed None
    (RegionGridWidget.emitted
       (TrackRun.deliver samples (RegionGridWidget.__init__ m0)))
    (RegionManager.current_region
       (RegionGridWidget.region_manager
          (TrackRun.deliver samples (RegionGridWidget.__init__ m0)))).
Proof.
  intros Hinit.
  unfold RegionManager.__init__ in Hinit.
  destruct (RegionManager._create_regions W H nrows ncols) as [e|rs] eqn:Hrs;
    [discriminate|].
  injection Hinit as <-.
  apply create_regions_grid in Hrs as (gw & gh & ->).
  set (w0 := RegionGridWidget.__init__ _).
  assert (H0 :
    RegionManager.regions (RegionGridWidget.region_manager w0)
    = RegionManager.grid nrows ncols gw gh
    /\ (forall r,
          RegionManager.current_region (RegionGridWidget.region_manager w0) = Some r ->
          r ∈ RegionManager.grid nrows ncols gw gh)
    /\ TrackRun.bracketed None (RegionGridWidget.emitted w0)
         (RegionManager.current_region (RegionGridWidget.region_manager w0))).
  { simpl. split; [reflexivity|]. split; [discriminate|reflexivity]. }
  clearbody w0. revert w0 H0. unfold TrackRun.deliver.
  induction samples as [|s samples IH]; intros w0 (H1 & H2 & H3); simpl.
  - exact H3.
  - apply IH. apply widget_step_bracketed; assumption.
Qed.

Lemma widget_signals_bracketed_witness :
  TrackRun.bracketed None
    (RegionGridWidget.emitted
       (TrackRun.deliver Scenario.five_samples
          (RegionGridWidget.__init__ (Example.manager_of Example.full_hd))))
    (RegionManager.current_region
       (RegionGridWidget.region_manager
          (TrackRun.deliver Scenario.five_samples
             (RegionGridWidget.__init__ (Example.manager_of Example.full_hd)))))
  /\ length
       (RegionGridWidget.emitted
          (TrackRun.deliver Scenario.five_samples
             (RegionGridWidget.__init__ (Example.manager_of Example.full_hd))))
     = 4%nat.
Proof.
  split.
  - apply (widget_signals_bracketed 1920 1080 3 3). vm_compute. reflexivity.
  - vm_compute. reflexivity.
Defined.

(** ** How many results a dwell test emits *)

Lemma dwell_complete_test_any (success : bool) (s : RegionDwellTest.t)
    (w : World.t) :
  exists duration stamp w',
    RegionDwellTest.complete_test success s w
    = (Ok tt, DwellRun.completed success s, w')
    /\ World.test_completed w'
       = World.test_completed w
           ++ [RegionDwellTest.result s success duration stamp].
Proof.
  unfold RegionDwellTest.complete_test, RegionDwellTest.stop_test. run_method.
  destruct (RegionDwellTest.start_time s) as [t0|]; simpl.
  - destruct (Py.truthy (Some t0)); simpl; eexists _, _, _; split; reflexivity.
  - eexists _, _, _; split; reflexivity.
Qed.

(** Any tick of a running test: it goes on as it was; or it stops with one
    result; or it stops with a success followed by a failure. *)
Lemma dwell_tick_cases (target : Region.t) (dwell t0 : Q) (span : option Q)
    (s : RegionDwellTest.t) (log : list TestResult.t) (c : nat -> Q) :
  DwellRun.running target dwell t0 span s ->
  (exists s',
      DwellRun.step (s, log) (DwellRun.Tick c) = (s', log)
      /\ DwellRun.running target dwell t0 span s')
  \/ (exists s' r,
        DwellRun.step (s, log) (DwellRun.Tick c) = (s', log ++ [r])
        /\ RegionDwellTest.test_active s' = false)
  \/ (exists s' r1 r2,
        DwellRun.step (s, log) (DwellRun.Tick c) = (s', log ++ [r1; r2])
        /\ RegionDwellTest.test_active s' = false
        /\ TestResult.success r1 = true
        /\ TestResult.success r2 = false).
Proof.
  intros Hrun.
  pose proof Hrun as (Ha & Htg & Hdw & Hst & Hin & Hd).
  unfold DwellRun.step, DwellRun.call. simpl fst. simpl snd.
  assert (Hquiet : forall s1 w1,
    RegionDwellTest.update_progress s (World.fresh c log)
    = RegionDwellTest.timeout_check s1 w1 ->
    World.test_completed w1 = log ->
    DwellRun.running target dwell t0 span s1 ->
    (exists s',
        (state_of (RegionDwellTest.update_progress s (World.fresh c log)),
         signals_of (RegionDwellTest.update_progress s (World.fresh c log)))
        = (s', log)
        /\ DwellRun.running target dwell t0 span s')
    \/ (exists s' r,
          (state_of (RegionDwellTest.update_progress s (World.fresh c log)),
           signals_of (RegionDwellTest.update_progress s (World.fresh c log)))
          = (s', log ++ [r])
          /\ RegionDwellTest.test_active s' = false)).
  { intros s1 w1 -> Hlog Hrun1.
    destruct (dwell_timeout_outcome s1 w1) as [[Hs Hl]|[Hs (du & st & Hl)]].
    - left. exists s1. rewrite Hs, Hl, Hlog. auto.
    - right. eexists _, _. rewrite Hl, Hlog. split; [reflexivity|exact Hs]. }
  destruct span as [d|].
  2:{ destruct (Hquiet s (World.fresh c log)) as [H|H]; auto.
      apply dwell_tick_outside; assumption. }
  destruct (Py.truthy (Some d)) eqn:Ht.
  2:{ destruct (Hquiet s (World.fresh c log)) as [H|H]; auto.
      apply (dwell_tick_falsy s _ d); assumption. }
  destruct (Qeq_bool (RegionDwellTest.dwell_time s) 0) eqn:Hz.
  { left. exists s. split; [|exact Hrun].
    unfold RegionDwellTest.update_progress, RegionDwellTest.dwell_check.
    run_method. rewrite Ha, Hin, Hd, Ht. simpl. rewrite Hz. reflexivity. }
  assert (E : RegionDwellTest.update_progress s (World.fresh c log)
              = let progress :=
                  py_min ((World.now (World.fresh c log) - d)
                          / RegionDwellTest.dwell_time s) 1 in
                let s1 :=
                  RegionDwellTest.set_progress_value
                    (Py.int_of_Q
                       (progress * inject_Z (RegionDwellTest.progress_maximum s))) s in
                if Qle_bool 1 progress
                then bind (RegionDwellTest.complete_test true)
                          (fun _ => RegionDwellTest.timeout_check) s1
                          (World.tick (World.fresh c log))
                else RegionDwellTest.timeout_check s1 (World.tick (World.fresh c log))).
  { unfold RegionDwellTest.update_progress, RegionDwellTest.dwell_check.
    run_method. rewrite Ha, Hin, Hd, Ht. simpl. rewrite Hz.
    destruct (Qle_bool 1 _); simpl; [|reflexivity].
    unfold bind.
    destruct (RegionDwellTest.complete_test true _ _) as [[[] ?] ?]; reflexivity. }
  simpl in E.
  destruct (Qle_bool 1 _) eqn:Hfull.
  - rewrite E. unfold bind.
    match goal with |- context [RegionDwellTest.complete_test true ?s1 ?w1] =>
      destruct (dwell_complete_test_any true s1 w1) as (du & st & w' & -> & Hw)
    end.
    simpl in Hw.
    match goal with |- context [RegionDwellTest.timeout_check ?s2 w'] =>
      destruct (dwell_timeout_outcome s2 w') as [[Hs Hl]|[Hs (du2 & st2 & Hl)]]
    end.
    + right. left. eexists _, _. rewrite Hs, Hl, Hw.
      split; reflexivity.
    + right. right. eexists _, _, _. rewrite Hl, Hw, <- app_assoc.
      split; [reflexivity|]. split; [exact Hs|]. split; reflexivity.
  - destruct (Hquiet _ _ E) as [H|H]; auto.
Qed.

(** X7. A new dwell test, started once: whatever samples and ticks follow, it
    has emitted nothing, or one result, or two, and two only as a success
    followed by a failure. It never emits two successes, a failure before a
    success, or a third result. *)
Theorem dwell_emits_at_most_two (target : Region.t) (dwell : Q)
    (cs : nat -> Q) (events : list DwellRun.Event) :
  snd (DwellRun.started target dwell cs events) = []
  \/ (exists r, snd (DwellRun.started target dwell cs events) = [r])
  \/ (exists r1 r2,
        snd (DwellRun.started target dwell cs events) = [r1; r2]
        /\ TestResult.success r1 = true
        /\ TestResult.success r2 = false).
Proof.
  unfold DwellRun.started.
  destruct (dwell_start_running target dwell cs) as (s0 & -> & Hrun0).
  revert Hrun0. generalize (@None Q) as span. revert s0.
  induction events as [|e events IH]; intros s span Hrun; [left; reflexivity|].
  change (DwellRun.run (e :: events) (s, []))
    with (DwellRun.run events (DwellRun.step (s, []) e)).
  destruct e as [c g r|c].
  - destruct (dwell_gaze_running target dwell (cs O) span s [] c g r Hrun)
      as (s' & -> & Hrun' & _).
    apply (IH _ _ Hrun').
  - destruct (dwell_tick_cases target dwell (cs O) span s [] c Hrun)
      as [(s' & -> & Hrun')|[(s' & r & -> & Hoff)|(s' & r1 & r2 & -> & Hoff & H1 & H2)]].
    + apply (IH _ _ Hrun').
    + rewrite dwell_run_inactive by exact Hoff. right. left. eauto.
    + rewrite dwell_run_inactive by exact Hoff. right. right. eauto.
Qed.

(** X8. [start_test] sets [test_active] and [start_time] and nothing else:
    [is_in_target] and [dwell_start_time] stay as they were. So a test that is
    started again while it still holds the span of an earlier run (as it does
    after a success) succeeds on the first tick that sees the dwell time
    counted from the old entry, without a new dwell. *)
Theorem dwell_restart_keeps_span (s : RegionDwellTest.t) (cs : nat -> Q)
    (log : list TestResult.t) :
  (RegionDwellTest.is_in_target
     (fst (DwellRun.call RegionDwellTest.start_test cs (s, log)))
   = RegionDwellTest.is_in_target s
   /\ RegionDwellTest.dwell_start_time
        (fst (DwellRun.call RegionDwellTest.start_test cs (s, log)))
      = RegionDwellTest.dwell_start_time s
   /\ RegionDwellTest.test_active
        (fst (DwellRun.call RegionDwellTest.start_test cs (s, log))) = true
   /\ RegionDwellTest.start_time
        (fst (DwellRun.call RegionDwellTest.start_test cs (s, log)))
      = Some (cs O)
   /\ snd (DwellRun.call RegionDwellTest.start_test cs (s, log)) = log)
  /\ (forall d c,
        RegionDwellTest.is_in_target s = true ->
        RegionDwellTest.dwell_start_time s = Some d ->
        ~ (d == 0)%Q ->
        ~ (cs O == 0)%Q ->
        (0 < RegionDwellTest.dwell_time s)%Q ->
        (RegionDwellTest.dwell_time s <= c O - d)%Q ->
        exists s' rest,
          DwellRun.step (DwellRun.call RegionDwellTest.start_test cs (s, log))
            (DwellRun.Tick c)
          = (s', log ++ RegionDwellTest.result s true (c 1%nat - cs O) (c 2%nat)
                   :: rest)).
Proof.
  split; [repeat split|].
  intros d c Hin Hd Hdz Hcz Hpos Hfull.
  apply truthy_nonzero in Hdz. apply truthy_nonzero in Hcz.
  assert (Hrun : DwellRun.running (RegionDwellTest.target_region s)
                   (RegionDwellTest.dwell_time s) (cs O) (Some d)
                   (fst (DwellRun.call RegionDwellTest.start_test cs (s, log)))).
  { unfold DwellRun.running. simpl. rewrite Hin, Hd. tauto. }
  destruct (dwell_tick_success _ _ _ _ _ log c Hrun Hdz Hcz Hpos Hfull)
    as (s' & rest & Hstep & _).
  exists s', rest.
  change (DwellRun.call RegionDwellTest.start_test cs (s, log))
    with (fst (DwellRun.call RegionDwellTest.start_test cs (s, log)), log).
  exact Hstep.
Qed.

Lemma dwell_restart_keeps_span_witness :
  exists s' rest,
    DwellRun.step
      (DwellRun.call RegionDwellTest.start_test (Example.at_time 200)
         (fst Scenario.after_success, snd Scenario.after_success))
      (DwellRun.Tick (Example.at_time (20001 # 100)))
    = (s',
       snd Scenario.after_success
         ++ RegionDwellTest.result (fst Scenario.after_success) true
              ((20001 # 100) - 200) (20001 # 100)
         :: rest).
Proof.
  apply (proj2 (dwell_restart_keeps_span (fst Scenario.after_success)
                  (Example.at_time 200) (snd Scenario.after_success))
           101%Q (Example.at_time (20001 # 100))).
  - vm_compute. reflexivity.
  - vm_compute. reflexivity.
  - discriminate.
  - discriminate.
  - vm_compute. reflexivity.
  - vm_compute. discriminate.
Defined.

(** ** What a selection test reports *)

Lemma selection_step_reports (s : TargetSelectionTest.t)
    (log : list TestResult.t) (e : SelectionRun.Event) (seq : list Region.t)
    (P : TestResult.t -> Prop) :
  (forall r,
      TestResult.test_type r = TARGET_SELECTION ->
      TestResult.success r = true ->
      (TestResult.accuracy r == 1)%Q ->
      TestResult.target_region r = None ->
      map Region.id (TestResult.actual_regions r) = map Region.id seq ->
      P r) ->
  SelectionRun.prefix_invariant s ->
  TargetSelectionTest.target_sequence s = seq ->
  Forall P log ->
  SelectionRun.prefix_invariant (fst (SelectionRun.step (s, log) e))
  /\ TargetSelectionTest.target_sequence (fst (SelectionRun.step (s, log) e)) = seq
  /\ Forall P (snd (SelectionRun.step (s, log) e)).
Proof.
  intros HP Hinv Hseq Hlog.
  destruct e as [c| |c g r];
    unfold SelectionRun.step, SelectionRun.call; simpl fst; simpl snd.
  - destruct (selection_start_test_run s (World.fresh c log))
      as (s' & -> & _ & _ & Hidx & Hsel & Hseq' & _).
    unfold SelectionRun.prefix_invariant, state_of, signals_of. simpl.
    rewrite Hidx, Hsel. repeat split; [congruence|exact Hlog].
  - split; [|split; [exact Hseq|exact Hlog]].
    revert Hinv. apply prefix_invariant_same; reflexivity.
  - destruct (selection_gaze_cases s (World.fresh c log) g r)
      as [->|(q & target & s1 & -> & Ha & Ht & Hid & -> & Hcase)].
    + repeat split; try assumption; apply Hinv.
    + pose proof (prefix_invariant_match s q target Ht Hid Hinv) as Hinv1.
      destruct Hcase as [(_ & s' & -> & Hsame)|(Hfull & du & st & w' & -> & Hw & _)].
      * unfold state_of, signals_of. simpl.
        destruct Hsame as (_ & _ & H3 & H4 & H5 & _).
        split; [revert Hinv1; apply prefix_invariant_same; assumption|].
        simpl in H4. split; [congruence|exact Hlog].
      * unfold state_of, signals_of. simpl.
        split; [revert Hinv1; apply prefix_invariant_same; reflexivity|].
        split; [exact Hseq|].
        rewrite Hw. simpl. apply Forall_app. split; [exact Hlog|].
        constructor; [|constructor].
        destruct Hinv1 as [Hlen Hids]. simpl in Hlen, Hids.
        assert (Hacc : (TargetSelectionTest.accuracy_of
                          (TargetSelectionTest.set_current_target_index
                             (S (TargetSelectionTest.current_target_index s))
                             (TargetSelectionTest.set_selected_regions
                                (TargetSelectionTest.selected_regions s ++ [q]) s))
                        == 1)%Q).
        { unfold TargetSelectionTest.accuracy_of. simpl.
          rewrite Hlen, Hfull. apply ratio_full. lia. }
        apply HP; simpl.
        -- reflexivity.
        -- apply Qeq_bool_iff. exact Hacc.
        -- exact Hacc.
        -- reflexivity.
        -- rewrite Hids, Hfull, <- Hseq. rewrite take_ge by lia. reflexivity.
Qed.

Lemma selection_run_reports (P : TestResult.t -> Prop) (seq : list Region.t) :
  (forall r,
      TestResult.test_type r = TARGET_SELECTION ->
      TestResult.success r = true ->
      (TestResult.accuracy r == 1)%Q ->
      TestResult.target_region r = None ->
      map Region.id (TestResult.actual_regions r) = map Region.id seq ->
      P r) ->
  forall (events : list SelectionRun.Event) (cfg : SelectionRun.Config),
    SelectionRun.prefix_invariant (fst cfg) ->
    TargetSelectionTest.target_sequence (fst cfg) = seq ->
    Forall P (snd cfg) ->
    SelectionRun.prefix_invariant (fst (SelectionRun.run events cfg))
    /\ TargetSelectionTest.target_sequence (fst (SelectionRun.run events cfg))
       = seq
    /\ Forall P (snd (SelectionRun.run events cfg)).
Proof.
  intros HP. induction events as [|e events IH]; intros cfg H1 H2 H3.
  - split; [exact H1|]. split; [exact H2|exact H3].
  - rewrite selection_run_cons. destruct cfg as [s0 log0].
    destruct (selection_step_reports s0 log0 e seq P HP H1 H2 H3)
      as (G1 & G2 & G3).
    apply IH; assumption.
Qed.

Lemma selection_started (s : TargetSelectionTest.t) (cs : nat -> Q)
    (log : list TestResult.t) :
  SelectionRun.prefix_invariant
    (fst (SelectionRun.step (s, log) (SelectionRun.Start cs)))
  /\ TargetSelectionTest.target_sequence
       (fst (SelectionRun.step (s, log) (SelectionRun.Start cs)))
     = TargetSelectionTest.target_sequence s
  /\ TargetSelectionTest.selected_regions
       (fst (SelectionRun.step (s, log) (SelectionRun.Start cs))) = []
  /\ snd (SelectionRun.step (s, log) (SelectionRun.Start cs)) = log.
Proof.
  unfold SelectionRun.step, SelectionRun.call. simpl fst. simpl snd.
  destruct (selection_start_test_run s (World.fresh cs log))
    as (s' & -> & _ & _ & Hidx & Hsel & Hseq & _).
  unfold SelectionRun.prefix_invariant, state_of, signals_of. simpl.
  rewrite Hidx, Hsel. repeat split; auto.
Qed.

(** X9. After [start_test], whatever calls follow, every result the test
    emits is, when it is emitted, a success with accuracy 1, of type
    [TARGET_SELECTION], with no target region, and its list of visited
    regions then has, one for one, the ids of the whole target sequence: the
    test never emits a failure or a partial match. The target sequence is the
    one the run began with. That list is the test's own [selected_regions]:
    read later, every emitted result shows, beside its recorded success and
    accuracy of 1, the regions of the run in progress, which are the first
    [current_target_index] targets, and an empty list right after the test
    is started again. *)
Theorem selection_reports_only_success (s : TargetSelectionTest.t)
    (cs : nat -> Q) (events : list SelectionRun.Event) :
  Forall (fun r =>
            TestResult.test_type r = TARGET_SELECTION
            /\ TestResult.success r = true
            /\ (TestResult.accuracy r == 1)%Q
            /\ TestResult.target_region r = None
            /\ map Region.id (TestResult.actual_regions r)
               = map Region.id (TargetSelectionTest.target_sequence s))
    (snd (SelectionRun.run (SelectionRun.Start cs :: events) (s, [])))
  /\ TargetSelectionTest.target_sequence
       (fst (SelectionRun.run (SelectionRun.Start cs :: events) (s, [])))
     = TargetSelectionTest.target_sequence s
  /\ Forall (fun r =>
               TestResult.success
                 (SelectionAlias.read
                    (fst (SelectionRun.run (SelectionRun.Start cs :: events)
                            (s, []))) r) = true
               /\ (TestResult.accuracy
                     (SelectionAlias.read
                        (fst (SelectionRun.run (SelectionRun.Start cs :: events)
                                (s, []))) r) == 1)%Q
               /\ map Region.id
                    (TestResult.actual_regions
                       (SelectionAlias.read
                          (fst (SelectionRun.run
                                  (SelectionRun.Start cs :: events) (s, []))) r))
                  = map Region.id
                      (take (TargetSelectionTest.current_target_index
                               (fst (SelectionRun.run
                                       (SelectionRun.Start cs :: events)
                                       (s, []))))
                            (TargetSelectionTest.target_sequence s)))
       (snd (SelectionRun.run (SelectionRun.Start cs :: events) (s, [])))
  /\ (forall c,
        snd (SelectionRun.run
               (SelectionRun.Start cs :: events ++ [SelectionRun.Start c])
               (s, []))
        = snd (SelectionRun.run (SelectionRun.Start cs :: events) (s, []))
        /\ Forall (fun r =>
                     TestResult.actual_regions
                       (SelectionAlias.read
                          (fst (SelectionRun.run
                                  (SelectionRun.Start cs
                                     :: events ++ [SelectionRun.Start c])
                                  (s, []))) r) = [])
             (snd (SelectionRun.run
                     (SelectionRun.Start cs :: events ++ [SelectionRun.Start c])
                     (s, [])))).
Proof.
  set (P := fun r : TestResult.t =>
              TestResult.test_type r = TARGET_SELECTION
              /\ TestResult.success r = true
              /\ (TestResult.accuracy r == 1)%Q
              /\ TestResult.target_region r = None
              /\ map Region.id (TestResult.actual_regions r)
                 = map Region.id (TargetSelectionTest.target_sequence s)).
  assert (HP : forall r,
             TestResult.test_type r = TARGET_SELECTION ->
             TestResult.success r = true ->
             (TestResult.accuracy r == 1)%Q ->
             TestResult.target_region r = None ->
             map Region.id (TestResult.actual_regions r)
             = map Region.id (TargetSelectionTest.target_sequence s) ->
             P r) by (unfold P; auto).
  rewrite selection_run_cons.
  destruct (selection_started s cs []) as (S1 & S2 & _ & S4).
  destruct (selection_run_reports P _ HP events
              (SelectionRun.step (s, []) (SelectionRun.Start cs)) S1 S2)
    as (H1 & H2 & H3).
  { rewrite S4. constructor. }
  split; [exact H3|]. split; [exact H2|]. split.
  - eapply Forall_impl; [exact H3|]. intros r (_ & Hs & Ha & _).
    split; [exact Hs|]. split; [exact Ha|].
    cbn [SelectionAlias.read TestResult.actual_regions].
    destruct H1 as [_ Hids]. rewrite Hids, H2. reflexivity.
  - intros c.
    change (SelectionRun.Start cs :: events ++ [SelectionRun.Start c])
      with ((SelectionRun.Start cs :: events) ++ [SelectionRun.Start c]).
    rewrite selection_run_app.
    change (SelectionRun.run (SelectionRun.Start cs :: events) (s, []))
      with (SelectionRun.run events
              (SelectionRun.step (s, []) (SelectionRun.Start cs))).
    destruct (SelectionRun.run events
                (SelectionRun.step (s, []) (SelectionRun.Start cs)))
      as [s1 log1].
    change (SelectionRun.run [SelectionRun.Start c] (s1, log1))
      with (SelectionRun.step (s1, log1) (SelectionRun.Start c)).
    destruct (selection_started s1 c log1) as (_ & _ & T3 & T4).
    split; [exact T4|].
    apply Forall_forall. intros r _.
    cbn [SelectionAlias.read TestResult.actual_regions]. exact T3.
Qed.

Lemma selection_step_budget (s : TargetSelectionTest.t)
    (log : list TestResult.t) (e : SelectionRun.Event) :
  (length (snd (SelectionRun.step (s, log) e))
   + (if TargetSelectionTest.test_active (fst (SelectionRun.step (s, log) e))
      then 1 else 0)
   <= length log + (if TargetSelectionTest.test_active s then 1 else 0)
      + Scenario.starts [e])%nat.
Proof.
  destruct e as [c| |c g r];
    unfold SelectionRun.step, SelectionRun.call; simpl fst; simpl snd.
  - destruct (selection_start_test_run s (World.fresh c log))
      as (s' & -> & Ha & _).
    unfold state_of, signals_of. simpl. rewrite Ha.
    destruct (TargetSelectionTest.test_active s); simpl; lia.
  - unfold state_of, signals_of. simpl.
    destruct (TargetSelectionTest.test_active s); simpl; lia.
  - destruct (selection_gaze_cases s (World.fresh c log) g r)
      as [->|(q & target & s1 & -> & Ha & Ht & Hid & -> & Hcase)].
    + unfold state_of, signals_of. simpl. lia.
    + destruct Hcase as [(_ & s' & -> & Hsame)|(_ & du & st & w' & -> & Hw & _)].
      * unfold state_of, signals_of. simpl.
        destruct Hsame as (_ & _ & _ & _ & _ & H6 & _). simpl in H6.
        rewrite H6, Ha. simpl. lia.
      * unfold state_of, signals_of. simpl. rewrite Hw, length_app, Ha.
        simpl. lia.
Qed.

(** X10. A selection test emits at most one result for each call of
    [start_test]: a run that begins with [start_test] and calls it [n] more
    times leaves at most [n + 1] results, however many samples it delivers;
    once the sequence is matched, further samples add nothing until the test
    is started again. *)
Theorem selection_one_result_per_start (s : TargetSelectionTest.t)
    (cs : nat -> Q) (events : list SelectionRun.Event) :
  (length (snd (SelectionRun.run (SelectionRun.Start cs :: events) (s, [])))
   <= S (Scenario.starts events))%nat.
Proof.
  assert (Hgen : forall events cfg,
    (length (snd (SelectionRun.run events cfg))
     + (if TargetSelectionTest.test_active (fst (SelectionRun.run events cfg))
        then 1 else 0)
     <= length (snd cfg)
        + (if TargetSelectionTest.test_active (fst cfg) then 1 else 0)
        + Scenario.starts events)%nat).
  { clear. induction events as [|e events IH]; intros cfg; [simpl; lia|].
    rewrite selection_run_cons.
    specialize (IH (SelectionRun.step cfg e)).
    destruct cfg as [s log].
    pose proof (selection_step_budget s log e) as Hstep. simpl fst. simpl snd.
    assert (Hst : Scenario.starts (e :: events)
                  = (Scenario.starts [e] + Scenario.starts events)%nat)
      by (destruct e; reflexivity).
    rewrite Hst. lia. }
  rewrite selection_run_cons.
  specialize (Hgen events (SelectionRun.step (s, []) (SelectionRun.Start cs))).
  assert (H0 : snd (SelectionRun.step (s, []) (SelectionRun.Start cs)) = []
               /\ TargetSelectionTest.test_active
                    (fst (SelectionRun.step (s, []) (SelectionRun.Start cs)))
                  = true).
  { unfold SelectionRun.step, SelectionRun.call. simpl fst. simpl snd.
    destruct (selection_start_test_run s (World.fresh cs []))
      as (s' & -> & Ha & _).
    unfold state_of, signals_of. simpl. split; [reflexivity|exact Ha]. }
  destruct H0 as [Hlog Hact]. rewrite Hlog, Hact in Hgen. cbn [length] in Hgen.
  destruct (TargetSelectionTest.test_active
              (fst (SelectionRun.run events
                      (SelectionRun.step (s, []) (SelectionRun.Start cs)))));
    lia.
Qed.

(** ** What the statistics can be *)

Lemma sum_within (f : TestResult.t -> Q) (rs : list TestResult.t) (lo hi : Q) :
  Forall (fun r => (lo <= f r /\ f r <= hi)%Q) rs ->
  (lo * inject_Z (Z.of_nat (length rs)) <= fold_right Qplus 0 (map f rs)
   /\ fold_right Qplus 0 (map f rs) <= hi * inject_Z (Z.of_nat (length rs)))%Q.
Proof.
  induction 1 as [|r rs [Hlo Hhi] _ [IHlo IHhi]].
  - simpl. change (inject_Z (Z.of_nat 0)) with 0%Q. split; lra.
  - cbn [length map fold_right].
    rewrite Nat2Z.inj_succ, <- Z.add_1_r, inject_Z_plus.
    change (inject_Z 1) with 1%Q. split; lra.
Qed.

Lemma mean_within (f : TestResult.t -> Q) (rs : list TestResult.t) (lo hi : Q) :
  rs <> [] ->
  Forall (fun r => (lo <= f r /\ f r <= hi)%Q) rs ->
  (lo <= InteractionTestManager.sum_of f rs / inject_Z (Z.of_nat (length rs))
   /\ InteractionTestManager.sum_of f rs / inject_Z (Z.of_nat (length rs)) <= hi)%Q.
Proof.
  intros Hne Hall. destruct (sum_within f rs lo hi Hall) as [Hlo Hhi].
  assert (Hpos : (0 < inject_Z (Z.of_nat (length rs)))%Q).
  { change 0%Q with (inject_Z 0). rewrite <- Zlt_Qlt.
    destruct rs; [congruence|simpl; lia]. }
  unfold InteractionTestManager.sum_of.
  rewrite sum_of_fold_right, Qplus_0_l. split.
  - apply Qle_shift_div_l; assumption.
  - apply Qle_shift_div_r; assumption.
Qed.

Lemma successes_all (rs : list TestResult.t) :
  length (filter (fun r => TestResult.success r = true) rs) = length rs
  <-> Forall (fun r => TestResult.success r = true) rs.
Proof.
  induction rs as [|r rs IH].
  - split; [constructor|reflexivity].
  - pose proof (length_filter (fun r => TestResult.success r = true) rs) as Hle.
    destruct (decide (TestResult.success r = true)) as [Hr|Hr].
    + rewrite filter_cons_True by exact Hr. simpl. split.
      * intros H. constructor; [exact Hr|]. apply IH. lia.
      * intros H. inversion H; subst. f_equal. apply IH. assumption.
    + rewrite filter_cons_False by exact Hr. simpl. split.
      * intros H. lia.
      * intros H. inversion H; subst. contradiction.
Qed.

Lemma successes_none (rs : list TestResult.t) :
  length (filter (fun r => TestResult.success r = true) rs) = O
  <-> Forall (fun r => TestResult.success r = false) rs.
Proof.
  induction rs as [|r rs IH].
  - split; [constructor|reflexivity].
  - destruct (decide (TestResult.success r = true)) as [Hr|Hr].
    + rewrite filter_cons_True by exact Hr. simpl. split.
      * discriminate.
      * intros H. inversion H; subst. congruence.
    + rewrite filter_cons_False by exact Hr. rewrite IH. split.
      * intros H. constructor; [|exact H].
        destruct (TestResult.success r); congruence.
      * intros H. inversion H; subst. assumption.
Qed.

Lemma ratio_one (a b : nat) :
  (0 < b)%nat ->
  (inject_Z (Z.of_nat a) / inject_Z (Z.of_nat b) == 1)%Q <-> a = b.
Proof.
  intros Hb.
  assert (Hnz : ~ (inject_Z (Z.of_nat b) == 0)%Q).
  { change 0%Q with (inject_Z 0). rewrite inject_Z_injective. lia. }
  split.
  - intros H.
    assert (H' : (inject_Z (Z.of_nat a) == inject_Z (Z.of_nat b))%Q).
    { rewrite <- (Qmult_1_l (inject_Z (Z.of_nat b))), <- H.
      unfold Qdiv. rewrite <- Qmult_assoc, (Qmult_comm (/ _)), Qmult_inv_r by exact Hnz.
      rewrite Qmult_1_r. reflexivity. }
    apply -> inject_Z_injective in H'. lia.
  - intros ->. apply ratio_full. exact Hb.
Qed.

Lemma ratio_zero (a b : nat) :
  (0 < b)%nat ->
  (inject_Z (Z.of_nat a) / inject_Z (Z.of_nat b) == 0)%Q <-> a = O.
Proof.
  intros Hb.
  assert (Hnz : ~ (inject_Z (Z.of_nat b) == 0)%Q).
  { change 0%Q with (inject_Z 0). rewrite inject_Z_injective. lia. }
  split.
  - intros H.
    assert (H' : (inject_Z (Z.of_nat a) == inject_Z 0)%Q).
    { change (inject_Z 0) with 0%Q.
      rewrite <- (Qmult_0_l (inject_Z (Z.of_nat b))), <- H.
      unfold Qdiv. rewrite <- Qmult_assoc, (Qmult_comm (/ _)), Qmult_inv_r by exact Hnz.
      rewrite Qmult_1_r. reflexivity. }
    apply -> inject_Z_injective in H'. lia.
  - intros ->. change (inject_Z (Z.of_nat 0)) with 0%Q. unfold Qdiv.
    apply Qmult_0_l.
Qed.

Lemma mean_nonneg (f : TestResult.t -> Q) (rs : list TestResult.t) :
  rs <> [] ->
  Forall (fun r => (0 <= f r)%Q) rs ->
  (0 <= InteractionTestManager.sum_of f rs / inject_Z (Z.of_nat (length rs)))%Q.
Proof.
  intros Hne Hall.
  assert (Hsum : (0 <= fold_right Qplus 0 (map f rs))%Q).
  { clear Hne. induction Hall as [|r rs Hr _ IH]; simpl; [apply Qle_refl|].
    lra. }
  assert (Hpos : (0 < inject_Z (Z.of_nat (length rs)))%Q).
  { change 0%Q with (inject_Z 0). rewrite <- Zlt_Qlt.
    destruct rs; [congruence|simpl; lia]. }
  unfold InteractionTestManager.sum_of.
  rewrite sum_of_fold_right, Qplus_0_l.
  apply Qle_shift_div_l; [exact Hpos|]. rewrite Qmult_0_l. exact Hsum.
Qed.

(** X11. For a result log that is not empty, the statistics dict has exactly
    the five keys ['total_tests'], ['success_rate'], ['average_accuracy'],
    ['average_duration'] and ['results'], and ['results'] is the log itself.
    The success rate lies between 0 and 1; it is 1 exactly when every result
    is a success and 0 exactly when none is. The average accuracy lies
    between 0 and 1 when every accuracy does, and the average duration is
    not negative when no duration is. (The bounds are whole numbers: the
    rounded sums and quotients of doubles keep them as the exact ones do.) *)
Theorem statistics_within_bounds (m : InteractionTestManager.t) :
  InteractionTestManager.test_results m <> [] ->
  exists rate acc dur,
    InteractionTestManager.get_test_statistics m !! "success_rate"
    = Some (InteractionTestManager.VFloat rate)
    /\ InteractionTestManager.get_test_statistics m !! "average_accuracy"
       = Some (InteractionTestManager.VFloat acc)
    /\ InteractionTestManager.get_test_statistics m !! "average_duration"
       = Some (InteractionTestManager.VFloat dur)
    /\ InteractionTestManager.get_test_statistics m !! "results"
       = Some (InteractionTestManager.VResults
                 (InteractionTestManager.test_results m))
    /\ (forall key,
          is_Some (InteractionTestManager.get_test_statistics m !! key)
          <-> key ∈ ["total_tests"; "success_rate"; "average_accuracy";
                     "average_duration"; "results"])
    /\ (0 <= rate /\ rate <= 1)%Q
    /\ ((rate == 1)%Q
        <-> Forall (fun r => TestResult.success r = true)
              (InteractionTestManager.test_results m))
    /\ ((rate == 0)%Q
        <-> Forall (fun r => TestResult.success r = false)
              (InteractionTestManager.test_results m))
    /\ (Forall (fun r => (0 <= TestResult.accuracy r
                          /\ TestResult.accuracy r <= 1)%Q)
          (InteractionTestManager.test_results m) ->
        (0 <= acc /\ acc <= 1)%Q)
    /\ (Forall (fun r => (0 <= TestResult.duration r)%Q)
          (InteractionTestManager.test_results m) ->
        (0 <= dur)%Q).
Proof.
  intros Hne. unfold InteractionTestManager.get_test_statistics.
  destruct (InteractionTestManager.test_results m) as [|r0 rs0] eqn:E;
    [congruence|].
  set (rs := r0 :: rs0) in *.
  assert (Hlen : (0 < length rs)%nat) by (simpl; lia).
  do 3 eexists.
  split; [rewrite !lookup_insert_ne by discriminate; apply lookup_insert_eq|].
  split; [rewrite !lookup_insert_ne by discriminate; apply lookup_insert_eq|].
  split; [rewrite !lookup_insert_ne by discriminate; apply lookup_insert_eq|].
  split; [rewrite !lookup_insert_ne by discriminate; apply lookup_insert_eq|].
  split.
  { intros key. rewrite !lookup_insert_is_Some, lookup_empty, is_Some_alt.
    rewrite !elem_of_cons, elem_of_nil. split.
    - intros H. repeat (destruct H as [H|[_ H]]; [auto 10|]). contradiction.
    - intros [H|[H|[H|[H|[H|H]]]]]; try contradiction; subst key.
      + left. reflexivity.
      + right. split; [discriminate|]. left. reflexivity.
      + right. split; [discriminate|]. right. split; [discriminate|].
        left. reflexivity.
      + right. split; [discriminate|]. right. split; [discriminate|].
        right. split; [discriminate|]. left. reflexivity.
      + right. split; [discriminate|]. right. split; [discriminate|].
        right. split; [discriminate|]. right. split; [discriminate|].
        left. reflexivity. }
  unfold InteractionTestManager.successful_tests.
  split.
  { apply ratio_in_unit; [apply length_filter|exact Hlen]. }
  split.
  { rewrite ratio_one by exact Hlen. apply successes_all. }
  split.
  { rewrite ratio_zero by exact Hlen. apply successes_none. }
  split.
  - intros Hall. apply mean_within; [discriminate|exact Hall].
  - intros Hall. apply mean_nonneg; [discriminate|exact Hall].
Qed.

Lemma statistics_within_bounds_witness :
  exists rate,
    InteractionTestManager.get_test_statistics Example.two_results
      !! "success_rate"
    = Some (InteractionTestManager.VFloat rate)
    /\ (0 <= rate /\ rate <= 1)%Q.
Proof.
  destruct (statistics_within_bounds Example.two_results)
    as (rate & acc & dur & H1 & _ & _ & _ & _ & H6 & _).
  - discriminate.
  - exists rate. split; [exact H1|exact H6].
Defined.

(** ** A manager wired to a selection test *)

Lemma session_deliver (results : list TestResult.t) (m : InteractionTestManager.t) :
  InteractionTestManager.test_results (Session.deliver results m)
  = InteractionTestManager.test_results m ++ results
  /\ InteractionTestManager.regions (Session.deliver results m)
     = InteractionTestManager.regions m.
Proof.
  unfold Session.deliver. revert m.
  induction results as [|r results IH]; intros m; simpl.
  - rewrite app_nil_r. split; reflexivity.
  - destruct (IH (InteractionTestManager.on_test_completed r m)) as [-> ->].
    simpl. rewrite <- app_assoc. split; reflexivity.
Qed.

Lemma session_step_invariant (P : TestResult.t -> Prop) (seq : list Region.t)
    (s : TargetSelectionTest.t) (m : InteractionTestManager.t)
    (e : SelectionRun.Event) :
  (forall r,
      TestResult.test_type r = TARGET_SELECTION ->
      TestResult.success r = true ->
      (TestResult.accuracy r == 1)%Q ->
      TestResult.target_region r = None ->
      map Region.id (TestResult.actual_regions r) = map Region.id seq ->
      P r) ->
  SelectionRun.prefix_invariant s ->
  TargetSelectionTest.target_sequence s = seq ->
  Forall P (InteractionTestManager.test_results m) ->
  SelectionRun.prefix_invariant (fst (Session.step (s, m) e))
  /\ TargetSelectionTest.target_sequence (fst (Session.step (s, m) e)) = seq
  /\ Forall P (InteractionTestManager.test_results (snd (Session.step (s, m) e)))
  /\ InteractionTestManager.regions (snd (Session.step (s, m) e))
     = InteractionTestManager.regions m
  /\ (length (InteractionTestManager.test_results (snd (Session.step (s, m) e)))
      + (if TargetSelectionTest.test_active (fst (Session.step (s, m) e))
         then 1 else 0)
      <= length (InteractionTestManager.test_results m)
         + (if TargetSelectionTest.test_active s then 1 else 0)
         + Scenario.starts [e])%nat.
Proof.
  intros HP Hinv Hseq Hlog. unfold Session.step. cbn [fst snd].
  destruct (selection_step_reports s [] e seq P HP Hinv Hseq (List.Forall_nil P))
    as (H1 & H2 & H3).
  pose proof (selection_step_budget s [] e) as H4.
  destruct (session_deliver (snd (SelectionRun.step (s, []) e)) m) as [-> ->].
  split; [exact H1|]. split; [exact H2|].
  split; [apply Forall_app; split; assumption|].
  split; [reflexivity|].
  rewrite length_app. cbn [length] in H4. lia.
Qed.

(** X12. A manager with no results creates a selection test, and the test
    is started and then used in any way. The manager then holds at most one
    result per call of [start_test], each a success with accuracy 1 whose
    visited regions carry ids of regions of the manager; its region list is
    unchanged. So its statistics are the empty dict, or show a success rate
    and an average accuracy of exactly 1: a selection test never lowers
    either figure. *)
Theorem selection_session_statistics (rnd : nat -> nat) (num_targets : Z)
    (m0 : InteractionTestManager.t) (s : TargetSelectionTest.t)
    (cs : nat -> Q) (events : list SelectionRun.Event) :
  InteractionTestManager.test_results m0 = [] ->
  Session.create_target_selection_test rnd num_targets m0 = inr s ->
  InteractionTestManager.regions
    (snd (Session.run (SelectionRun.Start cs :: events) (s, m0)))
  = InteractionTestManager.regions m0
  /\ (length (InteractionTestManager.test_results
                (snd (Session.run (SelectionRun.Start cs :: events) (s, m0))))
      <= S (Scenario.starts events))%nat
  /\ Forall (fun r =>
               TestResult.success r = true
               /\ (TestResult.accuracy r == 1)%Q
               /\ forall i, i ∈ map Region.id (TestResult.actual_regions r) ->
                            i ∈ map Region.id (InteractionTestManager.regions m0))
       (InteractionTestManager.test_results
          (snd (Session.run (SelectionRun.Start cs :: events) (s, m0))))
  /\ (InteractionTestManager.get_test_statistics
        (snd (Session.run (SelectionRun.Start cs :: events) (s, m0))) = ∅
      \/ exists rate acc,
          InteractionTestManager.get_test_statistics
            (snd (Session.run (SelectionRun.Start cs :: events) (s, m0)))
            !! "success_rate"
          = Some (InteractionTestManager.VFloat rate)
          /\ InteractionTestManager.get_test_statistics
               (snd (Session.run (SelectionRun.Start cs :: events) (s, m0)))
               !! "average_accuracy"
             = Some (InteractionTestManager.VFloat acc)
          /\ (rate == 1)%Q /\ (acc == 1)%Q).
Proof.
  intros Hempty Hcreate.
  unfold Session.create_target_selection_test in Hcreate.
  apply selection_init_inactive in Hcreate as (_ & _ & _ & Hsample).
  apply sample_spec in Hsample as (_ & _ & rest & Hperm).
  set (P := fun r : TestResult.t =>
              TestResult.success r = true
              /\ (TestResult.accuracy r == 1)%Q
              /\ forall i, i ∈ map Region.id (TestResult.actual_regions r) ->
                           i ∈ map Region.id (InteractionTestManager.regions m0)).
  assert (HP : forall r,
             TestResult.test_type r = TARGET_SELECTION ->
             TestResult.success r = true ->
             (TestResult.accuracy r == 1)%Q ->
             TestResult.target_region r = None ->
             map Region.id (TestResult.actual_regions r)
             = map Region.id (TargetSelectionTest.target_sequence s) ->
             P r).
  { intros r _ H2 H3 _ H5. unfold P. split; [exact H2|]. split; [exact H3|].
    intros i Hi. rewrite H5 in Hi. rewrite <- Hperm, map_app.
    apply elem_of_app. left. exact Hi. }
  assert (Hgen : forall events cfg,
    SelectionRun.prefix_invariant (fst cfg) ->
    TargetSelectionTest.target_sequence (fst cfg)
    = TargetSelectionTest.target_sequence s ->
    Forall P (InteractionTestManager.test_results (snd cfg)) ->
    Forall P (InteractionTestManager.test_results (snd (Session.run events cfg)))
    /\ InteractionTestManager.regions (snd (Session.run events cfg))
       = InteractionTestManager.regions (snd cfg)
    /\ (length (InteractionTestManager.test_results (snd (Session.run events cfg)))
        <= length (InteractionTestManager.test_results (snd cfg))
           + (if TargetSelectionTest.test_active (fst cfg) then 1 else 0)
           + Scenario.starts events)%nat).
  { clear events. induction events as [|e events IH]; intros [s1 m1] H1 H2 H3.
    - cbn [Session.run fold_left fst snd]. split; [exact H3|].
      split; [reflexivity|]. lia.
    - change (Session.run (e :: events) (s1, m1))
        with (Session.run events (Session.step (s1, m1) e)).
      cbn [fst snd] in H1, H2, H3.
      destruct (session_step_invariant P _ s1 m1 e HP H1 H2 H3)
        as (G1 & G2 & G3 & G4 & G5).
      destruct (IH (Session.step (s1, m1) e) G1 G2 G3) as (K1 & K2 & K3).
      cbn [fst snd]. split; [exact K1|]. split; [congruence|].
      assert (Hst : Scenario.starts (e :: events)
                    = (Scenario.starts [e] + Scenario.starts events)%nat)
        by (destruct e; reflexivity).
      rewrite Hst.
      destruct (TargetSelectionTest.test_active (fst (Session.step (s1, m1) e)));
        lia. }
  change (Session.run (SelectionRun.Start cs :: events) (s, m0))
    with (Session.run events (Session.step (s, m0) (SelectionRun.Start cs))).
  assert (H0 : SelectionRun.prefix_invariant
                 (fst (Session.step (s, m0) (SelectionRun.Start cs)))
               /\ TargetSelectionTest.target_sequence
                    (fst (Session.step (s, m0) (SelectionRun.Start cs)))
                  = TargetSelectionTest.target_sequence s
               /\ snd (Session.step (s, m0) (SelectionRun.Start cs)) = m0).
  { unfold Session.step, SelectionRun.step, SelectionRun.call.
    cbn [fst snd].
    destruct (selection_start_test_run s (World.fresh cs []))
      as (s' & -> & _ & _ & Hidx & Hsel & Hseq & _).
    unfold SelectionRun.prefix_invariant, state_of, signals_of. simpl.
    rewrite Hidx, Hsel. repeat split; auto. }
  destruct H0 as (H1 & H2 & H3).
  destruct (Hgen events (Session.step (s, m0) (SelectionRun.Start cs)) H1 H2)
    as (K1 & K2 & K3).
  { rewrite H3, Hempty. constructor. }
  rewrite H3 in K2, K3. rewrite Hempty in K3. cbn [length] in K3.
  split; [exact K2|].
  split.
  { destruct (TargetSelectionTest.test_active
                (fst (Session.step (s, m0) (SelectionRun.Start cs)))); lia. }
  split; [exact K1|].
  unfold InteractionTestManager.get_test_statistics.
  destruct (InteractionTestManager.test_results
              (snd (Session.run events
                      (Session.step (s, m0) (SelectionRun.Start cs)))))
    as [|r0 rs0] eqn:E; [left; reflexivity|right].
  do 2 eexists.
  split; [rewrite !lookup_insert_ne by discriminate; apply lookup_insert_eq|].
  split; [rewrite !lookup_insert_ne by discriminate; apply lookup_insert_eq|].
  split.
  - unfold InteractionTestManager.successful_tests.
    apply ratio_one; [simpl; lia|]. apply successes_all.
    eapply Forall_impl; [exact K1|]. intros r Hr. apply Hr.
  - assert (Hb : (1 <= InteractionTestManager.sum_of TestResult.accuracy (r0 :: rs0)
                       / inject_Z (Z.of_nat (length (r0 :: rs0)))
                  /\ InteractionTestManager.sum_of TestResult.accuracy (r0 :: rs0)
                       / inject_Z (Z.of_nat (length (r0 :: rs0))) <= 1)%Q).
    { apply mean_within; [discriminate|].
      eapply Forall_impl; [exact K1|]. intros r (_ & Hr & _).
      rewrite Hr. split; apply Qle_refl. }
    apply Qle_antisym; apply Hb.
Qed.

Lemma selection_session_statistics_witness :
  InteractionTestManager.regions
    (snd (Session.run
            [ SelectionRun.Start (Example.at_time 100);
              SelectionRun.Gaze (Example.at_time 101) None
                (Some Example.centre) ]
            (Scenario.created_test, Scenario.fresh_manager)))
  = InteractionTestManager.regions Scenario.fresh_manager.
Proof.
  apply (selection_session_statistics (fun _ => O) 3 Scenario.fresh_manager
           Scenario.created_test (Example.at_time 100)
           [ SelectionRun.Gaze (Example.at_time 101) None
               (Some Example.centre) ]).
  - reflexivity.
  - vm_compute. reflexivity.
Defined.

(** ** The tracker *)

Lemma tracker_pass_cases (r : EyeTrackingInterface.Read)
    (s : EyeTrackingInterface.t) :
  (EyeTrackingInterface.is_running s = true
   /\ (exists others, EyeTrackingInterface.loops s = S others)
   /\ EyeTrackingInterface.cap s
      = Some {| EyeTrackingInterface.opened := true |}
   /\ exists frame dx dy now,
       r = EyeTrackingInterface.read_frame frame dx dy now
       /\ EyeTrackingInterface.tracking_loop_pass r s
          = let s1 :=
              EyeTrackingInterface.set_current_pupil_data
                (EyeTrackingInterface._detect_pupil frame dx dy now)
                (EyeTrackingInterface.set_current_frame (Some frame) s) in
            match EyeTrackingInterface.calibration_data s with
            | [] => s1
            | _ :: _ =>
                EyeTrackingInterface.set_current_gaze_point
                  (EyeTrackingInterface._estimate_gaze
                     (EyeTrackingInterface._detect_pupil frame dx dy now))
                  s1
            end)
  \/ EyeTrackingInterface.tracking_loop_pass r s = s
  \/ (exists others,
        EyeTrackingInterface.loops s = S others
        /\ (EyeTrackingInterface.is_running s = false
            \/ EyeTrackingInterface.cap s = None)
        /\ EyeTrackingInterface.tracking_loop_pass r s
           = EyeTrackingInterface.set_loops others s).
Proof.
  unfold EyeTrackingInterface.tracking_loop_pass.
  destruct (EyeTrackingInterface.loops s) as [|others] eqn:El; [auto|].
  destruct (EyeTrackingInterface.is_running s) eqn:Er;
    [|right; right; exists others; auto].
  destruct (EyeTrackingInterface.cap s) as [[[|]]|] eqn:Ec;
    [| auto | right; right; exists others; auto].
  destruct r as [|frame dx dy now]; [auto|].
  left. split; [reflexivity|]. split; [eauto|]. split; [reflexivity|].
  exists frame, dx, dy, now. split; [reflexivity|].
  cbn. destruct (EyeTrackingInterface.calibration_data s); reflexivity.
Qed.



Lemma tracker_stop_off (s : EyeTrackingInterface.t) :
  EyeTrackingInterface.is_running (EyeTrackingInterface.stop_tracking s) = false.
Proof.
  unfold EyeTrackingInterface.stop_tracking. simpl.
  destruct (EyeTrackingInterface.cap s); reflexivity.
Qed.

Lemma threads_pending_insert (l : list TrackingThreads.Pc) (i : nat)
    (pc pc' : TrackingThreads.Pc) :
  l !! i = Some pc ->
  (sum_list_with TrackingThreads.stores_left (<[i := pc']> l)
   + TrackingThreads.stores_left pc
   = sum_list_with TrackingThreads.stores_left l
     + TrackingThreads.stores_left pc')%nat.
Proof.
  intros Hi. rewrite insert_take_drop by (eapply lookup_lt_Some; exact Hi).
  rewrite <- (take_drop_middle l i pc Hi) at 3.
  rewrite !sum_list_with_app. simpl. lia.
Qed.

Lemma threads_pending_delete (l : list TrackingThreads.Pc) (i : nat)
    (pc : TrackingThreads.Pc) :
  l !! i = Some pc ->
  (sum_list_with TrackingThreads.stores_left (delete i l)
   + TrackingThreads.stores_left pc
   = sum_list_with TrackingThreads.stores_left l)%nat.
Proof.
  intros Hi. rewrite delete_take_drop.
  rewrite <- (take_drop_middle l i pc Hi) at 3.
  rewrite !sum_list_with_app. simpl. lia.
Qed.

Lemma threads_step_stopped (s : TrackingThreads.t) (e : TrackingThreads.Event) :
  EyeTrackingInterface.is_running (TrackingThreads.tracker s) = false ->
  TrackingThreads.starts_tracking e = false ->
  EyeTrackingInterface.is_running
    (TrackingThreads.tracker (TrackingThreads.step s e)) = false
  /\ (length (TrackingThreads.threads (TrackingThreads.step s e))
      <= length (TrackingThreads.threads s))%nat
  /\ (TrackingThreads.stores_in [e] s
      + TrackingThreads.pending (TrackingThreads.step s e)
      <= TrackingThreads.pending s)%nat
  /\ (TrackingThreads.stores_in [e] s = O ->
      TrackingThreads.shown (TrackingThreads.step s e)
      = TrackingThreads.shown s).
Proof.
  intros Hoff He. destruct s as [tr ths]. simpl in Hoff.
  unfold TrackingThreads.pending, TrackingThreads.shown.
  destruct e as [camera| | |sx sy px py now| |i r];
    cbn [TrackingThreads.step TrackingThreads.stores_in
           TrackingThreads.tracker TrackingThreads.threads].
  - destruct camera; simpl; rewrite Hoff; repeat split; auto; lia.
  - discriminate He.
  - rewrite tracker_stop_off.
    unfold EyeTrackingInterface.stop_tracking. simpl.
    destruct (EyeTrackingInterface.cap tr); simpl; repeat split; auto; lia.
  - simpl. rewrite Hoff. repeat split; auto; lia.
  - simpl. rewrite Hoff. repeat split; auto; lia.
  - destruct (ths !! i) as [pc|] eqn:Hi;
      [|simpl; rewrite Hoff; repeat split; auto; lia].
    assert (Hlen : (i < length ths)%nat) by (eapply lookup_lt_Some; exact Hi).
    destruct pc as [| |frame dx dy now|p|p|g];
      cbn [TrackingThreads.thread_step TrackingThreads.stores].
    + rewrite Hoff. cbn [TrackingThreads.tracker TrackingThreads.threads].
      pose proof (threads_pending_delete ths i _ Hi) as Hp.
      pose proof (length_delete ths i (mk_is_Some _ _ Hi)) as Hl.
      simpl in Hp |- *. rewrite Hoff. repeat split; auto; lia.
    + destruct (EyeTrackingInterface.cap tr) as [capture|].
      * destruct (EyeTrackingInterface.opened capture), r as [|frame dx dy now];
          cbn [TrackingThreads.tracker TrackingThreads.threads];
          match goal with
          | |- context [<[i := ?pc']> ths] =>
              pose proof (threads_pending_insert ths i _ pc' Hi) as Hp
          end;
          rewrite length_insert; simpl in Hp |- *;
          rewrite Hoff; repeat split; auto; lia.
      * cbn [TrackingThreads.tracker TrackingThreads.threads].
        pose proof (threads_pending_delete ths i _ Hi) as Hp.
        pose proof (length_delete ths i (mk_is_Some _ _ Hi)) as Hl.
        simpl in Hp |- *. rewrite Hoff. repeat split; auto; lia.
    + cbn [TrackingThreads.tracker TrackingThreads.threads].
      match goal with
      | |- context [<[i := ?pc']> ths] =>
          pose proof (threads_pending_insert ths i _ pc' Hi) as Hp
      end.
      rewrite length_insert. simpl in Hp |- *.
      rewrite Hoff. repeat split; auto; lia.
    + cbn [TrackingThreads.tracker TrackingThreads.threads].
      match goal with
      | |- context [<[i := ?pc']> ths] =>
          pose proof (threads_pending_insert ths i _ pc' Hi) as Hp
      end.
      rewrite length_insert. simpl in Hp |- *.
      rewrite Hoff. repeat split; auto; lia.
    + destruct p as [p|];
        [destruct (EyeTrackingInterface.calibration_data tr)|];
        cbn [TrackingThreads.tracker TrackingThreads.threads];
        match goal with
        | |- context [<[i := ?pc']> ths] =>
            pose proof (threads_pending_insert ths i _ pc' Hi) as Hp
        end;
        rewrite length_insert; simpl in Hp |- *;
        rewrite Hoff; repeat split; auto; lia.
    + cbn [TrackingThreads.tracker TrackingThreads.threads].
      match goal with
      | |- context [<[i := ?pc']> ths] =>
          pose proof (threads_pending_insert ths i _ pc' Hi) as Hp
      end.
      rewrite length_insert. simpl in Hp |- *.
      rewrite Hoff. repeat split; auto; lia.
Qed.

(** A pass that no other thread and no call interrupts is
    [tracking_loop_pass]: six statements of the only thread of a tracker,
    from the loop test, leave the object as the pass does. *)
Lemma uninterrupted_pass (r : EyeTrackingInterface.Read)
    (s : EyeTrackingInterface.t) (others : nat) :
  EyeTrackingInterface.loops s = S others ->
  TrackingThreads.tracker
    (TrackingThreads.run (repeat (TrackingThreads.Thread 0 r) 6)
       {| TrackingThreads.tracker := s;
          TrackingThreads.threads := [TrackingThreads.at_test] |})
  = EyeTrackingInterface.tracking_loop_pass r s.
Proof.
  intros Hl. unfold EyeTrackingInterface.tracking_loop_pass. rewrite Hl.
  destruct s as [cam cap run fr pu ga cal lo]. simpl in Hl. subst lo.
  destruct run; [|reflexivity].
  destruct cap as [[[|]]|]; [| |reflexivity].
  - destruct r as [|frame dx dy now]; [reflexivity|].
    destruct cal; reflexivity.
  - destruct r; reflexivity.
Qed.

(** X14. What stopping does to the loop threads, statement by statement.
    While [is_running] is off and [start_tracking] is not called, whatever
    the main thread calls and however the threads are interleaved: the flag
    stays off and no thread enters the loop; a thread that is past the loop
    test still makes the stores of its pass, so what the getters return can
    change after [stop_tracking], but the stores made and the stores still
    possible never exceed those possible at the start, at most three for
    each thread past the test; a run without a store leaves what the getters
    return unchanged; and once every thread is at the loop test the frame,
    pupil data and gaze point are frozen: nothing resets them. *)
Theorem stopped_tracker_settles (s : TrackingThreads.t)
    (events : list TrackingThreads.Event) :
  EyeTrackingInterface.is_running (TrackingThreads.tracker s) = false ->
  Forall (fun e => TrackingThreads.starts_tracking e = false) events ->
  EyeTrackingInterface.is_running
    (TrackingThreads.tracker (TrackingThreads.run events s)) = false
  /\ (length (TrackingThreads.threads (TrackingThreads.run events s))
      <= length (TrackingThreads.threads s))%nat
  /\ (TrackingThreads.stores_in events s
      + TrackingThreads.pending (TrackingThreads.run events s)
      <= TrackingThreads.pending s)%nat
  /\ (TrackingThreads.stores_in events s = O ->
      TrackingThreads.shown (TrackingThreads.run events s)
      = TrackingThreads.shown s)
  /\ (TrackingThreads.pending s = O ->
      TrackingThreads.shown (TrackingThreads.run events s)
      = TrackingThreads.shown s)
  /\ (forall i frame dx dy now r,
        TrackingThreads.threads s !! i
        = Some (TrackingThreads.at_frame frame dx dy now) ->
        EyeTrackingInterface.get_current_frame
          (TrackingThreads.tracker
             (TrackingThreads.step s (TrackingThreads.Thread i r)))
        = Some frame).
Proof.
  intros Hoff Hev.
  assert (Hmain :
    EyeTrackingInterface.is_running
      (TrackingThreads.tracker (TrackingThreads.run events s)) = false
    /\ (length (TrackingThreads.threads (TrackingThreads.run events s))
        <= length (TrackingThreads.threads s))%nat
    /\ (TrackingThreads.stores_in events s
        + TrackingThreads.pending (TrackingThreads.run events s)
        <= TrackingThreads.pending s)%nat
    /\ (TrackingThreads.stores_in events s = O ->
        TrackingThreads.shown (TrackingThreads.run events s)
        = TrackingThreads.shown s)).
  { revert s Hoff. induction Hev as [|e events He _ IH]; intros s Hoff.
    - simpl. repeat split; auto; lia.
    - change (TrackingThreads.run (e :: events) s)
        with (TrackingThreads.run events (TrackingThreads.step s e)).
      destruct (threads_step_stopped s e Hoff He) as (H1 & H2 & H3 & H4).
      destruct (IH _ H1) as (K1 & K2 & K3 & K4).
      assert (Hst : TrackingThreads.stores_in (e :: events) s
                    = (TrackingThreads.stores_in [e] s
                       + TrackingThreads.stores_in events
                           (TrackingThreads.step s e))%nat).
      { cbn [TrackingThreads.stores_in]. lia. }
      rewrite Hst. split; [exact K1|]. split; [lia|]. split; [lia|].
      intros Hz. rewrite K4 by lia. apply H4. lia. }
  destruct Hmain as (M1 & M2 & M3 & M4).
  split; [exact M1|]. split; [exact M2|]. split; [exact M3|].
  split; [exact M4|]. split.
  - intros Hz. apply M4. lia.
  - intros i frame dx dy now r Hi. destruct s as [tr ths]. simpl in Hi |- *.
    rewrite Hi. reflexivity.
Qed.

Lemma stopped_tracker_settles_witness :
  EyeTrackingInterface.is_running
    (TrackingThreads.tracker
       (TrackingThreads.run
          [ TrackingThreads.Thread 0
              (EyeTrackingInterface.read_frame Scenario.vga 0 0 2);
            TrackingThreads.Thread 0 EyeTrackingInterface.read_fails ]
          Scenario.stopped_past_test))
  = false
  /\ TrackingThreads.shown
       (TrackingThreads.run
          [ TrackingThreads.Thread 0
              (EyeTrackingInterface.read_frame Scenario.vga 0 0 2);
            TrackingThreads.Thread 0 EyeTrackingInterface.read_fails ]
          Scenario.stopped_past_test)
     = TrackingThreads.shown Scenario.stopped_past_test.
Proof.
  destruct (stopped_tracker_settles Scenario.stopped_past_test
              [ TrackingThreads.Thread 0
                  (EyeTrackingInterface.read_frame Scenario.vga 0 0 2);
                TrackingThreads.Thread 0 EyeTrackingInterface.read_fails ]
              eq_refl ltac:(repeat constructor))
    as (H1 & _ & _ & H4 & _).
  split; [exact H1|]. apply H4. reflexivity.
Defined.

Lemma simulated_gaze_checked :
  forallb (fun dx => forallb (Scenario.simulated_gaze_check dx) (seqZ (-50) 100))
    (seqZ (-50) 100)
  = true.
Proof. vm_compute. reflexivity. Qed.

(** X15. The simulated detector and estimator, on a frame of the 640 x 480
    size the camera is set to: a pass of the loop of a running, calibrated
    tracker stores the frame and a gaze point that carries the clock reading
    of the pass and the confidence of the pupil, and that point lies, on the
    3 x 3 grid of a full-HD screen, in the centre region (id 4) when the
    vertical draw is at most 48 and in the region below it (id 7) when the
    draw is 49. No other region is ever entered. *)
Theorem simulated_gaze_centre_column (s : EyeTrackingInterface.t)
    (dx dy : Z) (now : float) :
  EyeTrackingInterface.is_running s = true ->
  (0 < EyeTrackingInterface.loops s)%nat ->
  EyeTrackingInterface.cap s = Some {| EyeTrackingInterface.opened := true |} ->
  EyeTrackingInterface.calibration_data s <> [] ->
  -50 <= dx < 50 ->
  -50 <= dy < 50 ->
  exists g r,
    EyeTrackingInterface.get_current_gaze_point
      (EyeTrackingInterface.tracking_loop_pass
         (EyeTrackingInterface.read_frame Scenario.vga dx dy now) s)
    = Some g
    /\ EyeTrackingInterface.get_current_frame
         (EyeTrackingInterface.tracking_loop_pass
            (EyeTrackingInterface.read_frame Scenario.vga dx dy now) s)
       = Some Scenario.vga
    /\ GazePoint.timestamp g = now
    /\ GazePoint.screen_x g = Py.float_of_Z (3 * (320 + dx))
    /\ RegionManager.get_region_by_point (Example.manager_of Example.full_hd)
         (GazePoint.screen_x g) (GazePoint.screen_y g)
       = Some r
    /\ Region.id r = Scenario.simulated_region dy
    /\ (Region.id r = 4 \/ Region.id r = 7).
Proof.
  intros Hon Hloops Hcap Hcal Hdx Hdy.
  pose proof simulated_gaze_checked as Hall.
  rewrite forallb_forall in Hall.
  assert (Hx : In dx (seqZ (-50) 100)).
  { apply list_elem_of_In, elem_of_seqZ. lia. }
  specialize (Hall dx Hx). rewrite forallb_forall in Hall.
  assert (Hy : In dy (seqZ (-50) 100)).
  { apply list_elem_of_In, elem_of_seqZ. lia. }
  specialize (Hall dy Hy). unfold Scenario.simulated_gaze_check in Hall.
  unfold EyeTrackingInterface.tracking_loop_pass.
  destruct (EyeTrackingInterface.loops s) as [|others]; [lia|].
  rewrite Hon, Hcap. cbn [EyeTrackingInterface.opened].
  cbn [EyeTrackingInterface._detect_pupil
         EyeTrackingInterface.set_current_pupil_data
         EyeTrackingInterface.set_current_frame
         EyeTrackingInterface.calibration_data].
  destruct (EyeTrackingInterface.calibration_data s) as [|p ps]; [congruence|].
  cbn [EyeTrackingInterface._detect_pupil EyeTrackingInterface._estimate_gaze
         PupilData.center_x PupilData.center_y PupilData.confidence
         PupilData.timestamp] in Hall |- *.
  cbn [EyeTrackingInterface.get_current_gaze_point
         EyeTrackingInterface.get_current_frame
         EyeTrackingInterface.set_current_gaze_point
         EyeTrackingInterface.current_gaze_point
         EyeTrackingInterface.current_frame].
  cbn [GazePoint.screen_x GazePoint.screen_y] in Hall.
  destruct (RegionManager.get_region_by_point _ _ _) as [r|] eqn:Er;
    [|discriminate Hall].
  apply Z.eqb_eq in Hall.
  eexists. exists r.
  split; [reflexivity|]. split; [reflexivity|]. split; [reflexivity|].
  cbn [GazePoint.screen_x GazePoint.screen_y].
  split.
  { f_equal. change (EyeTrackingInterface.width Scenario.vga) with 640.
    change (640 / 2) with 320. lia. }
  split; [exact Er|]. split; [exact Hall|].
  rewrite Hall. unfold Scenario.simulated_region.
  destruct (dy <=? 48); auto.
Qed.

Lemma simulated_gaze_centre_column_witness :
  exists g r,
    EyeTrackingInterface.get_current_gaze_point
      (EyeTrackingInterface.tracking_loop_pass
         (EyeTrackingInterface.read_frame Scenario.vga 10 49 2)
         Scenario.calibrated_tracker)
    = Some g
    /\ RegionManager.get_region_by_point (Example.manager_of Example.full_hd)
         (GazePoint.screen_x g) (GazePoint.screen_y g)
       = Some r
    /\ Region.id r = 7.
Proof.
  destruct (simulated_gaze_centre_column Scenario.calibrated_tracker 10 49 2)
    as (g & r & H1 & _ & _ & _ & H5 & H6 & _).
  - reflexivity.
  - vm_compute. lia.
  - reflexivity.
  - discriminate.
  - lia.
  - lia.
  - exists g, r. split; [exact H1|]. split; [exact H5|exact H6].
Defined.

(** ** The main window *)

Lemma main_window_init (screen_width screen_height : Z) :
  exists rm,
    RegionManager.__init__ screen_width screen_height 3 3 = inr rm
    /\ MainWindow.__init__ screen_width screen_height
       = inr {| MainWindow.eye_tracker := EyeTrackingInterface.__init__ 0;
                MainWindow.region_widget := RegionGridWidget.__init__ rm;
                MainWindow.is_tracking := false;
                MainWindow.status := [];
                MainWindow.camera_widget := None |}.
Proof.
  unfold MainWindow.__init__, RegionManager.__init__,
    RegionManager._create_regions, Py.int_truediv.
  change (3 =? 0) with false. cbv iota. eexists. split; reflexivity.
Qed.

Lemma main_window_run_cons (e : MainWindow.Event) (events : list MainWindow.Event)
    (s : MainWindow.t) :
  MainWindow.run (e :: events) s = MainWindow.run events (MainWindow.step s e).
Proof. reflexivity. Qed.

Lemma main_window_run_snoc (e : MainWindow.Event) (events : list MainWindow.Event)
    (s : MainWindow.t) :
  MainWindow.run (events ++ [e]) s = MainWindow.step (MainWindow.run events s) e.
Proof. unfold MainWindow.run. rewrite fold_left_app. reflexivity. Qed.

Lemma tracker_step_uncalibrated (s : EyeTrackingInterface.t)
    (c : EyeTrackingInterface.Call) :
  EyeTrackingInterface.adds_calibration c = false ->
  EyeTrackingInterface.calibration_data s = [] ->
  EyeTrackingInterface.current_gaze_point (EyeTrackingInterface.step s c)
  = EyeTrackingInterface.current_gaze_point s
  /\ EyeTrackingInterface.calibration_data (EyeTrackingInterface.step s c) = [].
Proof.
  intros Hc Hcal.
  destruct c as [camera| | |r|sx sy px py now|]; simpl in Hc |- *.
  - destruct camera; simpl; auto.
  - auto.
  - unfold EyeTrackingInterface.stop_tracking. simpl.
    destruct (EyeTrackingInterface.cap s); simpl; auto.
  - destruct (tracker_pass_cases r s)
      as [(_ & _ & _ & frame & dx & dy & now & _ & ->)
         |[->|(others & _ & _ & ->)]].
    + rewrite Hcal. simpl. auto.
    + auto.
    + simpl. auto.
  - discriminate Hc.
  - auto.
Qed.

(** X16. The window as it is wired: no slot calls [add_calibration_point]
    (the calibration button only adds a status message). So whatever the
    user clicks, however often the timer fires and whatever the camera
    delivers, the tracker's gaze point stays [None], the grid widget emits
    no signal, the region manager keeps no current region and an empty
    history, no status message about a region is added, and every frame
    shown in the camera widget is shown without a gaze mark. *)
Theorem main_window_never_enters_region (screen_width screen_height : Z)
    (events : list MainWindow.Event) :
  exists w0,
    MainWindow.__init__ screen_width screen_height = inr w0
    /\ EyeTrackingInterface.get_current_gaze_point
         (MainWindow.eye_tracker (MainWindow.run events w0)) = None
    /\ RegionGridWidget.emitted
         (MainWindow.region_widget (MainWindow.run events w0)) = []
    /\ RegionManager.get_current_region
         (RegionGridWidget.region_manager
            (MainWindow.region_widget (MainWindow.run events w0))) = None
    /\ RegionManager.region_history
         (RegionGridWidget.region_manager
            (MainWindow.region_widget (MainWindow.run events w0))) = []
    /\ Forall (fun msg => MainWindow.about_region msg = false)
         (MainWindow.status (MainWindow.run events w0))
    /\ (forall shown,
          MainWindow.camera_widget (MainWindow.run events w0) = Some shown ->
          snd shown = None).
Proof.
  destruct (main_window_init screen_width screen_height) as (rm & Hrm & Hinit).
  eexists. split; [exact Hinit|].
  match goal with
  | |- context [MainWindow.run events ?w] => set (w0 := w)
  end.
  assert (Hrm0 : RegionManager.current_region rm = None
                 /\ RegionManager.region_history rm = []).
  { unfold RegionManager.__init__ in Hrm.
    destruct (RegionManager._create_regions _ _ _ _); [discriminate|].
    injection Hrm as <-. split; reflexivity. }
  assert (Hinv :
    EyeTrackingInterface.calibration_data
      (MainWindow.eye_tracker (MainWindow.run events w0)) = []
    /\ EyeTrackingInterface.current_gaze_point
         (MainWindow.eye_tracker (MainWindow.run events w0)) = None
    /\ MainWindow.region_widget (MainWindow.run events w0)
       = RegionGridWidget.__init__ rm
    /\ Forall (fun msg => MainWindow.about_region msg = false)
         (MainWindow.status (MainWindow.run events w0))
    /\ (forall shown,
          MainWindow.camera_widget (MainWindow.run events w0) = Some shown ->
          snd shown = None)).
  { induction events as [|e events IH] using rev_ind.
    - simpl. repeat split; auto. discriminate.
    - rewrite main_window_run_snoc.
      destruct IH as (I1 & I2 & I3 & I4 & I5).
      set (w := MainWindow.run events w0) in *.
      destruct e as [camera| | |now|r|]; simpl.
      + unfold MainWindow.toggle_tracking.
        destruct (MainWindow.is_tracking w).
        * simpl.
          destruct (tracker_step_uncalibrated (MainWindow.eye_tracker w)
                      EyeTrackingInterface.StopTracking eq_refl I1) as [G1 G2].
          simpl in G1, G2. rewrite G1, G2.
          repeat split; auto.
          apply Forall_app. split; [exact I4|]. repeat constructor.
        * unfold MainWindow.start_tracking.
          destruct camera; simpl; repeat split; auto;
            apply Forall_app; (split; [exact I4|]); repeat constructor.
      + repeat split; auto.
        apply Forall_app. split; [exact I4|]. repeat constructor.
      + repeat split; auto.
        apply Forall_app. split; [exact I4|]. repeat constructor.
      + unfold MainWindow.update_display,
          EyeTrackingInterface.get_current_gaze_point,
          EyeTrackingInterface.get_current_frame.
        rewrite I2, I3. simpl. rewrite app_nil_r.
        repeat split; auto.
        intros shown.
        destruct (EyeTrackingInterface.current_frame (MainWindow.eye_tracker w)).
        * intros [= <-]. reflexivity.
        * apply I5.
      + destruct (tracker_step_uncalibrated (MainWindow.eye_tracker w)
                    (EyeTrackingInterface.LoopPass r) eq_refl I1) as [G1 G2].
        simpl in G1, G2. rewrite G1, G2. repeat split; auto.
      + destruct (tracker_step_uncalibrated (MainWindow.eye_tracker w)
                    EyeTrackingInterface.StopTracking eq_refl I1) as [G1 G2].
        simpl in G1, G2. rewrite G1, G2. repeat split; auto. }
  destruct Hinv as (I1 & I2 & I3 & I4 & I5).
  unfold EyeTrackingInterface.get_current_gaze_point,
    RegionManager.get_current_region.
  rewrite I3. simpl. destruct Hrm0 as [-> ->].
  repeat split; auto.
Qed.

Lemma track_clicks_snoc (e : MainWindow.Event) (events : list MainWindow.Event) :
  MainWindow.track_clicks (events ++ [e])
  = (MainWindow.track_clicks events + MainWindow.track_clicks [e])%nat.
Proof.
  induction events as [|e' events IH]; [simpl; lia|].
  destruct e'; simpl; rewrite IH; reflexivity.
Qed.

(** X17. The tracking flag of the control panel and the tracker. The panel's
    flag is on exactly after an odd number of clicks on the tracking button,
    whether the camera opened or not. Whenever the tracker's own flag is on,
    the panel's is on too, the capture is open and a thread is in the loop.
    The converse fails: a click whose camera does not open turns the panel's
    flag on, adds the camera-failed message and starts nothing, and the next
    click only stops the tracker and adds the tracking-stopped message. *)
Theorem tracking_flag_and_tracker (screen_width screen_height : Z)
    (events : list MainWindow.Event) :
  exists w0,
    MainWindow.__init__ screen_width screen_height = inr w0
    /\ MainWindow.is_tracking (MainWindow.run events w0)
       = Nat.odd (MainWindow.track_clicks events)
    /\ (EyeTrackingInterface.is_running
          (MainWindow.eye_tracker (MainWindow.run events w0)) = true ->
        MainWindow.is_tracking (MainWindow.run events w0) = true
        /\ EyeTrackingInterface.cap
             (MainWindow.eye_tracker (MainWindow.run events w0))
           = Some {| EyeTrackingInterface.opened := true |}
        /\ (1 <= EyeTrackingInterface.loops
                   (MainWindow.eye_tracker (MainWindow.run events w0)))%nat)
    /\ (forall camera,
          MainWindow.is_tracking (MainWindow.run events w0) = false ->
          camera <> EyeTrackingInterface.camera_opens ->
          MainWindow.is_tracking
            (MainWindow.run (events ++ [MainWindow.ClickTrack camera]) w0)
          = true
          /\ EyeTrackingInterface.is_running
               (MainWindow.eye_tracker
                  (MainWindow.run (events ++ [MainWindow.ClickTrack camera]) w0))
             = false
          /\ MainWindow.status
               (MainWindow.run (events ++ [MainWindow.ClickTrack camera]) w0)
             = MainWindow.status (MainWindow.run events w0)
                 ++ [MainWindow.camera_failed]
          /\ forall camera',
              MainWindow.status
                (MainWindow.run
                   (events ++ [MainWindow.ClickTrack camera;
                               MainWindow.ClickTrack camera']) w0)
              = MainWindow.status (MainWindow.run events w0)
                  ++ [MainWindow.camera_failed; MainWindow.tracking_stopped]
              /\ EyeTrackingInterface.is_running
                   (MainWindow.eye_tracker
                      (MainWindow.run
                         (events ++ [MainWindow.ClickTrack camera;
                                     MainWindow.ClickTrack camera']) w0))
                 = false).
Proof.
  destruct (main_window_init screen_width screen_height) as (rm & Hrm & Hinit).
  eexists. split; [exact Hinit|].
  match goal with
  | |- context [MainWindow.run events ?w] => set (w0 := w)
  end.
  assert (Hinv : forall events,
    MainWindow.is_tracking (MainWindow.run events w0)
    = Nat.odd (MainWindow.track_clicks events)
    /\ (EyeTrackingInterface.is_running
          (MainWindow.eye_tracker (MainWindow.run events w0)) = true ->
        MainWindow.is_tracking (MainWindow.run events w0) = true
        /\ EyeTrackingInterface.cap
             (MainWindow.eye_tracker (MainWindow.run events w0))
           = Some {| EyeTrackingInterface.opened := true |}
        /\ (1 <= EyeTrackingInterface.loops
                   (MainWindow.eye_tracker (MainWindow.run events w0)))%nat)).
  { clear events. induction events as [|e events IH] using rev_ind.
    - simpl. split; [reflexivity|discriminate].
    - rewrite main_window_run_snoc, track_clicks_snoc.
      destruct IH as (I1 & I2).
      set (w := MainWindow.run events w0) in *.
      destruct e as [camera| | |now|r|]; simpl MainWindow.track_clicks;
        rewrite ?Nat.add_0_r.
      + replace (MainWindow.track_clicks events + 1)%nat
          with (S (MainWindow.track_clicks events)) by lia.
        rewrite Nat.odd_succ, <- Nat.negb_odd, <- I1.
        simpl. unfold MainWindow.toggle_tracking.
        destruct (MainWindow.is_tracking w) eqn:Et.
        * simpl. split; [reflexivity|].
          unfold EyeTrackingInterface.stop_tracking. simpl.
          destruct (EyeTrackingInterface.cap (MainWindow.eye_tracker w));
            simpl; discriminate.
        * split.
          { unfold MainWindow.start_tracking. destruct camera; reflexivity. }
          assert (Hoff : EyeTrackingInterface.is_running
                           (MainWindow.eye_tracker w) = false).
          { destruct (EyeTrackingInterface.is_running (MainWindow.eye_tracker w));
              [|reflexivity].
            destruct (I2 eq_refl) as [H _]. discriminate H. }
          unfold MainWindow.start_tracking.
          destruct camera; simpl; try (rewrite Hoff; discriminate).
          intros _. repeat split; auto. lia.
      + simpl. split; [exact I1|exact I2].
      + simpl. split; [exact I1|exact I2].
      + simpl. split; [exact I1|exact I2].
      + simpl. split; [exact I1|].
        destruct (tracker_pass_cases r (MainWindow.eye_tracker w))
          as [(_ & _ & _ & frame & dx & dy & now & _ & ->)
             |[->|(others & Hl & Hcase & ->)]].
        * cbv zeta.
          destruct (EyeTrackingInterface.calibration_data (MainWindow.eye_tracker w));
            simpl; exact I2.
        * exact I2.
        * simpl. intros Hon. destruct (I2 Hon) as (_ & Hcap & _).
          destruct Hcase as [Hcase|Hcase]; congruence.
      + simpl. split; [exact I1|].
        unfold EyeTrackingInterface.stop_tracking. simpl.
        destruct (EyeTrackingInterface.cap (MainWindow.eye_tracker w));
          simpl; discriminate. }
  destruct (Hinv events) as [H1 H2].
  split; [exact H1|]. split; [exact H2|].
  intros camera Hoff Hcam.
  assert (Hrun : EyeTrackingInterface.is_running
                   (MainWindow.eye_tracker (MainWindow.run events w0)) = false).
  { destruct (EyeTrackingInterface.is_running
                (MainWindow.eye_tracker (MainWindow.run events w0)));
      [|reflexivity].
    destruct (H2 eq_refl) as [H _]. congruence. }
  change [MainWindow.ClickTrack camera; MainWindow.ClickTrack ?c]
    with ([MainWindow.ClickTrack camera] ++ [MainWindow.ClickTrack c]).
  assert (Hfirst :
    MainWindow.is_tracking
      (MainWindow.run (events ++ [MainWindow.ClickTrack camera]) w0) = true
    /\ EyeTrackingInterface.is_running
         (MainWindow.eye_tracker
            (MainWindow.run (events ++ [MainWindow.ClickTrack camera]) w0))
       = false
    /\ MainWindow.status
         (MainWindow.run (events ++ [MainWindow.ClickTrack camera]) w0)
       = MainWindow.status (MainWindow.run events w0)
           ++ [MainWindow.camera_failed]).
  { rewrite main_window_run_snoc. simpl. unfold MainWindow.toggle_tracking.
    rewrite Hoff. unfold MainWindow.start_tracking.
    destruct camera; simpl; try contradiction; auto. }
  destruct Hfirst as (F1 & F2 & F3).
  split; [exact F1|]. split; [exact F2|]. split; [exact F3|].
  intros camera'.
  change [MainWindow.ClickTrack camera; MainWindow.ClickTrack camera']
    with ([MainWindow.ClickTrack camera] ++ [MainWindow.ClickTrack camera']).
  rewrite app_assoc, main_window_run_snoc. simpl.
  unfold MainWindow.toggle_tracking. rewrite F1. simpl. rewrite F3.
  rewrite <- app_assoc. split; [reflexivity|].
  apply tracker_stop_off.
Qed.

(** ** Resolving a point *)

Lemma SFcompare_refl (a : spec_float) :
  a <> S754_nan -> SFcompare a a = Some Eq.
Proof.
  destruct a as [s|s| |s m e]; intros Hn; try congruence; simpl.
  - reflexivity.
  - destruct s; reflexivity.
  - rewrite Z.compare_refl, Pos.compare_cont_refl. destruct s; reflexivity.
Qed.

Lemma is_nan_Prim2SF (x : float) :
  PrimFloat.is_nan x = true -> Prim2SF x = S754_nan.
Proof.
  unfold PrimFloat.is_nan. rewrite FloatAxioms.eqb_spec. unfold SFeqb.
  intros H. destruct (Prim2SF x) as [s|s| |s mant e] eqn:E; [| |reflexivity|];
    rewrite SFcompare_refl in H by discriminate; discriminate H.
Qed.

Lemma leb_nan_r (x y : float) :
  PrimFloat.is_nan y = true -> (x <=? y)%float = false.
Proof.
  intros H. rewrite FloatAxioms.leb_spec, (is_nan_Prim2SF y H). unfold SFleb.
  destruct (Prim2SF x); reflexivity.
Qed.

Lemma find_first {A : Type} (f : A -> bool) (before after : list A) (a : A) :
  f a = true ->
  Forall (fun q => f q = false) before ->
  find f (before ++ a :: after) = Some a.
Proof.
  intros Ha Hb. induction Hb as [|q before Hq _ IH]; simpl.
  - rewrite Ha. reflexivity.
  - rewrite Hq. exact IH.
Qed.

(** X1. [get_region_by_point] resolves a point to a region exactly when that
    region is the first of the list that contains the point, and to [None]
    exactly when no region of the list contains it. A point with a NaN
    coordinate is in no region. The answer depends on the region list and the
    point only: tracking calls in between do not change it. *)
Theorem get_region_by_point_resolves (m : RegionManager.t) (px py : float) :
  (forall r,
      RegionManager.get_region_by_point m px py = Some r
      <-> exists before after,
            RegionManager.regions m = before ++ r :: after
            /\ RegionManager.contains r px py = true
            /\ Forall (fun q => RegionManager.contains q px py = false) before)
  /\ (RegionManager.get_region_by_point m px py = None
      <-> Forall (fun q => RegionManager.contains q px py = false)
            (RegionManager.regions m))
  /\ (PrimFloat.is_nan px = true \/ PrimFloat.is_nan py = true ->
      RegionManager.get_region_by_point m px py = None)
  /\ (forall qx qy now,
        RegionManager.get_region_by_point
          (RegionManager.update_current_region qx qy now m) px py
        = RegionManager.get_region_by_point m px py).
Proof.
  assert (Hnone : Forall (fun q => RegionManager.contains q px py = false)
                    (RegionManager.regions m) ->
                  RegionManager.get_region_by_point m px py = None).
  { unfold RegionManager.get_region_by_point.
    induction 1 as [|q l Hq _ IH]; simpl; [reflexivity|].
    rewrite Hq. exact IH. }
  split; [|split; [|split]].
  - intros r. split.
    + intros H. pose proof (get_region_by_point_first m px py) as Hf.
      rewrite H in Hf. exact Hf.
    + intros (before & after & Hr & Hc & Hb).
      unfold RegionManager.get_region_by_point. rewrite Hr.
      apply find_first; assumption.
  - split; [|exact Hnone].
    intros H. pose proof (get_region_by_point_first m px py) as Hf.
    rewrite H in Hf. exact Hf.
  - intros Hnan. apply Hnone. apply Forall_forall. intros q _.
    unfold RegionManager.contains.
    destruct Hnan as [Hx|Hy].
    + rewrite (leb_nan_r _ px Hx). reflexivity.
    + rewrite (leb_nan_r _ py Hy). rewrite andb_false_r. reflexivity.
  - intros qx qy now. unfold RegionManager.get_region_by_point,
      RegionManager.update_current_region.
    destruct (negb _); reflexivity.
Qed.

(** ** The tick of a dwell test, in full *)










(** ** The welcome window *)

Lemma welcome_ticks_down (n : nat) (s : WelcomeWindow.t) :
  WelcomeWindow.timer s = true ->
  Z.of_nat n <= WelcomeWindow.countdown s ->
  WelcomeWindow.countdown (WelcomeWindow.run (repeat WelcomeWindow.Timeout n) s)
  = WelcomeWindow.countdown s - Z.of_nat n
  /\ WelcomeWindow.timer (WelcomeWindow.run (repeat WelcomeWindow.Timeout n) s)
     = true
  /\ WelcomeWindow.window_closed
       (WelcomeWindow.run (repeat WelcomeWindow.Timeout n) s)
     = WelcomeWindow.window_closed s
  /\ WelcomeWindow.scheduled
       (WelcomeWindow.run (repeat WelcomeWindow.Timeout n) s)
     = WelcomeWindow.scheduled s
  /\ WelcomeWindow.shown (WelcomeWindow.run (repeat WelcomeWindow.Timeout n) s)
     = match n with
       | O => WelcomeWindow.shown s
       | S _ => WelcomeWindow.countdown s - Z.of_nat n + 1
       end.
Proof.
  revert s. induction n as [|n IH]; intros s Ht Hn.
  - simpl. rewrite Z.sub_0_r. repeat split; auto.
  - change (WelcomeWindow.run (repeat WelcomeWindow.Timeout (S n)) s)
      with (WelcomeWindow.run (repeat WelcomeWindow.Timeout n)
              (WelcomeWindow.step s WelcomeWindow.Timeout)).
    assert (E : WelcomeWindow.step s WelcomeWindow.Timeout
                = {| WelcomeWindow.countdown := WelcomeWindow.countdown s - 1;
                     WelcomeWindow.timer := WelcomeWindow.timer s;
                     WelcomeWindow.shown := WelcomeWindow.countdown s;
                     WelcomeWindow.scheduled := WelcomeWindow.scheduled s;
                     WelcomeWindow.window_closed := WelcomeWindow.window_closed s |}).
    { unfold WelcomeWindow.step, WelcomeWindow.update_countdown. rewrite Ht.
      destruct (0 <? WelcomeWindow.countdown s) eqn:E; [reflexivity|].
      apply Z.ltb_ge in E. lia. }
    rewrite E.
    match goal with
    | |- context [WelcomeWindow.run _ ?s1] =>
        destruct (IH s1) as (H1 & H2 & H3 & H4 & H5); [exact Ht|simpl; lia|]
    end.
    rewrite H1, H2, H3, H4, H5. cbn [WelcomeWindow.countdown
      WelcomeWindow.window_closed WelcomeWindow.scheduled WelcomeWindow.shown].
    repeat split; try lia.
    destruct n; lia.
Qed.

Lemma welcome_stopped (n : nat) (s : WelcomeWindow.t) :
  WelcomeWindow.timer s = false ->
  WelcomeWindow.run (repeat WelcomeWindow.Timeout n) s = s.
Proof.
  intros Ht. induction n as [|n IH]; [reflexivity|].
  change (WelcomeWindow.run (repeat WelcomeWindow.Timeout (S n)) s)
    with (WelcomeWindow.run (repeat WelcomeWindow.Timeout n)
            (WelcomeWindow.step s WelcomeWindow.Timeout)).
  unfold WelcomeWindow.step at 1. rewrite Ht. exact IH.
Qed.

(** X20. The countdown of the welcome window. From a window whose timer runs
    with a countdown of [c >= 0]: each of the first [c] timeouts lowers the
    countdown by one and shows the value it found, so the label never shows
    less than 1; no signal is emitted on them. The timeout after those, the
    [c + 1]-th, stops the timer and emits [window_closed] once, and no later
    timeout changes anything. A new window has [c = 5]: it closes on the
    sixth timeout. After the space key the timer is off, so timeouts change
    nothing, and [window_closed] comes from the scheduled single shot. *)
Theorem welcome_window_closes_once (s : WelcomeWindow.t) (n : nat) :
  WelcomeWindow.timer s = true ->
  0 <= WelcomeWindow.countdown s ->
  (Z.of_nat n <= WelcomeWindow.countdown s ->
   WelcomeWindow.countdown (WelcomeWindow.run (repeat WelcomeWindow.Timeout n) s)
   = WelcomeWindow.countdown s - Z.of_nat n
   /\ WelcomeWindow.timer (WelcomeWindow.run (repeat WelcomeWindow.Timeout n) s)
      = true
   /\ WelcomeWindow.window_closed
        (WelcomeWindow.run (repeat WelcomeWindow.Timeout n) s)
      = WelcomeWindow.window_closed s
   /\ ((0 < n)%nat ->
       WelcomeWindow.shown (WelcomeWindow.run (repeat WelcomeWindow.Timeout n) s)
       = WelcomeWindow.countdown s - Z.of_nat n + 1))
  /\ (WelcomeWindow.countdown s < Z.of_nat n ->
      WelcomeWindow.countdown (WelcomeWindow.run (repeat WelcomeWindow.Timeout n) s)
      = 0
      /\ WelcomeWindow.timer (WelcomeWindow.run (repeat WelcomeWindow.Timeout n) s)
         = false
      /\ WelcomeWindow.window_closed
           (WelcomeWindow.run (repeat WelcomeWindow.Timeout n) s)
         = S (WelcomeWindow.window_closed s))
  /\ WelcomeWindow.run (repeat WelcomeWindow.Timeout n)
       (WelcomeWindow.step s WelcomeWindow.Space)
     = WelcomeWindow.step s WelcomeWindow.Space
  /\ WelcomeWindow.window_closed
       (WelcomeWindow.run
          (WelcomeWindow.Space :: repeat WelcomeWindow.Timeout n
             ++ [WelcomeWindow.SingleShot]) s)
     = S (WelcomeWindow.window_closed s).
Proof.
  intros Ht Hc. split; [|split; [|split]].
  - intros Hn. destruct (welcome_ticks_down n s Ht Hn) as (H1 & H2 & H3 & _ & H5).
    repeat split; auto. intros Hpos. rewrite H5. destruct n; [lia|reflexivity].
  - intros Hn.
    set (c := Z.to_nat (WelcomeWindow.countdown s)).
    assert (En : n = (c + S (n - c - 1))%nat) by lia.
    rewrite En, repeat_app. unfold WelcomeWindow.run. rewrite fold_left_app.
    fold (WelcomeWindow.run (repeat WelcomeWindow.Timeout c) s).
    destruct (welcome_ticks_down c s Ht) as (H1 & H2 & H3 & _); [lia|].
    set (s1 := WelcomeWindow.run (repeat WelcomeWindow.Timeout c) s) in *.
    cbn [repeat fold_left].
    fold (WelcomeWindow.run (repeat WelcomeWindow.Timeout (n - c - 1))
            (WelcomeWindow.step s1 WelcomeWindow.Timeout)).
    assert (E : WelcomeWindow.step s1 WelcomeWindow.Timeout
                = WelcomeWindow.close_window
                    {| WelcomeWindow.countdown := WelcomeWindow.countdown s1;
                       WelcomeWindow.timer := false;
                       WelcomeWindow.shown := WelcomeWindow.shown s1;
                       WelcomeWindow.scheduled := WelcomeWindow.scheduled s1;
                       WelcomeWindow.window_closed :=
                         WelcomeWindow.window_closed s1 |}).
    { unfold WelcomeWindow.step, WelcomeWindow.update_countdown. rewrite H2.
      destruct (0 <? WelcomeWindow.countdown s1) eqn:E; [|reflexivity].
      apply Z.ltb_lt in E. lia. }
    rewrite E, welcome_stopped by reflexivity. simpl.
    repeat split; [lia|congruence].
  - apply welcome_stopped. reflexivity.
  - change (WelcomeWindow.Space
              :: repeat WelcomeWindow.Timeout n ++ [WelcomeWindow.SingleShot])
      with ([WelcomeWindow.Space]
              ++ repeat WelcomeWindow.Timeout n ++ [WelcomeWindow.SingleShot]).
    unfold WelcomeWindow.run. rewrite !fold_left_app.
    cbn [fold_left].
    fold (WelcomeWindow.run (repeat WelcomeWindow.Timeout n)
            (WelcomeWindow.step s WelcomeWindow.Space)).
    rewrite welcome_stopped by reflexivity. reflexivity.
Qed.

Lemma welcome_window_closes_once_witness :
  WelcomeWindow.window_closed
    (WelcomeWindow.run (repeat WelcomeWindow.Timeout 5) WelcomeWindow.__init__)
  = O
  /\ WelcomeWindow.window_closed
       (WelcomeWindow.run (repeat WelcomeWindow.Timeout 6) WelcomeWindow.__init__)
     = 1%nat.
Proof.
  split.
  - apply (proj1 (welcome_window_closes_once WelcomeWindow.__init__ 5
                    eq_refl ltac:(simpl; lia))).
    simpl. lia.
  - apply (proj1 (proj2 (welcome_window_closes_once WelcomeWindow.__init__ 6
                           eq_refl ltac:(simpl; lia)))).
    simpl. lia.
Defined.
